(** * Vibe Code Assistant: the project-plan pipeline of [app.py]

    A shallow embedding of the validator, the timeline synthesizer, the
    renderers, the plan assembler, the request handlers and the persistence
    mapping of [app.py], with the properties of its specification.

    Conventions of the embedding.
    - A request body is a JSON document, so a Python value is a [value]:
      [None], a boolean, an integer, a string, a list, or a dict with string
      keys kept in insertion order.  JSON numbers are integers here.
    - A Python [str] received from a client is a [string] whose characters
      are the code points U+0000..U+00FF; the case and word-character tables
      below are those of Python 3 on that range.  Text produced by the
      program is a [ustr], a list of code points, since title-casing and the
      fixed templates leave that range.
    - A raised exception is a [Raise] result; the handlers catch it and
      answer with status 500.
    - The one [float] of the program, the quotient
      [days * percentage / 100], is an IEEE 754 binary64 number, as the
      [float] of CPython is.
    - The program runs on Linux: a file name has 255 bytes at most, and
      [strftime] does not pad the year. *)

From Stdlib Require Import ZArith NArith List String Ascii Bool Lia.
From Stdlib Require Import DecimalString.
From Stdlib Require DecimalPos DecimalZ.
Import ListNotations.

Set Warnings "-register-all".
Local Open Scope string_scope.
Local Open Scope list_scope.
Local Open Scope Z_scope.

(** String concatenation; [++] is kept for lists. *)
Infix "+++" := String.append (at level 60, right associativity).

(** ** Python values and builtins *)

Module Py.

Inductive value : Type :=
| PNone
| PBool (b : bool)
| PInt (z : Z)
| PStr (s : string)
| PList (l : list value)
| PDict (d : list (string * value)).

Definition dict := list (string * value).

Inductive pyexn : Type :=
| AttributeError
| TypeError
| KeyError
| ValueError
| ZeroDivisionError
| OverflowError
| OSError.

Inductive result (A : Type) : Type :=
| Ok (a : A)
| Raise (e : pyexn).
Arguments Ok {A} a.
Arguments Raise {A} e.

Definition bind {A B} (c : result A) (k : A -> result B) : result B :=
  match c with
  | Ok a => k a
  | Raise e => Raise e
  end.

(** [d.get(k)]: the first binding of [k]. *)
Fixpoint dict_get (k : string) (d : dict) : option value :=
  match d with
  | [] => None
  | (k', v) :: rest => if String.eqb k k' then Some v else dict_get k rest
  end.

(** [d.get(k, default)]. *)
Definition get_default (k : string) (default : value) (d : dict) : value :=
  match dict_get k d with
  | Some v => v
  | None => default
  end.

(** [d[k]]. *)
Definition subscript (d : dict) (k : string) : result value :=
  match dict_get k d with
  | Some v => Ok v
  | None => Raise KeyError
  end.

(** Truth value of an object, as [if x], [not x] and [x or y] test it. *)
Definition truthy (v : value) : bool :=
  match v with
  | PNone => false
  | PBool b => b
  | PInt z => negb (z =? 0)
  | PStr s => negb (String.eqb s "")
  | PList l => match l with [] => false | _ => true end
  | PDict d => match d with [] => false | _ => true end
  end.

(** [d.get(k)] in a boolean context: a missing key gives [None]. *)
Definition truthy_get (k : string) (d : dict) : bool :=
  match dict_get k d with
  | Some v => truthy v
  | None => false
  end.

(** [d.get(k) or default]. *)
Definition get_or (k : string) (default : value) (d : dict) : value :=
  match dict_get k d with
  | Some v => if truthy v then v else default
  | None => default
  end.

(** [v == s] for a string literal [s]: only an equal string is equal. *)
Definition eq_str (v : value) (s : string) : bool :=
  match v with
  | PStr s' => String.eqb s' s
  | _ => false
  end.

(** [v in [s1, ..., sn]] for a list of string literals. *)
Definition in_strs (v : value) (l : list string) : bool :=
  existsb (eq_str v) l.

(** *** Code points *)

Definition ustr := list N.

Definition codes (s : string) : ustr :=
  List.map N_of_ascii (list_ascii_of_string s).

Definition of_codes (l : ustr) : string :=
  string_of_list_ascii (List.map ascii_of_N l).

Definition between (lo hi c : N) : bool := ((lo <=? c) && (c <=? hi))%N.

Definition one_of (l : list N) (c : N) : bool := existsb (N.eqb c) l.

(** [\w] of [re] on a [str] pattern: alphanumeric or underscore. *)
Definition is_word (c : N) : bool :=
  between 48 57 c || between 65 90 c || (c =? 95)%N || between 97 122 c
  || one_of [170; 178; 179; 181; 185; 186; 188; 189; 190]%N c
  || between 192 214 c || between 216 246 c || between 248 255 c.

Definition to_lower (c : N) : N :=
  if between 65 90 c || between 192 214 c || between 216 222 c
  then (c + 32)%N else c.

Definition is_cased (c : N) : bool :=
  between 65 90 c || between 97 122 c || one_of [170; 181; 186]%N c
  || between 192 214 c || between 216 246 c || between 248 255 c.

Definition to_title (c : N) : list N :=
  if between 97 122 c || between 224 246 c || between 248 254 c
  then [(c - 32)%N]
  else if (c =? 181)%N then [924%N]
  else if (c =? 223)%N then [83%N; 115%N]
  else if (c =? 255)%N then [376%N]
  else [c].

Definition is_printable (c : N) : bool :=
  negb ((c <? 32)%N || between 127 160 c || (c =? 173)%N).

(** [s.lower()]. *)
Definition lower (s : string) : string :=
  of_codes (List.map to_lower (codes s)).

(** [s.replace(a, b)] for single characters [a] and [b]. *)
Definition replace_char (a b : N) (s : string) : string :=
  of_codes (List.map (fun c => if (c =? a)%N then b else c) (codes s)).

(** [s.title()]: a character that follows a cased one is lower-cased, any
    other is title-cased. *)
Fixpoint title_from (previous_is_cased : bool) (l : list N) : ustr :=
  match l with
  | [] => []
  | c :: rest =>
      (if previous_is_cased then [to_lower c] else to_title c)
        ++ title_from (is_cased c) rest
  end.

Definition title (s : string) : ustr := title_from false (codes s).

(** [sub in s] on strings. *)
Fixpoint starts_with {A} (eqb : A -> A -> bool) (p l : list A) : bool :=
  match p, l with
  | [], _ => true
  | _ :: _, [] => false
  | a :: p', b :: l' => eqb a b && starts_with eqb p' l'
  end.

Fixpoint contains (p l : ustr) : bool :=
  starts_with N.eqb p l ||
  match l with
  | [] => false
  | _ :: l' => contains p l'
  end.

Definition str_contains (p s : string) : bool := contains (codes p) (codes s).

(** *** [str()] and [repr()] *)

Definition str_of_int (z : Z) : string := NilZero.string_of_int (Z.to_int z).

Definition hex_digit (n : N) : N :=
  if (n <? 10)%N then (48 + n)%N else (87 + n)%N.

Definition repr_char (quote c : N) : list N :=
  if (c =? 92)%N then [92; 92]%N
  else if (c =? quote)%N then [92%N; quote]
  else if (c =? 9)%N then [92; 116]%N
  else if (c =? 10)%N then [92; 110]%N
  else if (c =? 13)%N then [92; 114]%N
  else if is_printable c then [c]
  else [92%N; 120%N; hex_digit (c / 16); hex_digit (c mod 16)].

Definition repr_str (s : string) : string :=
  let cs := codes s in
  let quote :=
    if one_of cs 39%N && negb (one_of cs 34%N) then 34%N else 39%N in
  of_codes ([quote] ++ List.flat_map (repr_char quote) cs ++ [quote]).

Fixpoint join (sep : string) (l : list string) : string :=
  match l with
  | [] => ""
  | [x] => x
  | x :: rest => x +++ sep +++ join sep rest
  end.

Fixpoint repr (v : value) : string :=
  match v with
  | PNone => "None"
  | PBool true => "True"
  | PBool false => "False"
  | PInt z => str_of_int z
  | PStr s => repr_str s
  | PList l => "[" +++ join ", " (List.map repr l) +++ "]"
  | PDict d =>
      "{" +++ join ", "
                (List.map (fun kv => repr_str (fst kv) +++ ": " +++ repr (snd kv)) d)
          +++ "}"
  end.

(** [str(v)], the text an f-string puts for [{v}]. *)
Definition str (v : value) : string :=
  match v with
  | PStr s => s
  | _ => repr v
  end.

(** [len(v)]. *)
Definition len (v : value) : result Z :=
  match v with
  | PStr s => Ok (Z.of_nat (String.length s))
  | PList l => Ok (Z.of_nat (List.length l))
  | PDict d => Ok (Z.of_nat (List.length d))
  | _ => Raise TypeError
  end.

(** The items [for x in v] goes through. *)
Definition iter (v : value) : result (list value) :=
  match v with
  | PStr s =>
      Ok (List.map (fun a => PStr (String a EmptyString)) (list_ascii_of_string s))
  | PList l => Ok l
  | PDict d => Ok (List.map (fun kv => PStr (fst kv)) d)
  | _ => Raise TypeError
  end.

(** ['lit' in v]: substring of a string, element of a list, key of a dict. *)
Definition contains_str (lit : string) (v : value) : result bool :=
  match v with
  | PStr s => Ok (str_contains lit s)
  | PList l => Ok (existsb (fun x => eq_str x lit) l)
  | PDict d => Ok (existsb (fun kv => String.eqb (fst kv) lit) d)
  | _ => Raise TypeError
  end.

(** [v.get(k, default)] on a value that may not be a dict. *)
Definition value_get (v : value) (k : string) (default : value) : result value :=
  match v with
  | PDict d => Ok (get_default k default d)
  | _ => Raise AttributeError
  end.

(** [v.keys()]. *)
Definition keys (v : value) : result (list string) :=
  match v with
  | PDict d => Ok (List.map fst d)
  | _ => Raise AttributeError
  end.

(** A string method called on [v]. *)
Definition as_str (v : value) : result string :=
  match v with
  | PStr s => Ok s
  | _ => Raise AttributeError
  end.

(** A dict method called on [v]. *)
Definition as_dict (v : value) : result dict :=
  match v with
  | PDict d => Ok d
  | _ => Raise AttributeError
  end.

(** [any(name in v for name in names)]. *)
Fixpoint any_in (names : list string) (v : value) : result bool :=
  match names with
  | [] => Ok false
  | name :: rest =>
      match contains_str name v with
      | Ok true => Ok true
      | Ok false => any_in rest v
      | Raise e => Raise e
      end
  end.

(** [hash(v)] succeeds: lists and dicts cannot be dictionary keys. *)
Definition hashable (v : value) : result unit :=
  match v with
  | PList _ | PDict _ => Raise TypeError
  | _ => Ok tt
  end.

End Py.

Import Py.

Notation "x <- c ;; k" := (bind c (fun x => k))
  (at level 61, c at next level, right associativity).

(** ** Validator *)

Definition required_fields : list string :=
  ["project_type"; "timeline"; "difficulty"].

Definition valid_types : list string := ["fullstack"; "frontend"; "backend"].

Definition valid_timelines : list string :=
  ["weekend"; "1week"; "2weeks"; "1month"; "3months"; "open"].

Definition valid_difficulties : list string :=
  ["beginner"; "intermediate"; "advanced"; "expert"].

(** The loop over [required_fields]: the first field whose [data.get(field)]
    is falsy, if any. *)
Fixpoint missing_field (fields : list string) (data : dict) : option string :=
  match fields with
  | [] => None
  | field :: rest =>
      if negb (truthy_get field data) then Some field
      else missing_field rest data
  end.

Definition validate_project_data (data : dict) : result (bool * option string) :=
  match missing_field required_fields data with
  | Some field => Ok (false, Some ("Missing required field: " +++ field))
  | None =>
      project_type <- subscript data "project_type" ;;
      if negb (in_strs project_type valid_types)
      then Ok (false, Some ("Invalid project type: " +++ str project_type))
      else
        timeline <- subscript data "timeline" ;;
        if negb (in_strs timeline valid_timelines)
        then Ok (false, Some ("Invalid timeline: " +++ str timeline))
        else
          difficulty <- subscript data "difficulty" ;;
          if negb (in_strs difficulty valid_difficulties)
          then Ok (false, Some ("Invalid difficulty: " +++ str difficulty))
          else Ok (true, None)
  end.

(** *** The validator's contract, in the specification's words *)

(** A field is legal when it is bound to a string of its enumerated set. *)
Definition legal (field : string) (allowed : list string) (data : dict) : Prop :=
  exists s, dict_get field data = Some (PStr s) /\ In s allowed.

Definition legal_config (data : dict) : Prop :=
  legal "project_type" ["fullstack"; "frontend"; "backend"] data
  /\ legal "timeline"
       ["weekend"; "1week"; "2weeks"; "1month"; "3months"; "open"] data
  /\ legal "difficulty" ["beginner"; "intermediate"; "advanced"; "expert"]
       data.

(** The enumerated fields in the order of their checks, each with the label
    of its message and its set. *)
Definition spec_enumerations : list (string * string * list string) :=
  [ ("project_type", "Invalid project type: ",
     ["fullstack"; "frontend"; "backend"]);
    ("timeline", "Invalid timeline: ",
     ["weekend"; "1week"; "2weeks"; "1month"; "3months"; "open"]);
    ("difficulty", "Invalid difficulty: ",
     ["beginner"; "intermediate"; "advanced"; "expert"]) ].

(** Every presence violation, in field order. *)
Definition spec_presence_violations (data : dict) : list string :=
  flat_map
    (fun field =>
       if truthy_get field data then []
       else ["Missing required field: " +++ field])
    ["project_type"; "timeline"; "difficulty"].

(** Every enumeration violation, in field order. *)
Definition spec_enum_violations (data : dict) : list string :=
  flat_map
    (fun '(field, label, allowed) =>
       match dict_get field data with
       | Some v => if in_strs v allowed then [] else [label +++ str v]
       | None => []
       end)
    spec_enumerations.

(** The violation reported: presence before enumeration, first one only. *)
Definition spec_first_violation (data : dict) : option string :=
  hd_error (spec_presence_violations data ++ spec_enum_violations data).

(** The required fields checked before [field]. *)
Fixpoint fields_before (field : string) (fields : list string) : list string :=
  match fields with
  | [] => []
  | f :: rest => if String.eqb f field then [] else f :: fields_before field rest
  end.

(** ** Timeline synthesizer *)

Definition nl : string := String (ascii_of_nat 10) EmptyString.

(** *** Floating point

    [days * percentage / 100] divides two [int]s, which gives a [float],
    and [round] takes it back to an [int]. *)

(** The integer nearest to [n / d] for [d > 0], a tie going to the even
    one. *)
Definition round_div (n d : Z) : Z :=
  let q := n / d in
  let r := n mod d in
  if 2 * r <? d then q
  else if d <? 2 * r then q + 1
  else if Z.even q then q else q + 1.

(** A finite [float], an IEEE 754 binary64 number: [mantissa] times 2 to
    the [exponent], the mantissa of 53 bits at most and the exponent -1074
    at least. *)
Record float : Type := Float { mantissa : Z; exponent : Z }.

(** The greatest [k] with [2 ^ k <= a / b], for positive [a] and [b]. *)
Definition log2_quotient (a b : Z) : Z :=
  let k := Z.log2 a - Z.log2 b in
  if 0 <=? k
  then (if b * 2 ^ k <=? a then k else k - 1)
  else (if b <=? a * 2 ^ (- k) then k else k - 1).

(** [n / d] for two [int]s.  The quotient is correctly rounded: its
    mantissa is the integer nearest to the quotient scaled to 53 bits, a
    tie going to the even one; a quotient that rounds to [2 ^ 1024] or
    more raises [OverflowError]. *)
Definition int_true_div (n d : Z) : result float :=
  if d =? 0 then Raise ZeroDivisionError
  else if n =? 0 then Ok (Float 0 0)
  else
    let e := Z.max (- 1074) (log2_quotient (Z.abs n) (Z.abs d) - 52) in
    let m :=
      if 0 <=? e then round_div (Z.sgn d * n) (Z.abs d * 2 ^ e)
      else round_div (Z.sgn d * n * 2 ^ (- e)) (Z.abs d) in
    if 2 ^ 1024 <=? Z.abs m * 2 ^ e then Raise OverflowError
    else Ok (Float m e).

(** [round(x)] for a [float]: the nearest [int], a tie going to the even
    one. *)
Definition round_float (x : float) : Z :=
  if 0 <=? exponent x then mantissa x * 2 ^ exponent x
  else round_div (mantissa x) (2 ^ (- exponent x)).

(** A phase of a template: name, percentage, tasks. *)
Definition phase : Type := string * Z * list string.

Definition percentage (p : phase) : Z := snd (fst p).
Definition tasks (p : phase) : list string := snd p.

(** The template chosen by the chain [days <= 3], [days <= 7], [days <= 14]. *)
Definition select_phases (days : Z) : list phase :=
  if days <=? 3 then
    [ ("Planning & Setup", 20,
       ["Project setup"; "Environment configuration"; "Basic structure"]);
      ("Core Development", 60,
       ["Implement main features"; "Basic functionality"]);
      ("Testing & Polish", 20,
       ["Bug fixes"; "Basic testing"; "Documentation"]) ]
  else if days <=? 7 then
    [ ("Planning & Setup", 15,
       ["Project setup"; "Environment configuration"; "Architecture planning"]);
      ("Core Development", 50,
       ["Database models"; "API routes"; "Basic UI"]);
      ("Features & Integration", 25,
       ["Implement features"; "Third-party integrations"]);
      ("Testing & Polish", 10,
       ["Testing"; "Bug fixes"; "Documentation"]) ]
  else if days <=? 14 then
    [ ("Planning & Setup", 10,
       ["Project setup"; "Environment configuration"; "Architecture planning"]);
      ("Core Development", 40,
       ["Database models"; "API routes"; "Basic UI"]);
      ("Features & Integration", 35,
       ["Implement features"; "Third-party integrations";
        "Advanced functionality"]);
      ("Testing & Polish", 15,
       ["Comprehensive testing"; "Bug fixes"; "Performance optimization";
        "Documentation"]) ]
  else
    [ ("Planning & Setup", 10,
       ["Project setup"; "Environment configuration"; "Architecture planning";
        "Team setup"]);
      ("Core Development", 35,
       ["Database models"; "API routes"; "Basic UI"; "Core features"]);
      ("Features & Integration", 35,
       ["Implement features"; "Third-party integrations";
        "Advanced functionality"; "AI/ML integration"]);
      ("Testing & Polish", 20,
       ["Comprehensive testing"; "Performance optimization"; "Security audit";
        "Documentation"; "Deployment"]) ].

(** [phase_days = max(1, round(days * percentage / 100))]. *)
Definition phase_days (days pct : Z) : result Z :=
  quotient <- int_true_div (days * pct) 100 ;;
  Ok (Z.max 1 (round_float quotient)).

(** The text one phase adds to [timeline]. *)
Definition render_phase (phase_name : string) (current_day end_day : Z)
    (tasks : list string) : string :=
  "### " +++ phase_name +++ " (Day " +++ str_of_int current_day +++ "-"
    +++ str_of_int end_day +++ ")" +++ nl
    +++ fold_left (fun t task => t +++ "- [ ] " +++ task +++ nl) tasks ""
    +++ nl.

(** A [for] loop over [l] whose body may raise, on the state [st]. *)
Fixpoint for_each {A S : Type} (body : S -> A -> result S) (l : list A)
    (st : S) : result S :=
  match l with
  | [] => Ok st
  | x :: rest => st <- body st x ;; for_each body rest st
  end.

(** One turn of the loop over [phases], on the pair
    ([timeline], [current_day]). *)
Definition phase_step (days : Z) (st : string * Z) (p : phase)
  : result (string * Z) :=
  let '(timeline, current_day) := st in
  let '(phase_name, pct, tasks) := p in
  phase_length <- phase_days days pct ;;
  let end_day := current_day + phase_length - 1 in
  Ok (timeline +++ render_phase phase_name current_day end_day tasks,
      end_day + 1).

Definition generate_timeline_phases (days : Z) (project_type difficulty : value)
  : result string :=
  st <- for_each (phase_step days) (select_phases days) ("", 1) ;;
  Ok (fst st).

(** The day range [(current_day, end_day)] of each phase, as the loop
    computes them from [current_day] on. *)
Fixpoint day_ranges (days current_day : Z) (phases : list phase)
  : result (list (Z * Z)) :=
  match phases with
  | [] => Ok []
  | p :: rest =>
      phase_length <- phase_days days (percentage p) ;;
      let end_day := current_day + phase_length - 1 in
      ranges <- day_ranges days (end_day + 1) rest ;;
      Ok ((current_day, end_day) :: ranges)
  end.

Definition span (range : Z * Z) : Z := snd range - fst range + 1.

Definition sum (l : list Z) : Z := fold_right Z.add 0 l.

(** Ranges that follow one another from [start] on without gap or overlap. *)
Fixpoint contiguous_from (start : Z) (ranges : list (Z * Z)) : Prop :=
  match ranges with
  | [] => True
  | (s, e) :: rest => s = start /\ s <= e /\ contiguous_from (e + 1) rest
  end.

(** The text of the phases laid out on given ranges. *)
Fixpoint render_phases (phases : list phase) (ranges : list (Z * Z)) : string :=
  match phases, ranges with
  | (phase_name, _, tasks) :: ps, (current_day, end_day) :: rs =>
      render_phase phase_name current_day end_day tasks +++ render_phases ps rs
  | _, _ => ""
  end.

(** *** The timeline, in the specification's words *)

(** The percentages of the four day-count buckets. *)
Definition spec_percentages (d : Z) : list Z :=
  if d <=? 3 then [20; 60; 20]
  else if d <=? 7 then [15; 50; 25; 10]
  else if d <=? 14 then [10; 40; 35; 15]
  else [10; 35; 35; 20].

(** [max(1, round(d * pct / 100))], the quotient rounded exactly. *)
Definition spec_phase_days (d pct : Z) : Z :=
  Z.max 1 (round_div (d * pct) 100).

Definition spec_spans (d : Z) : list Z :=
  List.map (spec_phase_days d) (spec_percentages d).

(** Ranges of the given spans laid out one after the other from [start]:
    a range ends on its start + span - 1, the next one starts on the
    following day. *)
Fixpoint spec_ranges (start : Z) (spans : list Z) : list (Z * Z) :=
  match spans with
  | [] => []
  | n :: rest => (start, start + n - 1) :: spec_ranges (start + n) rest
  end.

(** A phase as the timeline shows it: a heading with its day range, an
    unchecked box for each task, an empty line. *)
Definition spec_phase_text (p : phase) (range : Z * Z) : string :=
  "### " +++ fst (fst p) +++ " (Day " +++ str_of_int (fst range) +++ "-"
    +++ str_of_int (snd range) +++ ")" +++ nl
    +++ String.concat "" (List.map (fun task => "- [ ] " +++ task +++ nl)
                            (tasks p))
    +++ nl.

Fixpoint spec_timeline_text (phases : list phase) (ranges : list (Z * Z))
  : string :=
  match phases, ranges with
  | p :: ps, range :: rs => spec_phase_text p range +++ spec_timeline_text ps rs
  | _, _ => ""
  end.

(** The total span of a list of percentages at a day-count. *)
Definition template_total (d : Z) (pcts : list Z) : Z :=
  sum (List.map (spec_phase_days d) pcts).

(** The day-counts for which [days * percentage / 100] is below [2 ^ 53]:
    there the rounded quotient is as near to the exact one as the nearest
    integer is far from it, and [round] gives what rounding the exact
    quotient gives. *)
Definition exact_days : Z := 10 ^ 14.

(** ** Renderers *)

Fixpoint ujoin (sep : ustr) (l : list ustr) : ustr :=
  match l with
  | [] => []
  | [x] => x
  | x :: rest => x ++ sep ++ ujoin sep rest
  end.

Definition format_tech_list (tech_list : value) : result string :=
  if negb (truthy tech_list) then Ok "- *No specific technologies selected*"
  else
    items <- iter tech_list ;;
    Ok (join nl (List.map (fun tech => "- " +++ str tech) items)).

(** U+2705, the check mark put before a feature. *)
Definition check_mark : ustr := [9989%N].

Definition format_features_list (features : value) : result ustr :=
  if negb (truthy features) then Ok (codes "- *No specific features selected*")
  else
    items <- iter features ;;
    Ok (ujoin (codes nl)
          (List.map
             (fun feature => codes "- " ++ check_mark ++ codes " "
                               ++ codes (str feature))
             items)).

(** *** Structure renderer *)

(** U+1F4C1 and U+1F4C4, and the box-drawing branches of the diagrams. *)
Definition folder : ustr := [128193%N].
Definition page : ustr := [128196%N].
Definition tee : ustr := [9500; 9472; 9472]%N.
Definition ell : ustr := [9492; 9472; 9472]%N.
Definition in1 : ustr := [9474%N] ++ codes "   ".
Definition in2 : ustr := in1 ++ in1.

Definition tree_line (indent branch icon : ustr) (name : string) : ustr :=
  indent ++ branch ++ codes " " ++ icon ++ codes " " ++ codes name.

Definition root_line (repo_name : value) : ustr :=
  folder ++ codes " " ++ codes (str repo_name) ++ codes "/".

Definition structure_fullstack (repo_name : value) : ustr :=
  ujoin (codes nl)
    [ root_line repo_name;
      tree_line [] tee folder "frontend/";
      tree_line in1 tee page "package.json";
      tree_line in1 tee folder "src/";
      tree_line in2 tee folder "components/";
      tree_line in2 tee folder "pages/";
      tree_line in2 ell folder "assets/";
      tree_line in1 ell page "index.html";
      tree_line [] tee folder "backend/";
      tree_line in1 tee page "app.py / server.js";
      tree_line in1 tee page "requirements.txt / package.json";
      tree_line in1 tee folder "models/";
      tree_line in1 tee folder "routes/";
      tree_line in1 ell folder "utils/";
      tree_line [] tee folder "database/";
      tree_line in1 ell page "migrations/";
      tree_line [] tee page "docker-compose.yml";
      tree_line [] tee page ".env.example";
      tree_line [] tee page ".gitignore";
      tree_line [] tee page "README.md";
      tree_line [] ell page "LICENSE" ].

Definition structure_frontend (repo_name : value) : ustr :=
  ujoin (codes nl)
    [ root_line repo_name;
      tree_line [] tee folder "src/";
      tree_line in1 tee folder "components/";
      tree_line in1 tee folder "pages/";
      tree_line in1 tee folder "assets/";
      tree_line in1 ell folder "styles/";
      tree_line [] tee page "package.json";
      tree_line [] tee page "vite.config.js / webpack.config.js";
      tree_line [] tee page ".gitignore";
      tree_line [] tee page "README.md";
      tree_line [] tee page "index.html";
      tree_line [] ell page "LICENSE" ].

Definition structure_backend (repo_name : value) : ustr :=
  ujoin (codes nl)
    [ root_line repo_name;
      tree_line [] tee folder "src/";
      tree_line in1 tee folder "controllers/";
      tree_line in1 tee folder "models/";
      tree_line in1 tee folder "routes/";
      tree_line in1 tee folder "middleware/";
      tree_line in1 ell folder "utils/";
      tree_line [] tee page "package.json / requirements.txt";
      tree_line [] tee page "server.js / app.py";
      tree_line [] tee page ".env.example";
      tree_line [] tee page ".gitignore";
      tree_line [] tee page "README.md";
      tree_line [] tee page "dockerfile";
      tree_line [] ell page "LICENSE" ].

(** [structures.get(project_type, structures['fullstack'])]: the lookup
    hashes [project_type]. *)
Definition generate_file_structure (project_type repo_name : value)
  : result ustr :=
  _ <- hashable project_type ;;
  if eq_str project_type "fullstack" then Ok (structure_fullstack repo_name)
  else if eq_str project_type "frontend" then Ok (structure_frontend repo_name)
  else if eq_str project_type "backend" then Ok (structure_backend repo_name)
  else Ok (structure_fullstack repo_name).

(** *** Getting-started renderer *)

Definition clone_step (github_username repo_name : value) : string :=
  "1. Clone the repository:" +++ nl
  +++ "   ```bash" +++ nl
  +++ "   git clone https://github.com/" +++ str github_username +++ "/"
  +++ str repo_name +++ ".git" +++ nl
  +++ "   cd " +++ str repo_name +++ nl
  +++ "   ```" +++ nl +++ nl.

Definition frontend_react : string :=
  "   cd frontend" +++ nl +++ "   npm install" +++ nl +++ "   npm start" +++ nl.

Definition frontend_vue : string :=
  "   cd frontend" +++ nl +++ "   npm install" +++ nl
  +++ "   npm run dev" +++ nl.

Definition frontend_generic : string :=
  "   # Follow the specific setup instructions for your chosen frontend" +++ nl.

Definition backend_python : string :=
  "   cd backend" +++ nl
  +++ "   python -m venv venv" +++ nl
  +++ "   source venv/bin/activate  # On Windows: venv\Scripts\activate" +++ nl
  +++ "   pip install -r requirements.txt" +++ nl
  +++ "   python app.py" +++ nl.

Definition backend_node : string :=
  "   cd backend" +++ nl +++ "   npm install" +++ nl +++ "   npm start" +++ nl.

Definition backend_generic : string :=
  "   # Follow the specific setup instructions for your chosen backend" +++ nl.

Definition frontend_header : string :=
  "2. Set up frontend:" +++ nl +++ "   ```bash" +++ nl.

Definition backend_header : string :=
  "3. Set up backend:" +++ nl +++ "   ```bash" +++ nl.

Definition fence_end : string := "   ```" +++ nl +++ nl.

Definition trailing_steps : string :=
  "4. Set up environment variables (copy .env.example to .env)" +++ nl
  +++ "5. Start development servers" +++ nl
  +++ "6. Open your browser to the frontend URL" +++ nl.

Definition generate_getting_started
    (tech_stack project_type github_username repo_name : value)
  : result string :=
  frontend <- value_get tech_stack "frontend" (PList []) ;;
  backend <- value_get tech_stack "backend" (PList []) ;;
  let instructions := clone_step github_username repo_name in
  instructions <-
    (if in_strs project_type ["fullstack"; "frontend"] && truthy frontend then
       let instructions := instructions +++ frontend_header in
       instructions <-
         (has_react <- contains_str "React" frontend ;;
          if has_react then Ok (instructions +++ frontend_react)
          else
            has_vue <- contains_str "Vue.js" frontend ;;
            if has_vue then Ok (instructions +++ frontend_vue)
            else Ok (instructions +++ frontend_generic)) ;;
       Ok (instructions +++ fence_end)
     else Ok instructions) ;;
  instructions <-
    (if in_strs project_type ["fullstack"; "backend"] && truthy backend then
       let instructions := instructions +++ backend_header in
       instructions <-
         (has_python <- contains_str "Python" backend ;;
          python_or_flask <-
            (if has_python then Ok true else contains_str "Flask" backend) ;;
          if python_or_flask then Ok (instructions +++ backend_python)
          else
            has_node <- contains_str "Node.js" backend ;;
            if has_node then Ok (instructions +++ backend_node)
            else Ok (instructions +++ backend_generic)) ;;
       Ok (instructions +++ fence_end)
     else Ok instructions) ;;
  Ok (instructions +++ trailing_steps).

(** ** Plan assembler *)

(** A reading of the clock, [datetime.now()]. *)
Record datetime : Type :=
  { year : Z; month : Z; day : Z; hour : Z; minute : Z; second : Z;
    microsecond : Z }.

Definition pad2 (n : Z) : string :=
  if n <? 10 then "0" +++ str_of_int n else str_of_int n.

Definition pad4 (n : Z) : string :=
  if n <? 10 then "000" +++ str_of_int n
  else if n <? 100 then "00" +++ str_of_int n
  else if n <? 1000 then "0" +++ str_of_int n
  else str_of_int n.

(** [strftime('%Y-%m-%d')], with the C library of Linux: the year is not
    padded. *)
Definition strftime_date (t : datetime) : string :=
  str_of_int (year t) +++ "-" +++ pad2 (month t) +++ "-" +++ pad2 (day t).

(** [strftime('%Y-%m-%d %H:%M')]. *)
Definition strftime_minute (t : datetime) : string :=
  strftime_date t +++ " " +++ pad2 (hour t) +++ ":" +++ pad2 (minute t).

(** The day-count of a timeline value. *)
Definition timeline_days_of (timeline : value) : Z :=
  if eq_str timeline "weekend" then 3
  else if eq_str timeline "1week" then 7
  else if eq_str timeline "2weeks" then 14
  else if eq_str timeline "1month" then 30
  else if eq_str timeline "3months" then 90
  else if eq_str timeline "open" then 0
  else 7.

(** [s.replace('_', ' ').title()]. *)
Definition humanize (s : string) : ustr := title (replace_char 95 32 s).

Definition yes_no (v : value) : string := if truthy v then "Yes" else "No".

(** The emoji of the section headings: U+1F4CB, U+1F3AF, U+1F6E0 U+FE0F,
    U+2728, U+1F680. *)
Definition clipboard : ustr := [128203%N].
Definition direct_hit : ustr := [127919%N].
Definition hammer_and_wrench : ustr := [128736; 65039]%N.
Definition sparkles : ustr := [10024%N].
Definition rocket : ustr := [128640%N].

(** The document, the f-string of [generate_project_plan], from the values
    its replacement fields evaluate to. *)
Definition plan_document (title description : value)
    (type_text timeline_text : string) (timeline_days : Z)
    (difficulty_text : string) (created : datetime)
    (frontend_list backend_list database_list tools_list : string)
    (features_list : ustr) (platform_text : string)
    (github_username repo_name : value)
    (include_readme include_license include_gitignore include_venv : value)
    (generated : datetime) : ustr :=
  codes "# " ++ codes (str title) ++ codes nl
  ++ codes nl
  ++ codes "## " ++ clipboard ++ codes " Project Overview" ++ codes nl
  ++ codes (str description) ++ codes nl
  ++ codes nl
  ++ codes "## " ++ direct_hit ++ codes " Project Details" ++ codes nl
  ++ codes "- **Type:** " ++ humanize type_text ++ codes nl
  ++ codes "- **Timeline:** " ++ humanize timeline_text
  ++ codes " (" ++ codes (str_of_int timeline_days) ++ codes " days)"
  ++ codes nl
  ++ codes "- **Difficulty:** " ++ Py.title difficulty_text ++ codes nl
  ++ codes "- **Created:** " ++ codes (strftime_minute created) ++ codes nl
  ++ codes nl
  ++ codes "## " ++ hammer_and_wrench ++ codes " Tech Stack" ++ codes nl
  ++ codes "### Frontend" ++ codes nl
  ++ codes frontend_list ++ codes nl
  ++ codes nl
  ++ codes "### Backend" ++ codes nl
  ++ codes backend_list ++ codes nl
  ++ codes nl
  ++ codes "### Database & Storage" ++ codes nl
  ++ codes database_list ++ codes nl
  ++ codes nl
  ++ codes "### Tools & DevOps" ++ codes nl
  ++ codes tools_list ++ codes nl
  ++ codes nl
  ++ codes "## " ++ sparkles ++ codes " Features" ++ codes nl
  ++ features_list ++ codes nl
  ++ codes nl
  ++ codes "## " ++ rocket ++ codes " Deployment" ++ codes nl
  ++ codes "- **Platform:** " ++ humanize platform_text ++ codes nl
  ++ codes "- **Repository:** https://github.com/"
  ++ codes (str github_username) ++ codes "/" ++ codes (str repo_name)
  ++ codes nl
  ++ codes "- **Include README:** " ++ codes (yes_no include_readme)
  ++ codes nl
  ++ codes "- **Include License:** " ++ codes (yes_no include_license)
  ++ codes nl
  ++ codes "- **Include .gitignore:** " ++ codes (yes_no include_gitignore)
  ++ codes nl
  ++ codes "- **Include Virtual Environment Setup:** "
  ++ codes (yes_no include_venv)
  ++ codes nl
  ++ codes nl
  ++ codes "---" ++ codes nl
  ++ codes "*Generated by Vibe Code Assistant on "
  ++ codes (strftime_date generated) ++ codes "*" ++ codes nl.

(** [generate_project_plan]; [created] and [generated] are the two readings
    of the clock taken while the document is formatted. *)
Definition generate_project_plan (created generated : datetime)
    (project_data : dict) : result ustr :=
  let title := get_or "title" (PStr "Untitled Project") project_data in
  let description :=
    get_or "description" (PStr "No description provided") project_data in
  let project_type := get_default "project_type" (PStr "fullstack") project_data in
  let timeline := get_default "timeline" (PStr "1week") project_data in
  let difficulty := get_default "difficulty" (PStr "intermediate") project_data in
  let timeline_days := timeline_days_of timeline in
  let tech_stack := get_default "tech_stack" (PDict []) project_data in
  let features := get_default "features" (PList []) project_data in
  let deployment_platform :=
    get_default "deployment_platform" (PStr "github") project_data in
  let repo_name := get_default "repo_name" (PStr "my-project") project_data in
  let github_username :=
    get_default "github_username" (PStr "yourusername") project_data in
  let include_readme := get_default "include_readme" (PBool true) project_data in
  let include_license := get_default "include_license" (PBool false) project_data in
  let include_gitignore :=
    get_default "include_gitignore" (PBool true) project_data in
  (* the log line on the categories and the number of features *)
  _ <- keys tech_stack ;;
  _ <- len features ;;
  (* the components *)
  phases <- generate_timeline_phases timeline_days project_type difficulty ;;
  file_structure <- generate_file_structure project_type repo_name ;;
  getting_started <-
    generate_getting_started tech_stack project_type github_username repo_name ;;
  (* the document *)
  type_text <- as_str project_type ;;
  timeline_text <- as_str timeline ;;
  difficulty_text <- as_str difficulty ;;
  frontend <- value_get tech_stack "frontend" (PList []) ;;
  frontend_list <- format_tech_list frontend ;;
  backend <- value_get tech_stack "backend" (PList []) ;;
  backend_list <- format_tech_list backend ;;
  database <- value_get tech_stack "database" (PList []) ;;
  database_list <- format_tech_list database ;;
  tools <- value_get tech_stack "tools" (PList []) ;;
  tools_list <- format_tech_list tools ;;
  features_list <- format_features_list features ;;
  platform_text <- as_str deployment_platform ;;
  Ok (plan_document title description type_text timeline_text timeline_days
        difficulty_text created frontend_list backend_list database_list
        tools_list features_list platform_text github_username repo_name
        include_readme include_license include_gitignore
        (get_default "include_venv" (PBool true) project_data) generated).

(** The plan's contents, for reading: code points above U+00FF are dropped. *)
Definition latin1_view (text : ustr) : string :=
  of_codes (List.filter (fun c => (c <? 256)%N) text).

(** *** The getting-started steps, in the specification's words *)

(** The technology [name] is in the list: an element equal to that string. *)
Definition selected (name : string) (techs : list value) : bool :=
  existsb (fun tech => eq_str tech name) techs.

Definition is_empty {A} (l : list A) : bool :=
  match l with [] => true | _ => false end.

(** *** The instructions, in the specification's words *)

(** Lines of text, each ended by a newline. *)
Definition lines (l : list string) : string :=
  fold_right (fun line text => line +++ nl +++ text) "" l.

(** The clone step. *)
Definition spec_clone_step (github_username repo_name : value) : string :=
  lines [ "1. Clone the repository:";
          "   ```bash";
          "   git clone https://github.com/" +++ str github_username +++ "/"
            +++ str repo_name +++ ".git";
          "   cd " +++ str repo_name;
          "   ```";
          "" ].

(** The frontend step: for a project type fullstack or frontend with a
    frontend list that is not empty; React commands, else Vue commands,
    else the generic line. *)
Definition spec_frontend_step (project_type : value) (frontend : list value)
  : string :=
  if (eq_str project_type "fullstack" || eq_str project_type "frontend")
     && negb (is_empty frontend)
  then lines
         ([ "2. Set up frontend:"; "   ```bash" ]
          ++ (if selected "React" frontend
              then [ "   cd frontend"; "   npm install"; "   npm start" ]
              else if selected "Vue.js" frontend
              then [ "   cd frontend"; "   npm install"; "   npm run dev" ]
              else [ "   # Follow the specific setup instructions for your chosen frontend" ])
          ++ [ "   ```"; "" ])
  else "".

(** The backend step: for a project type fullstack or backend with a
    backend list that is not empty; Python commands for Python or Flask,
    else Node commands, else the generic line. *)
Definition spec_backend_step (project_type : value) (backend : list value)
  : string :=
  if (eq_str project_type "fullstack" || eq_str project_type "backend")
     && negb (is_empty backend)
  then lines
         ([ "3. Set up backend:"; "   ```bash" ]
          ++ (if selected "Python" backend || selected "Flask" backend
              then [ "   cd backend";
                     "   python -m venv venv";
                     "   source venv/bin/activate  # On Windows: venv\Scripts\activate";
                     "   pip install -r requirements.txt";
                     "   python app.py" ]
              else if selected "Node.js" backend
              then [ "   cd backend"; "   npm install"; "   npm start" ]
              else [ "   # Follow the specific setup instructions for your chosen backend" ])
          ++ [ "   ```"; "" ])
  else "".

(** The closing steps. *)
Definition spec_trailing_steps : string :=
  lines [ "4. Set up environment variables (copy .env.example to .env)";
          "5. Start development servers";
          "6. Open your browser to the frontend URL" ].

(** *** Configurations of the expected shape *)

Definition is_str (v : value) : bool :=
  match v with PStr _ => true | _ => false end.

Definition is_list (v : value) : bool :=
  match v with PList _ => true | _ => false end.

(** The key is missing or bound to a value that passes [check]. *)
Definition absent_or (check : value -> bool) (k : string) (d : dict) : bool :=
  match dict_get k d with
  | Some v => check v
  | None => true
  end.

(** A mapping from the four categories to lists. *)
Definition is_stack (v : value) : bool :=
  match v with
  | PDict ts =>
      absent_or is_list "frontend" ts && absent_or is_list "backend" ts
      && absent_or is_list "database" ts && absent_or is_list "tools" ts
  | _ => false
  end.

(** The fields the plan formats with string methods are strings, the
    tech stack is a mapping to lists and the features are a list, each of
    them when present. *)
Definition well_typed (project_data : dict) : bool :=
  absent_or is_str "project_type" project_data
  && absent_or is_str "timeline" project_data
  && absent_or is_str "difficulty" project_data
  && absent_or is_str "deployment_platform" project_data
  && absent_or is_stack "tech_stack" project_data
  && absent_or is_list "features" project_data.

(** The defaults of the three required fields, as bindings that only a
    missing key lets through. *)
Definition required_defaults : dict :=
  [("project_type", PStr "fullstack"); ("timeline", PStr "1week");
   ("difficulty", PStr "intermediate")].

(** The configuration of [test_generate_basic_plan], which is the scenario
    of the specification, and a reading of the clock. *)
Definition scenario : dict :=
  [("title", PStr "Test Project"); ("description", PStr "A test project");
   ("project_type", PStr "frontend"); ("timeline", PStr "1week");
   ("difficulty", PStr "beginner");
   ("tech_stack",
    PDict [("frontend", PList [PStr "React"]); ("backend", PList []);
           ("database", PList []); ("tools", PList [])]);
   ("features", PList [PStr "Authentication"]);
   ("repo_name", PStr "test-project")].

Definition noon : datetime :=
  {| year := 2025; month := 6; day := 1; hour := 12; minute := 0;
     second := 0; microsecond := 0 |}.

(** ** JSON text: [json.dumps] and [json.loads] *)

Module Json.

(** *** [json.dumps], with its default separators and [ensure_ascii] *)

Definition hex4 (c : N) : list N :=
  [hex_digit (c / 4096); hex_digit ((c / 256) mod 16);
   hex_digit ((c / 16) mod 16); hex_digit (c mod 16)]%N.

Definition escape (c : N) : list N :=
  if (c =? 34)%N then [92; 34]%N
  else if (c =? 92)%N then [92; 92]%N
  else if (c =? 10)%N then [92; 110]%N
  else if (c =? 13)%N then [92; 114]%N
  else if (c =? 9)%N then [92; 116]%N
  else if (c =? 8)%N then [92; 98]%N
  else if (c =? 12)%N then [92; 102]%N
  else if (c <? 32)%N || (126 <? c)%N then [92; 117]%N ++ hex4 c
  else [c].

Definition encode_str (s : string) : list N :=
  [34%N] ++ flat_map escape (codes s) ++ [34%N].

Fixpoint separated (sep : list N) (items : list (list N)) : list N :=
  match items with
  | [] => []
  | [x] => x
  | x :: rest => x ++ sep ++ separated sep rest
  end.

Fixpoint encode (v : value) : list N :=
  match v with
  | PNone => codes "null"
  | PBool true => codes "true"
  | PBool false => codes "false"
  | PInt z => codes (str_of_int z)
  | PStr s => encode_str s
  | PList l => [91%N] ++ separated (codes ", ") (List.map encode l) ++ [93%N]
  | PDict d =>
      [123%N]
      ++ separated (codes ", ")
           (List.map (fun kv => encode_str (fst kv) ++ codes ": " ++ encode (snd kv))
              d)
      ++ [125%N]
  end.

Definition dumps (v : value) : string := of_codes (encode v).

(** *** [json.loads] *)

Definition is_ws (c : N) : bool := one_of [32; 9; 10; 13]%N c.

Fixpoint skip_ws (inp : list N) : list N :=
  match inp with
  | c :: rest => if is_ws c then skip_ws rest else inp
  | [] => []
  end.

Definition is_digit (c : N) : bool := between 48 57 c.

Fixpoint take_digits (inp : list N) : list N * list N :=
  match inp with
  | c :: rest =>
      if is_digit c
      then let (ds, r) := take_digits rest in (c :: ds, r)
      else ([], inp)
  | [] => ([], [])
  end.

(** A number: an optional minus sign and a run of digits that is 0 or does
    not start with 0, that is the decimal text of its own value (or -0).
    A fraction or an exponent makes a float, which has no [value]. *)
Definition scan_number (inp : list N) : option (Z * list N) :=
  let (sign, body) :=
    match inp with
    | c :: r => if (c =? 45)%N then ([45%N], r) else ([], inp)
    | [] => ([], inp)
    end in
  let (ds, rest) := take_digits body in
  let text := of_codes (sign ++ ds) in
  if is_empty ds then None
  else if match rest with
          | c :: _ => one_of [46; 101; 69]%N c
          | [] => false
          end then None
  else
    match NilZero.int_of_string text with
    | Some d =>
        let z := Z.of_int d in
        if String.eqb (str_of_int z) text || String.eqb text "-0"
        then Some (z, rest) else None
    | None => None
    end.

Definition hex_value (c : N) : option N :=
  if between 48 57 c then Some (c - 48)%N
  else if between 97 102 c then Some (c - 87)%N
  else if between 65 70 c then Some (c - 55)%N
  else None.

Definition unescape (c : N) : option N :=
  if (c =? 34)%N then Some 34%N
  else if (c =? 92)%N then Some 92%N
  else if (c =? 47)%N then Some 47%N
  else if (c =? 98)%N then Some 8%N
  else if (c =? 102)%N then Some 12%N
  else if (c =? 110)%N then Some 10%N
  else if (c =? 114)%N then Some 13%N
  else if (c =? 116)%N then Some 9%N
  else None.

(** The characters of a string, from after its opening quote to its closing
    quote.  A [\u] escape above U+00FF has no [string]. *)
Fixpoint scan_string (inp : list N) : option (list N * list N) :=
  match inp with
  | [] => None
  | c :: rest =>
      if (c =? 34)%N then Some ([], rest)
      else if (c =? 92)%N then
        match rest with
        | e :: rest1 =>
            if (e =? 117)%N then
              match rest1 with
              | h1 :: h2 :: h3 :: h4 :: rest2 =>
                  match hex_value h1, hex_value h2, hex_value h3, hex_value h4 with
                  | Some a, Some b, Some c3, Some d =>
                      let code := (a * 4096 + b * 256 + c3 * 16 + d)%N in
                      if (code <? 256)%N then
                        match scan_string rest2 with
                        | Some (s, r) => Some (code :: s, r)
                        | None => None
                        end
                      else None
                  | _, _, _, _ => None
                  end
              | _ => None
              end
            else
              match unescape e with
              | Some x =>
                  match scan_string rest1 with
                  | Some (s, r) => Some (x :: s, r)
                  | None => None
                  end
              | None => None
              end
        | [] => None
        end
      else if (c <? 32)%N then None
      else
        match scan_string rest with
        | Some (s, r) => Some (c :: s, r)
        | None => None
        end
  end.

(** [inp] without the literal [lit] it starts with. *)
Fixpoint strip (lit inp : list N) : option (list N) :=
  match lit, inp with
  | [], _ => Some inp
  | a :: lit', b :: inp' => if (a =? b)%N then strip lit' inp' else None
  | _ :: _, [] => None
  end.

(** [d[k] = v] on a dict under construction. *)
Fixpoint dict_set (k : string) (v : value) (d : dict) : dict :=
  match d with
  | [] => [(k, v)]
  | (k', v') :: rest =>
      if String.eqb k k' then (k', v) :: rest else (k', v') :: dict_set k v rest
  end.

(** [dict(pairs)]: a repeated key keeps its place and takes the last value. *)
Definition dict_of_pairs (pairs : list (string * value)) : dict :=
  fold_left (fun d kv => dict_set (fst kv) (snd kv) d) pairs [].

Definition head_is (c : N) (inp : list N) : bool :=
  match inp with
  | x :: _ => (x =? c)%N
  | [] => false
  end.

(** The scanner: a value at the head of [inp], and what follows it.  [fuel]
    bounds the nesting and the number of items of a list or an object. *)
Fixpoint parse_value (fuel : nat) (inp : list N) {struct fuel}
  : option (value * list N) :=
  match fuel with
  | O => None
  | S fuel =>
      if head_is 34 inp then
        match scan_string (tl inp) with
        | Some (s, rest) => Some (PStr (of_codes s), rest)
        | None => None
        end
      else if head_is 91 inp then
        let inp1 := skip_ws (tl inp) in
        if head_is 93 inp1 then Some (PList [], tl inp1)
        else
          match parse_elements fuel inp1 with
          | Some (l, rest) => Some (PList l, rest)
          | None => None
          end
      else if head_is 123 inp then
        let inp1 := skip_ws (tl inp) in
        if head_is 125 inp1 then Some (PDict [], tl inp1)
        else
          match parse_members fuel inp1 with
          | Some (pairs, rest) => Some (PDict (dict_of_pairs pairs), rest)
          | None => None
          end
      else
        match strip (codes "null") inp with
        | Some rest => Some (PNone, rest)
        | None =>
        match strip (codes "true") inp with
        | Some rest => Some (PBool true, rest)
        | None =>
        match strip (codes "false") inp with
        | Some rest => Some (PBool false, rest)
        | None =>
        match scan_number inp with
        | Some (z, rest) => Some (PInt z, rest)
        | None => None
        end end end end
  end

with parse_elements (fuel : nat) (inp : list N) {struct fuel}
  : option (list value * list N) :=
  match fuel with
  | O => None
  | S fuel =>
      match parse_value fuel inp with
      | Some (v, rest) =>
          let rest1 := skip_ws rest in
          if head_is 93 rest1 then Some ([v], tl rest1)
          else if head_is 44 rest1 then
            match parse_elements fuel (skip_ws (tl rest1)) with
            | Some (vs, r) => Some (v :: vs, r)
            | None => None
            end
          else None
      | None => None
      end
  end

with parse_members (fuel : nat) (inp : list N) {struct fuel}
  : option (list (string * value) * list N) :=
  match fuel with
  | O => None
  | S fuel =>
      if head_is 34 inp then
        match scan_string (tl inp) with
        | Some (k, rest) =>
            let rest1 := skip_ws rest in
            if head_is 58 rest1 then
              match parse_value fuel (skip_ws (tl rest1)) with
              | Some (v, rest2) =>
                  let rest3 := skip_ws rest2 in
                  if head_is 125 rest3 then Some ([(of_codes k, v)], tl rest3)
                  else if head_is 44 rest3 then
                    match parse_members fuel (skip_ws (tl rest3)) with
                    | Some (ps, r) => Some ((of_codes k, v) :: ps, r)
                    | None => None
                    end
                  else None
              | None => None
              end
            else None
        | None => None
        end
      else None
  end.

(** [json.loads(s)]: one value between optional white space.  [None] is a
    [JSONDecodeError], or a document with a value outside [value]. *)
Definition loads (s : string) : option value :=
  match parse_value (S (String.length s)) (skip_ws (codes s)) with
  | Some (v, rest) => if is_empty (skip_ws rest) then Some v else None
  | None => None
  end.

(** A value as Python holds it: the keys of a dict are distinct. *)
Fixpoint distinct (keys : list string) : bool :=
  match keys with
  | [] => true
  | k :: rest => negb (existsb (String.eqb k) rest) && distinct rest
  end.

Fixpoint wf (v : value) : bool :=
  match v with
  | PList l => forallb wf l
  | PDict d => distinct (List.map fst d) && forallb (fun kv => wf (snd kv)) d
  | _ => true
  end.

End Json.

(** ** Persistence store *)

Definition pad6 (n : Z) : string :=
  (if n <? 10 then "00000"
   else if n <? 100 then "0000"
   else if n <? 1000 then "000"
   else if n <? 10000 then "00"
   else if n <? 100000 then "0"
   else "") +++ str_of_int n.

(** [t.isoformat()]. *)
Definition isoformat (t : datetime) : string :=
  pad4 (year t) +++ "-" +++ pad2 (month t) +++ "-" +++ pad2 (day t)
  +++ "T" +++ pad2 (hour t) +++ ":" +++ pad2 (minute t)
  +++ ":" +++ pad2 (second t)
  +++ (if microsecond t =? 0 then "" else "." +++ pad6 (microsecond t)).

(** [json.loads(v)] on a column value. *)
Definition loads_value (v : value) : result value :=
  match v with
  | PStr s =>
      match Json.loads s with
      | Some x => Ok x
      | None => Raise ValueError
      end
  | _ => Raise TypeError
  end.

Module Project.

(** A row of the table.  A column holds the value it was given: the
    database stores and returns a value of the column's type unchanged. *)
Record t : Type :=
  { id : Z;
    title : value;
    description : value;
    project_type : value;
    timeline : value;
    difficulty : value;
    tech_stack : value;
    features : value;
    deployment_platform : value;
    repo_name : value;
    include_readme : value;
    include_license : value;
    include_gitignore : value;
    created_at : datetime;
    updated_at : datetime }.

Definition to_dict (self : t) : result dict :=
  tech_stack <-
    (if truthy (tech_stack self) then loads_value (tech_stack self)
     else Ok (PDict [])) ;;
  features <-
    (if truthy (features self) then loads_value (features self)
     else Ok (PList [])) ;;
  Ok [ ("id", PInt (id self));
       ("title", title self);
       ("description", description self);
       ("project_type", project_type self);
       ("timeline", timeline self);
       ("difficulty", difficulty self);
       ("tech_stack", tech_stack);
       ("features", features);
       ("deployment_platform", deployment_platform self);
       ("repo_name", repo_name self);
       ("include_readme", include_readme self);
       ("include_license", include_license self);
       ("include_gitignore", include_gitignore self);
       ("created_at", PStr (isoformat (created_at self)));
       ("updated_at", PStr (isoformat (updated_at self))) ].

End Project.

(** The table of projects, oldest first; ids are given in sequence. *)
Definition table : Type := list Project.t.

Definition next_id (db : table) : Z := Z.of_nat (List.length db) + 1.

Definition find_project (project_id : Z) (db : table) : option Project.t :=
  List.find (fun p => Project.id p =? project_id) db.

(** ** Request handlers *)

Inductive response : Type :=
| PlanOk (plan : ustr)
    (* 200, success and the plan *)
| Created (project : dict)
    (* 200, success and the stored project *)
| Found (project : dict)
    (* 200, the stored project *)
| Attachment (download_name mimetype : string)
    (* 200, the archive sent as a file *)
| BadRequest (error : option string)
    (* 400, the validator's message *)
| NotFound
    (* 404 *)
| ServerError (error : string) (cause : pyexn).
    (* 500, the text followed by that of the exception *)

(** POST /api/projects; [created_at] and [updated_at] are the readings of
    the clock the two column defaults take. *)
Definition create_project (created_at updated_at : datetime) (db : table)
    (body : value) : table * response :=
  let failed e := ServerError "Failed to create project: " e in
  match as_dict body with
  | Raise e => (db, failed e)
  | Ok data =>
      match validate_project_data data with
      | Raise e => (db, failed e)
      | Ok (false, error_msg) => (db, BadRequest error_msg)
      | Ok (true, _) =>
          let timeline_days :=
            timeline_days_of (get_default "timeline" (PStr "1week") data) in
          match
            (project_type <- subscript data "project_type" ;;
             timeline <- subscript data "timeline" ;;
             difficulty <- subscript data "difficulty" ;;
             Ok {| Project.id := next_id db;
                   Project.title :=
                     get_or "title" (PStr "Untitled Project") data;
                   Project.description := get_or "description" (PStr "") data;
                   Project.project_type := project_type;
                   Project.timeline := timeline;
                   Project.difficulty := difficulty;
                   Project.tech_stack :=
                     PStr (Json.dumps (get_default "tech_stack" (PDict []) data));
                   Project.features :=
                     PStr (Json.dumps (get_default "features" (PList []) data));
                   Project.deployment_platform :=
                     get_default "deployment_platform" (PStr "github") data;
                   Project.repo_name := get_default "repo_name" (PStr "") data;
                   Project.include_readme :=
                     get_default "include_readme" (PBool true) data;
                   Project.include_license :=
                     get_default "include_license" (PBool false) data;
                   Project.include_gitignore :=
                     get_default "include_gitignore" (PBool true) data;
                   Project.created_at := created_at;
                   Project.updated_at := updated_at |})
          with
          | Raise e => (db, failed e)
          | Ok project =>
              let db' := db ++ [project] in
              match Project.to_dict project with
              | Ok stored => (db', Created stored)
              | Raise e => (db', failed e)
              end
          end
      end
  end.

(** GET /api/projects/<project_id>. *)
Definition get_project (db : table) (project_id : Z) : response :=
  match find_project project_id db with
  | Some project =>
      match Project.to_dict project with
      | Ok stored => Found stored
      | Raise _ => NotFound
      end
  | None => NotFound
  end.

(** POST /api/generate. *)
Definition generate_project (created generated : datetime) (body : value)
  : response :=
  match
    (project_data <- value_get body "project" (PDict []) ;;
     project_data <- as_dict project_data ;;
     generate_project_plan created generated project_data)
  with
  | Ok plan => PlanOk plan
  | Raise e => ServerError "Failed to generate project plan: " e
  end.

(** *** File materializer *)

(** [re.sub(r'[^\w\-_]', '', s)]. *)
Definition strip_non_word (s : string) : string :=
  of_codes
    (List.filter (fun c => is_word c || (c =? 45)%N || (c =? 95)%N) (codes s)).

(** The repository name: lower-cased, spaces to hyphens, then stripped. *)
Definition sanitize (repo_name : string) : string :=
  strip_non_word (replace_char 32 45 (lower repo_name)).

Definition sanitized_repo_name (project_data : dict) : result string :=
  repo_name <- as_str (get_default "repo_name" (PStr "my-project") project_data) ;;
  Ok (sanitize repo_name).

(** What a file holds: the plan, a JSON document written by [json.dump],
    or one of the fixed texts of the program. *)
Inductive content : Type :=
| PlanText (plan : ustr)
| JsonDocument (document : value)
| IndexHtml
| Requirements
| Gitignore
| MitLicense
| EnvExample.

(** What is created under the project directory, in order. *)
Inductive entry : Type :=
| Directory (path : list string)
| File (path : list string) (held : content).

Definition frontend_package (with_react : bool) : value :=
  PDict
    [ ("name", PStr "frontend");
      ("version", PStr "0.1.0");
      ("private", PBool true);
      ("scripts",
       PDict (if with_react
              then [("start", PStr "react-scripts start");
                    ("build", PStr "react-scripts build");
                    ("test", PStr "react-scripts test")]
              else []));
      ("dependencies",
       PDict (if with_react
              then [("react", PStr "^18.2.0"); ("react-dom", PStr "^18.2.0")]
              else []));
      ("devDependencies",
       PDict (if with_react then [("react-scripts", PStr "5.0.1")] else [])) ].

Definition backend_package : value :=
  PDict
    [ ("name", PStr "backend");
      ("version", PStr "1.0.0");
      ("main", PStr "server.js");
      ("scripts",
       PDict [("start", PStr "node server.js"); ("dev", PStr "nodemon server.js")]);
      ("dependencies",
       PDict [("express", PStr "^4.18.2"); ("cors", PStr "^2.8.5");
              ("dotenv", PStr "^16.3.1")]);
      ("devDependencies", PDict [("nodemon", PStr "^3.0.1")]) ].

Definition generate_frontend_files (project_data : dict)
    (frontend_dir : list string) : result (list entry) :=
  let tech_stack := get_default "tech_stack" (PDict []) project_data in
  frontend_tech <- value_get tech_stack "frontend" (PList []) ;;
  framework <- any_in ["React"; "Vue.js"; "Angular"] frontend_tech ;;
  package <-
    (if framework then
       with_react <- contains_str "React" frontend_tech ;;
       Ok [File (frontend_dir ++ ["package.json"])
             (JsonDocument (frontend_package with_react))]
     else Ok []) ;;
  Ok (package
      ++ [Directory (frontend_dir ++ ["src"]);
          File (frontend_dir ++ ["index.html"]) IndexHtml]).

Definition generate_backend_files (project_data : dict)
    (backend_dir : list string) : result (list entry) :=
  let tech_stack := get_default "tech_stack" (PDict []) project_data in
  backend_tech <- value_get tech_stack "backend" (PList []) ;;
  python <- any_in ["Python"; "Flask"; "Django"; "FastAPI"] backend_tech ;;
  node <- any_in ["Node.js"; "Express"] backend_tech ;;
  Ok ((if python then [File (backend_dir ++ ["requirements.txt"]) Requirements]
       else [])
      ++ (if node
          then [File (backend_dir ++ ["package.json"]) (JsonDocument backend_package)]
          else [])).

Definition generate_common_files (project_data : dict) (plan : ustr)
  : list entry :=
  (if truthy (get_default "include_readme" (PBool true) project_data)
   then [File ["README.md"] (PlanText plan)] else [])
  ++ (if truthy (get_default "include_gitignore" (PBool true) project_data)
      then [File [".gitignore"] Gitignore] else [])
  ++ (if truthy (get_default "include_license" (PBool false) project_data)
      then [File ["LICENSE"] MitLicense] else [])
  ++ [File [".env.example"] EnvExample].

Definition generate_project_files (project_data : dict) (plan : ustr)
  : result (list entry) :=
  repo_name <- sanitized_repo_name project_data ;;
  let project_type := get_default "project_type" PNone project_data in
  stack_files <-
    (if eq_str project_type "fullstack" then
       let dirs :=
         [Directory ["frontend"]; Directory ["backend"]; Directory ["database"]] in
       frontend <- generate_frontend_files project_data ["frontend"] ;;
       backend <- generate_backend_files project_data ["backend"] ;;
       Ok (dirs ++ frontend ++ backend)
     else if eq_str project_type "frontend" then
       generate_frontend_files project_data []
     else if eq_str project_type "backend" then
       generate_backend_files project_data []
     else Ok []) ;;
  Ok (stack_files ++ generate_common_files project_data plan).

(** The temporary directory is on a Linux file system: a name has 255
    bytes at most there, a [str] being encoded in UTF-8, and making a
    directory or a file of a longer name raises [OSError]. *)
Definition utf8_length (s : string) : Z :=
  sum (List.map (fun c => if (c <? 128)%N then 1 else 2) (codes s)).

Definition name_max : Z := 255.

Definition create_name (name : string) : result unit :=
  if utf8_length name <=? name_max then Ok tt else Raise OSError.

(** POST /api/download.  The project directory and the archive are named
    after the repository; writing the files of the project, whose names
    are fixed, is taken to succeed; the archive's bytes are not
    modelled. *)
Definition download_project (created generated : datetime) (body : value)
  : response :=
  match
    (project_data <- value_get body "project" (PDict []) ;;
     project_data <- as_dict project_data ;;
     plan <- generate_project_plan created generated project_data ;;
     repo_name <- sanitized_repo_name project_data ;;
     _ <- create_name repo_name ;;
     _ <- generate_project_files project_data plan ;;
     _ <- create_name (repo_name +++ ".zip") ;;
     Ok (repo_name +++ ".zip"))
  with
  | Ok download_name => Attachment download_name "application/zip"
  | Raise e => ServerError "Failed to generate project files: " e
  end.

(** A character of the class [[A-Za-z0-9_-]]. *)
Definition ascii_name_char (c : N) : bool :=
  between 65 90 c || between 97 122 c || between 48 57 c
  || (c =? 95)%N || (c =? 45)%N.

(** The repository name as the handlers read it. *)
Definition submitted_repo_name (project_data : dict) : value :=
  get_default "repo_name" (PStr "my-project") project_data.

(** A name of 300 letters. *)
Definition long_name : string :=
  string_of_list_ascii (List.repeat "a"%char 300).

(** A name with one letter, U+00E9. *)
Definition e_acute : string := of_codes [233%N].

(** What [sanitize] does to one character, and the characters it keeps. *)
Definition sanitize_char (c : N) : N :=
  if (to_lower c =? 32)%N then 45%N else to_lower c.

Definition kept (c : N) : bool := is_word c || (c =? 45)%N || (c =? 95)%N.

(** A character of the class [[a-z0-9_-]]. *)
Definition lower_name_char (c : N) : bool :=
  between 97 122 c || between 48 57 c || (c =? 95)%N || (c =? 45)%N.

(** *** Measures for the scanner *)

(** The fuel that scanning the text of a value takes. *)
Fixpoint size (v : value) : nat :=
  match v with
  | PList l => S (fold_right (fun x n => S (size x + n)) O l)
  | PDict d => S (fold_right (fun kv n => S (size (snd kv) + n)) O d)
  | _ => 1%nat
  end.

(** What may follow a number: not a digit, nor the start of a fraction or
    of an exponent. *)
Definition delimited (rest : list N) : bool :=
  match rest with
  | [] => true
  | c :: _ => negb (Json.is_digit c || one_of [46; 101; 69]%N c)
  end.

(** The character a value's text starts with: a quote, a bracket, a brace,
    the first letter of a literal, a digit or a minus sign. *)
Definition value_start (c : N) : bool :=
  one_of [34; 91; 123; 110; 116; 102; 45]%N c || Json.is_digit c.

(** A value whose text the scanner reads back, whatever follows it. *)
Definition reads_back (v : value) : Prop :=
  forall fuel rest,
    (size v <= fuel)%nat -> delimited rest = true ->
    Json.parse_value fuel (Json.encode v ++ rest) = Some (v, rest).

(** The text of a member of an object. *)
Definition encode_member (kv : string * value) : list N :=
  Json.encode_str (fst kv) ++ codes ": " ++ Json.encode (snd kv).

(** *** Tables and submissions *)

(** The ids of a table are 1, 2, ... in order of creation. *)
Definition ids_in_sequence (db : table) : Prop :=
  List.map Project.id db
  = List.map (fun i => Z.of_nat i + 1) (List.seq 0 (List.length db)).

Definition is_bool (v : value) : bool :=
  match v with PBool _ => true | _ => false end.

(** The fields the validator does not look at have the type of their
    column, each of them when present. *)
Definition column_typed (data : dict) : bool :=
  absent_or is_str "title" data
  && absent_or is_str "description" data
  && absent_or is_str "deployment_platform" data
  && absent_or is_str "repo_name" data
  && absent_or is_bool "include_readme" data
  && absent_or is_bool "include_license" data
  && absent_or is_bool "include_gitignore" data.

(** The configuration of [sample_project_data] in the test-suite. *)
Definition sample_project_data : dict :=
  [("title", PStr "Test Project");
   ("description", PStr "A test project for unit testing");
   ("project_type", PStr "fullstack"); ("timeline", PStr "1week");
   ("difficulty", PStr "intermediate");
   ("tech_stack",
    PDict [("frontend", PList [PStr "React"]); ("backend", PList [PStr "Python"]);
           ("database", PList [PStr "SQLite"]); ("tools", PList [PStr "Git"])]);
   ("features", PList [PStr "Authentication"; PStr "CRUD Operations"]);
   ("deployment_platform", PStr "github"); ("repo_name", PStr "test-project");
   ("include_readme", PBool true); ("include_license", PBool false);
   ("include_gitignore", PBool true)].

(** A valid configuration with an empty title and no other field. *)
Definition untitled_submission : dict :=
  [("title", PStr ""); ("project_type", PStr "fullstack");
   ("timeline", PStr "1week"); ("difficulty", PStr "intermediate")].

(** The fields that are stored as submitted, with the value a missing one
    takes. *)
Definition optional_defaults : list (string * value) :=
  [("deployment_platform", PStr "github"); ("repo_name", PStr "");
   ("include_readme", PBool true); ("include_license", PBool false);
   ("include_gitignore", PBool true)].

(** ** Further definitions for the properties of the code *)

(** The day-count of each enumerated timeline. *)
Definition timeline_table : list (string * Z) :=
  [("weekend", 3); ("1week", 7); ("2weeks", 14); ("1month", 30);
   ("3months", 90); ("open", 0)].

(** The values that cannot be iterated although they are truthy: [True]
    and the integers other than 0. *)
Definition truthy_scalar (v : value) : bool :=
  match v with
  | PBool true => true
  | PInt z => negb (z =? 0)
  | _ => false
  end.

(** One string per character of [s]. *)
Definition characters (s : string) : list value :=
  List.map (fun a => PStr (String a EmptyString)) (list_ascii_of_string s).

(** The first line and the last line of a plan. *)
Definition plan_header (project_data : dict) : ustr :=
  codes "# "
  ++ codes (str (get_or "title" (PStr "Untitled Project") project_data))
  ++ codes nl.

Definition plan_footer (generated : datetime) : ustr :=
  codes "*Generated by Vibe Code Assistant on "
  ++ codes (strftime_date generated) ++ codes "*" ++ codes nl.

Definition is_dict (v : value) : bool :=
  match v with PDict _ => true | _ => false end.

(** The tables reached from the empty one by requests to create a project;
    a request body is a value as Python holds it, the keys of its dicts
    distinct. *)
Inductive reachable : table -> Prop :=
| reach_empty : reachable []
| reach_create (created_at updated_at : datetime) (db : table) (body : value) :
    reachable db ->
    Json.wf body = true ->
    reachable (fst (create_project created_at updated_at db body)).

(** A row whose two text columns hold the JSON text of a value. *)
Definition decodable (p : Project.t) : Prop :=
  exists tech_stack features,
    Project.tech_stack p = PStr (Json.dumps tech_stack)
    /\ Json.wf tech_stack = true
    /\ Project.features p = PStr (Json.dumps features)
    /\ Json.wf features = true.

(** The names of the files written whatever the stack, and of those the
    stack decides. *)
Definition common_names : list string :=
  ["README.md"; ".gitignore"; "LICENSE"; ".env.example"].

Definition stack_names : list string :=
  ["package.json"; "index.html"; "requirements.txt"].

(** One of the names is selected in the list. *)
Definition any_selected (names : list string) (techs : list value) : bool :=
  existsb (fun name => selected name techs) names.


Definition spec_backend_files (techs : list value) (dir : list string)
  : list entry :=
  (if any_selected ["Python"; "Flask"; "Django"; "FastAPI"] techs
   then [File (dir ++ ["requirements.txt"]) Requirements] else [])
  ++ (if any_selected ["Node.js"; "Express"] techs
      then [File (dir ++ ["package.json"]) (JsonDocument backend_package)]
      else []).

(** * Properties *)

(** ** Python builtins *)

Lemma in_strs_spec (v : value) (l : list string) :
  in_strs v l = true <-> exists s, v = PStr s /\ In s l.
Proof.
  unfold in_strs. rewrite existsb_exists. split.
  - intros [x [Hin Heq]]. destruct v; simpl in Heq; try discriminate.
    apply String.eqb_eq in Heq. subst. eauto.
  - intros [s [-> Hin]]. exists s. split; [assumption|].
    simpl. apply String.eqb_refl.
Qed.

Lemma in_strs_truthy (v : value) (l : list string) :
  ~ In "" l -> in_strs v l = true -> truthy v = true.
Proof.
  intros Hne H. apply in_strs_spec in H. destruct H as [s [-> Hin]].
  simpl. destruct (String.eqb_spec s ""); [subst; contradiction | reflexivity].
Qed.

Lemma enumerated_nonempty :
  ~ In "" valid_types /\ ~ In "" valid_timelines /\ ~ In "" valid_difficulties.
Proof.
  repeat split; simpl; intros H;
    repeat (destruct H as [H|H]; [discriminate|]); exact H.
Qed.

Lemma append_assoc (a b c : string) : (a +++ b) +++ c = a +++ b +++ c.
Proof. induction a as [|x a IH]; simpl; [reflexivity | now rewrite IH]. Qed.

Lemma append_nil_r (a : string) : a +++ "" = a.
Proof. induction a as [|x a IH]; simpl; [reflexivity | now rewrite IH]. Qed.

Lemma codes_append (a b : string) : codes (a +++ b) = codes a ++ codes b.
Proof.
  unfold codes. induction a as [|x a IH]; simpl; [reflexivity | now rewrite IH].
Qed.

(** ** Validator *)

Lemma legal_iff (field : string) (allowed : list string) (data : dict) :
  ~ In "" allowed ->
  legal field allowed data <->
  exists v, dict_get field data = Some v /\ truthy v = true
            /\ in_strs v allowed = true.
Proof.
  intros Hne. unfold legal. split.
  - intros [s [Hget Hin]]. exists (PStr s).
    assert (Hs : in_strs (PStr s) allowed = true)
      by (apply in_strs_spec; eauto).
    repeat split; [assumption | | assumption].
    eapply in_strs_truthy; eassumption.
  - intros [v [Hget [_ Hin]]]. apply in_strs_spec in Hin.
    destruct Hin as [s [-> Hin]]. eauto.
Qed.

Ltac case_field k data :=
  let v := fresh "v" in
  let Hget := fresh "Hget" in
  let Ht := fresh "Htruthy" in
  destruct (dict_get k data) as [v|] eqn:Hget;
  [destruct (truthy v) eqn:Ht|].

(** C5. Validation succeeds exactly on the configurations whose
    project_type, timeline and difficulty are bound to a value of their
    enumerated set; otherwise it returns one message, that of the first
    violation when the three presence checks (project_type, timeline,
    difficulty) come before the three enumeration checks (same order). *)
Theorem validate_project_data_spec (data : dict) :
  validate_project_data data =
    match spec_first_violation data with
    | None => Ok (true, None)
    | Some msg => Ok (false, Some msg)
    end
  /\ (validate_project_data data = Ok (true, None) <-> legal_config data).
Proof.
  destruct enumerated_nonempty as [Nty [Ntl Ndf]].
  unfold legal_config.
  rewrite (legal_iff "project_type" _ data Nty).
  rewrite (legal_iff "timeline" _ data Ntl).
  rewrite (legal_iff "difficulty" _ data Ndf).
  unfold validate_project_data, spec_first_violation,
    spec_presence_violations, spec_enum_violations, required_fields,
    spec_enumerations, valid_types, valid_timelines, valid_difficulties,
    missing_field, truthy_get, subscript, bind.
  cbn [flat_map app hd_error negb].
  case_field "project_type" data; case_field "timeline" data;
    case_field "difficulty" data; cbn [negb app hd_error];
    try (split; [reflexivity |
                 split; [discriminate |
                         intros [[? [? [? ?]]] [[? [? [? ?]]] [? [? [? ?]]]]];
                         congruence]]).
  destruct (in_strs v ["fullstack"; "frontend"; "backend"]) eqn:E1;
    cbn [negb app hd_error];
    [destruct (in_strs v0 ["weekend"; "1week"; "2weeks"; "1month"; "3months";
                           "open"]) eqn:E2;
     cbn [negb app hd_error];
     [destruct (in_strs v1 ["beginner"; "intermediate"; "advanced"; "expert"])
        eqn:E3;
      cbn [negb app hd_error]
     | ] | ];
    (split; [reflexivity|]);
    try (split; [discriminate |
                 intros [[? [? [? ?]]] [[? [? [? ?]]] [? [? [? ?]]]]];
                 congruence]).
  split; [intros _ | reflexivity].
  repeat split; eexists; repeat split; eassumption.
Qed.

Lemma missing_field_first (fields : list string) (data : dict) (f : string) :
  In f fields ->
  truthy_get f data = false ->
  (forall g, In g (fields_before f fields) -> truthy_get g data = true) ->
  missing_field fields data = Some f.
Proof.
  induction fields as [|x rest IH]; simpl; [contradiction|].
  intros Hin Hf Hbefore.
  destruct (String.eqb_spec x f) as [->|Hne].
  - rewrite Hf. reflexivity.
  - rewrite (Hbefore x (or_introl eq_refl)). simpl.
    apply IH.
    + destruct Hin; [contradiction | assumption].
    + assumption.
    + intros g Hg. apply Hbefore. right. assumption.
Qed.

Lemma missing_field_some (fields : list string) (data : dict) (g : string) :
  missing_field fields data = Some g ->
  In g fields /\ truthy_get g data = false
  /\ (forall h, In h (fields_before g fields) -> truthy_get h data = true).
Proof.
  induction fields as [|x rest IH]; simpl; [discriminate|].
  destruct (truthy_get x data) eqn:E; simpl.
  - intros H. destruct (IH H) as [Hin [Hfalse Hbefore]].
    repeat split; [auto | assumption|].
    destruct (String.eqb_spec x g) as [->|Hne]; [congruence|].
    intros h [<-|Hh]; auto.
  - intros H. inversion H; subst. rewrite String.eqb_refl.
    repeat split; [auto | assumption | contradiction].
Qed.

Lemma missing_field_none (fields : list string) (data : dict) :
  missing_field fields data = None ->
  forall f, In f fields -> truthy_get f data = true.
Proof.
  induction fields as [|x rest IH]; simpl; [contradiction|].
  destruct (truthy_get x data) eqn:E; simpl; [|discriminate].
  intros H f [<-|Hin]; auto.
Qed.

(** C10, as the claim states it, fails: the timeline is bound to the empty
    string, and the message names project_type, the first field that is
    missing, not the timeline. *)
Lemma falsy_timeline_named_project_type :
  dict_get "timeline" [("timeline", PStr "")] = Some (PStr "")
  /\ validate_project_data [("timeline", PStr "")]
     = Ok (false, Some "Missing required field: project_type").
Proof. split; reflexivity. Qed.

(** C10, amended. Presence is tested by truthiness: when one of
    project_type, timeline and difficulty is bound to a falsy value (the
    empty string, None, False, 0, an empty list or dict), validation fails
    with a 'Missing required field' message, never an 'Invalid' one; the
    field named is the first of the three that is absent or falsy, so it
    is that very field exactly when the fields checked before it are
    truthy. *)
Theorem validate_falsy_is_missing (data : dict) (f : string) (v : value) :
  In f ["project_type"; "timeline"; "difficulty"] ->
  dict_get f data = Some v ->
  truthy v = false ->
  (exists g, In g ["project_type"; "timeline"; "difficulty"]
             /\ truthy_get g data = false
             /\ (forall h,
                   In h (fields_before g
                           ["project_type"; "timeline"; "difficulty"]) ->
                   truthy_get h data = true)
             /\ validate_project_data data
                = Ok (false, Some ("Missing required field: " +++ g)))
  /\ ((forall g,
         In g (fields_before f ["project_type"; "timeline"; "difficulty"]) ->
         truthy_get g data = true)
      <-> validate_project_data data
          = Ok (false, Some ("Missing required field: " +++ f))).
Proof.
  intros Hin Hget Hfalsy.
  assert (Hf : truthy_get f data = false)
    by (unfold truthy_get; rewrite Hget; assumption).
  change ["project_type"; "timeline"; "difficulty"] with required_fields
    in *.
  unfold validate_project_data. split.
  - destruct (missing_field required_fields data) as [g|] eqn:E.
    + destruct (missing_field_some _ _ _ E) as [Hg [Hfalse Hbefore]]. eauto.
    + rewrite (missing_field_none _ _ E f Hin) in Hf. discriminate.
  - split.
    + intros Hbefore.
      rewrite (missing_field_first _ _ _ Hin Hf Hbefore). reflexivity.
    + intros H g Hg.
      destruct (missing_field required_fields data) as [g'|] eqn:E.
      * destruct (missing_field_some _ _ _ E) as [_ [_ Hbefore]].
        inversion H; subst g'. now apply Hbefore.
      * rewrite (missing_field_none _ _ E f Hin) in Hf. discriminate.
Qed.

Lemma validate_falsy_is_missing_witness :
  validate_project_data
    [("project_type", PStr "fullstack"); ("timeline", PStr "");
     ("difficulty", PStr "guru")]
  = Ok (false, Some "Missing required field: timeline").
Proof.
  refine (proj1 (proj2 (validate_falsy_is_missing _ "timeline" (PStr "")
                          _ _ _)) _).
  - simpl. auto.
  - reflexivity.
  - reflexivity.
  - simpl. intros g [<-|[]]. reflexivity.
Defined.

(** The cases of the repository's own test-suite. *)
Example test_valid_project_data :
  validate_project_data
    [("project_type", PStr "fullstack"); ("timeline", PStr "1week");
     ("difficulty", PStr "intermediate")]
  = Ok (true, None).
Proof. reflexivity. Qed.

Example test_missing_required_fields :
  validate_project_data
    [("project_type", PStr "fullstack"); ("timeline", PStr "1week")]
  = Ok (false, Some "Missing required field: difficulty").
Proof. reflexivity. Qed.

Example test_invalid_project_type :
  validate_project_data
    [("project_type", PStr "invalid_type"); ("timeline", PStr "1week");
     ("difficulty", PStr "intermediate")]
  = Ok (false, Some "Invalid project type: invalid_type").
Proof. reflexivity. Qed.

(** ** Timeline synthesizer *)

Lemma round_div_spec (n d : Z) :
  0 < d ->
  2 * Z.abs (n - round_div n d * d) <= d
  /\ (2 * Z.abs (n - round_div n d * d) = d -> Z.even (round_div n d) = true).
Proof.
  intros Hd. unfold round_div.
  pose proof (Z.div_mod n d ltac:(lia)) as Hn.
  pose proof (Z.mod_pos_bound n d Hd) as Bn.
  destruct (Z.ltb_spec (2 * (n mod d)) d);
    [|destruct (Z.ltb_spec d (2 * (n mod d)));
      [|destruct (Z.even (n / d)) eqn:E]].
  - split; [nia|]. intros H'. nia.
  - split; [nia|]. intros H'. nia.
  - split; [nia|]. intros _. exact E.
  - split; [nia|]. intros _. rewrite Z.even_add, E. reflexivity.
Qed.

Lemma round_div_unique (n d q : Z) :
  0 < d ->
  2 * Z.abs (n - q * d) <= d ->
  (2 * Z.abs (n - q * d) = d -> Z.even q = true) ->
  round_div n d = q.
Proof.
  intros Hd Hq Heven.
  destruct (round_div_spec n d Hd) as [Hr Hreven].
  set (r := round_div n d) in *.
  assert (Hnear : -1 <= r - q <= 1) by nia.
  destruct (Z.eq_dec r q) as [E|E]; [assumption|exfalso].
  assert (Hr' : 2 * Z.abs (n - r * d) = d) by nia.
  assert (Hq' : 2 * Z.abs (n - q * d) = d) by nia.
  specialize (Hreven Hr'). specialize (Heven Hq').
  assert (Hc : r = q + 1 \/ q = r + 1) by lia.
  destruct Hc as [Hc|Hc]; rewrite Hc in *;
    rewrite Z.even_add in *; 
    [rewrite Heven in Hreven | rewrite Hreven in Heven]; discriminate.
Qed.

(** Rounding a quotient by 100 to a multiple of [1 / p], [p] even and 64
    at least, and then to an integer gives what rounding it to an integer
    gives. *)
Lemma round_twice (a p h : Z) :
  p = 2 * h -> 32 <= h ->
  round_div (round_div (a * p) 100) p = round_div a 100.
Proof.
  intros Hp Hh.
  destruct (round_div_spec a 100 ltac:(lia)) as [Ha Haeven].
  destruct (round_div_spec (a * p) 100 ltac:(lia)) as [Hm Hmeven].
  set (q := round_div a 100) in *.
  set (m := round_div (a * p) 100) in *.
  apply round_div_unique; [lia| |].
  - destruct (Z.eq_dec (2 * Z.abs (a - q * 100)) 100) as [T|T].
    + assert (Hm' : m = q * p + h \/ m = q * p - h) by nia.
      nia.
    + assert (Hr : Z.abs (a - q * 100) <= 49) by lia.
      nia.
  - intros Htie.
    destruct (Z.eq_dec (2 * Z.abs (a - q * 100)) 100) as [T|T];
      [now apply Haeven|exfalso].
    assert (Hr : Z.abs (a - q * 100) <= 49) by lia.
    nia.
Qed.

Lemma log2_quotient_100 (a : Z) :
  0 < a < 2 ^ 53 -> log2_quotient a 100 <= 46.
Proof.
  intros [Hpos Hlt].
  assert (Hlog : Z.log2 a < 53) by (apply Z.log2_lt_pow2; assumption).
  unfold log2_quotient. change (Z.log2 100) with 6.
  destruct (0 <=? Z.log2 a - 6);
    [destruct (100 * 2 ^ (Z.log2 a - 6) <=? a)
    | destruct (100 <=? a * 2 ^ (- (Z.log2 a - 6)))]; lia.
Qed.

(** Below [2 ^ 53] a quotient by 100 rounds to the integer its exact value
    rounds to. *)
Lemma int_true_div_exact (n : Z) :
  Z.abs n < 2 ^ 53 ->
  exists x, int_true_div n 100 = Ok x /\ round_float x = round_div n 100.
Proof.
  intros Hn. unfold int_true_div.
  change (100 =? 0) with false. cbv iota.
  destruct (Z.eqb_spec n 0) as [->|Hne].
  { exists (Float 0 0). split; reflexivity. }
  pose proof (log2_quotient_100 (Z.abs n) ltac:(lia)) as HL.
  change (Z.abs 100) with 100. change (Z.sgn 100) with 1.
  set (e := Z.max (- 1074) (log2_quotient (Z.abs n) 100 - 52)).
  assert (He : e <= -6) by lia.
  cbv zeta.
  destruct (Z.leb_spec 0 e) as [H|_]; [lia|].
  assert (Hpow : 2 ^ e = 0) by (apply Z.pow_neg_r; lia).
  rewrite Hpow, Z.mul_0_r.
  destruct (Z.leb_spec (2 ^ 1024) 0) as [H|_].
  { pose proof (Z.pow_pos_nonneg 2 1024 ltac:(lia) ltac:(lia)). lia. }
  eexists. split; [reflexivity|].
  unfold round_float. cbn [mantissa exponent].
  destruct (Z.leb_spec 0 e) as [H|_]; [lia|].
  rewrite Z.mul_1_l.
  apply (round_twice n (2 ^ (- e)) (2 ^ (- e - 1))).
  - replace (- e) with (Z.succ (- e - 1)) at 1 by lia.
    apply Z.pow_succ_r. lia.
  - change 32 with (2 ^ 5). apply Z.pow_le_mono_r; lia.
Qed.

Lemma phase_days_exact (d pct : Z) :
  Z.abs d <= exact_days -> 0 <= pct <= 60 ->
  phase_days d pct = Ok (spec_phase_days d pct).
Proof.
  intros Hd Hpct. unfold phase_days, spec_phase_days.
  assert (Hn : Z.abs (d * pct) < 2 ^ 53).
  { assert (E : exact_days = 100000000000000) by reflexivity.
    assert (P : 2 ^ 53 = 9007199254740992) by reflexivity.
    rewrite P. nia. }
  destruct (int_true_div_exact (d * pct) Hn) as [x [-> Hx]].
  cbn [bind]. now rewrite Hx.
Qed.

(** Quotients and roundings as CPython computes them: [1 / 100] is
    [0x1.47ae147ae147bp-7]; the greatest quotient is the greatest finite
    [float]; [round(2.5)] is 2 and [round(3.5)] is 4. *)
Example true_div_values :
  int_true_div 1 100 = Ok (Float 5764607523034235 (-59))
  /\ int_true_div (-5) 100 = Ok (Float (-7205759403792794) (-57))
  /\ int_true_div 6000000000000000000 100 = Ok (Float 7500000000000000 3)
  /\ int_true_div 123456789012345678901234567890 100
     = Ok (Float 8982663640370133 37)
  /\ int_true_div ((2 ^ 1024 - 2 ^ 970) * 100 - 1) 100
     = Ok (Float (2 ^ 53 - 1) 971)
  /\ int_true_div ((2 ^ 1024 - 2 ^ 970) * 100) 100 = Raise OverflowError.
Proof. repeat split; vm_compute; reflexivity. Qed.

Example round_values :
  List.map
    (fun n => x <- int_true_div n 100 ;; Ok (round_float x))
    [49; 50; 150; 250; 350; -150; 123456789012345678901234567890]
  = List.map Ok [0; 0; 2; 2; 4; -2; 1234567890123456850245451776].
Proof. vm_compute. reflexivity. Qed.

(** Beyond [2 ^ 53] the rounded quotient differs from the exact one: the
    last phase of this day-count ends six days after it. *)
Example day_ranges_far :
  day_ranges 100000000000000030 1 (select_phases 100000000000000030)
  = Ok [ (1, 10000000000000004);
         (10000000000000005, 45000000000000016);
         (45000000000000017, 80000000000000028);
         (80000000000000029, 100000000000000036) ].
Proof. vm_compute. reflexivity. Qed.

Lemma round_div_mono (n m : Z) :
  n <= m -> round_div n 100 <= round_div m 100.
Proof.
  intros Hle. unfold round_div.
  pose proof (Z.div_mod n 100 ltac:(lia)) as Hn.
  pose proof (Z.div_mod m 100 ltac:(lia)) as Hm.
  pose proof (Z.mod_pos_bound n 100 ltac:(lia)) as Bn.
  pose proof (Z.mod_pos_bound m 100 ltac:(lia)) as Bm.
  pose proof (Z.div_le_mono n m 100 ltac:(lia) Hle) as Hq.
  destruct (Z.eq_dec (n / 100) (m / 100)) as [E|E].
  - rewrite E in *.
    destruct (Z.ltb_spec (2 * (n mod 100)) 100);
      destruct (Z.ltb_spec 100 (2 * (n mod 100)));
      destruct (Z.ltb_spec (2 * (m mod 100)) 100);
      destruct (Z.ltb_spec 100 (2 * (m mod 100)));
      destruct (Z.even (m / 100)); lia.
  - destruct (Z.ltb_spec (2 * (n mod 100)) 100);
      destruct (Z.ltb_spec 100 (2 * (n mod 100)));
      destruct (Z.ltb_spec (2 * (m mod 100)) 100);
      destruct (Z.ltb_spec 100 (2 * (m mod 100)));
      destruct (Z.even (n / 100)); destruct (Z.even (m / 100)); lia.
Qed.

Lemma spec_phase_days_mono (d d' pct : Z) :
  0 <= pct -> d <= d' -> spec_phase_days d pct <= spec_phase_days d' pct.
Proof.
  intros Hp Hd. unfold spec_phase_days.
  assert (round_div (d * pct) 100 <= round_div (d' * pct) 100)
    by (apply round_div_mono; nia).
  lia.
Qed.

Lemma spec_phase_days_pos (d pct : Z) : 1 <= spec_phase_days d pct.
Proof. unfold spec_phase_days. lia. Qed.

Lemma phase_days_pos (d pct n : Z) : phase_days d pct = Ok n -> 1 <= n.
Proof.
  unfold phase_days. destruct (int_true_div (d * pct) 100); cbn [bind];
    [|discriminate].
  intros H. inversion H. lia.
Qed.

Lemma spec_ranges_spans (c : Z) (spans : list Z) :
  List.map span (spec_ranges c spans) = spans.
Proof.
  revert c. induction spans as [|n rest IH]; intros c; simpl;
    [reflexivity|].
  rewrite IH. f_equal. unfold span. simpl. lia.
Qed.

Lemma spec_ranges_contiguous (c : Z) (spans : list Z) :
  Forall (fun n => 1 <= n) spans -> contiguous_from c (spec_ranges c spans).
Proof.
  intros H. revert c. induction H as [|n rest Hn _ IH]; intros c; simpl;
    [exact I|].
  repeat split; [lia|].
  replace (c + n - 1 + 1) with (c + n) by lia. apply IH.
Qed.

(** The ranges of the loop are laid out one after the other, whatever the
    lengths of the phases. *)
Lemma day_ranges_layout (d : Z) (phases : list phase) (c : Z)
    (ranges : list (Z * Z)) :
  day_ranges d c phases = Ok ranges ->
  ranges = spec_ranges c (List.map span ranges)
  /\ Forall (fun range => 1 <= span range) ranges
  /\ List.length ranges = List.length phases.
Proof.
  revert c ranges. induction phases as [|p rest IH]; intros c ranges;
    cbn [day_ranges].
  - intros H. inversion H. repeat split. constructor.
  - destruct (phase_days d (percentage p)) as [n|e] eqn:En; cbn [bind];
      [|discriminate].
    destruct (day_ranges d (c + n - 1 + 1) rest) as [rs|e] eqn:Er;
      cbn [bind]; [|discriminate].
    intros H. inversion H; subst ranges. clear H.
    destruct (IH _ _ Er) as [Hl [Hp Hn]].
    pose proof (phase_days_pos _ _ _ En).
    assert (Es : span (c, c + n - 1) = n)
      by (unfold span; cbn [fst snd]; lia).
    cbn [List.map spec_ranges List.length]. rewrite Es.
    repeat split.
    + f_equal. replace (c + n) with (c + n - 1 + 1) by lia. exact Hl.
    + constructor; [lia | exact Hp].
    + now rewrite Hn.
Qed.

Lemma day_ranges_exact (d : Z) (phases : list phase) (c : Z) :
  Z.abs d <= exact_days ->
  Forall (fun p => 0 <= percentage p <= 60) phases ->
  day_ranges d c phases
  = Ok (spec_ranges c
          (List.map (fun p => spec_phase_days d (percentage p)) phases)).
Proof.
  intros Hd H. revert c. induction H as [|p rest Hp _ IH]; intros c;
    cbn [day_ranges List.map spec_ranges]; [reflexivity|].
  rewrite (phase_days_exact d _ Hd Hp). cbn [bind]. rewrite IH. cbn [bind].
  do 3 f_equal. lia.
Qed.

Lemma select_phases_percentages (d : Z) :
  List.map percentage (select_phases d) = spec_percentages d.
Proof.
  unfold select_phases, spec_percentages.
  destruct (d <=? 3); [reflexivity|].
  destruct (d <=? 7); [reflexivity|].
  destruct (d <=? 14); reflexivity.
Qed.

Lemma select_phases_bounded (d : Z) :
  Forall (fun p => 0 <= percentage p <= 60) (select_phases d).
Proof.
  unfold select_phases.
  destruct (d <=? 3); [|destruct (d <=? 7); [|destruct (d <=? 14)]];
    repeat constructor; cbn; lia.
Qed.

Lemma checklist_concat (tasks : list string) (f : string -> string)
    (text : string) :
  fold_left (fun t task => t +++ f task) tasks text
  = text +++ String.concat "" (List.map f tasks).
Proof.
  revert text. induction tasks as [|x rest IH]; intros text;
    [symmetry; apply append_nil_r|].
  cbn [fold_left List.map]. rewrite IH, append_assoc. f_equal.
  destruct rest as [|y rest]; cbn [List.map String.concat];
    [now rewrite append_nil_r | reflexivity].
Qed.

Lemma render_phase_text (phase_name : string) (pct : Z)
    (task_list : list string) (current_day end_day : Z) :
  render_phase phase_name current_day end_day task_list
  = spec_phase_text (phase_name, pct, task_list) (current_day, end_day).
Proof.
  unfold render_phase, spec_phase_text. cbn [fst snd tasks].
  do 7 f_equal.
  now rewrite (checklist_concat task_list
                 (fun task => "- [ ] " +++ task +++ nl)).
Qed.

Lemma render_phases_text (phases : list phase) (ranges : list (Z * Z)) :
  render_phases phases ranges = spec_timeline_text phases ranges.
Proof.
  revert ranges. induction phases as [|[[name pct] tasks] rest IH];
    intros [|[a b] ranges]; cbn [render_phases spec_timeline_text];
    try reflexivity.
  now rewrite IH, (render_phase_text name pct).
Qed.

(** The text of the loop is that of the ranges it computes, and the loop
    raises what computing them raises. *)
Lemma phase_loop (d : Z) (phases : list phase) (timeline : string) (c : Z) :
  (st <- for_each (phase_step d) phases (timeline, c) ;; Ok (fst st))
  = (ranges <- day_ranges d c phases ;;
     Ok (timeline +++ render_phases phases ranges)).
Proof.
  revert timeline c. induction phases as [|[[name pct] tasks] rest IH];
    intros timeline c; cbn [for_each day_ranges bind fst render_phases].
  - now rewrite append_nil_r.
  - unfold phase_step at 1. cbn [percentage fst snd].
    destruct (phase_days d pct) as [n|e]; cbn [bind]; [|reflexivity].
    rewrite IH.
    destruct (day_ranges d (c + n - 1 + 1) rest) as [ranges|e]; cbn [bind];
      [|reflexivity].
    now rewrite append_assoc.
Qed.

Lemma timeline_of_ranges (d : Z) (project_type difficulty : value) :
  generate_timeline_phases d project_type difficulty
  = (ranges <- day_ranges d 1 (select_phases d) ;;
     Ok (spec_timeline_text (select_phases d) ranges)).
Proof.
  unfold generate_timeline_phases. rewrite phase_loop.
  destruct (day_ranges d 1 (select_phases d)); cbn [bind]; [|reflexivity].
  now rewrite render_phases_text.
Qed.

Lemma template_total_mono (pcts : list Z) (d d' : Z) :
  Forall (fun pct => 0 <= pct) pcts -> d <= d' ->
  template_total d pcts <= template_total d' pcts.
Proof.
  intros Hp Hd. unfold template_total.
  induction Hp as [|pct rest Hpct _ IH]; simpl; [lia|].
  pose proof (spec_phase_days_mono d d' pct Hpct Hd). lia.
Qed.

Ltac template_mono l a b :=
  let P := fresh "P" in
  assert (P : Forall (fun pct => 0 <= pct) l) by (repeat constructor; lia);
  pose proof (template_total_mono l a b P ltac:(lia)); clear P.

Lemma spec_total_mono (d d' : Z) :
  d <= d' -> sum (spec_spans d) <= sum (spec_spans d').
Proof.
  intros Hd.
  change (template_total d (spec_percentages d)
          <= template_total d' (spec_percentages d')).
  assert (B3 : template_total 3 [20; 60; 20] = 4) by reflexivity.
  assert (B4 : template_total 4 [15; 50; 25; 10] = 5) by reflexivity.
  assert (B7 : template_total 7 [15; 50; 25; 10] = 8) by reflexivity.
  assert (B8 : template_total 8 [10; 40; 35; 15] = 8) by reflexivity.
  assert (B14 : template_total 14 [10; 40; 35; 15] = 14) by reflexivity.
  assert (B15 : template_total 15 [10; 35; 35; 20] = 15) by reflexivity.
  unfold spec_percentages.
  destruct (Z.leb_spec d 3) as [D3|D3].
  { template_mono [20; 60; 20] d 3.
    destruct (Z.leb_spec d' 3);
      [template_mono [20; 60; 20] d d'; assumption|].
    destruct (Z.leb_spec d' 7);
      [template_mono [15; 50; 25; 10] 4 d'; lia|].
    destruct (Z.leb_spec d' 14);
      [template_mono [10; 40; 35; 15] 8 d' | template_mono [10; 35; 35; 20] 15 d'];
      lia. }
  destruct (Z.leb_spec d' 3); [lia|].
  destruct (Z.leb_spec d 7) as [D7|D7].
  { template_mono [15; 50; 25; 10] d 7.
    destruct (Z.leb_spec d' 7);
      [template_mono [15; 50; 25; 10] d d'; assumption|].
    destruct (Z.leb_spec d' 14);
      [template_mono [10; 40; 35; 15] 8 d' | template_mono [10; 35; 35; 20] 15 d'];
      lia. }
  destruct (Z.leb_spec d' 7); [lia|].
  destruct (Z.leb_spec d 14) as [D14|D14].
  { template_mono [10; 40; 35; 15] d 14.
    destruct (Z.leb_spec d' 14);
      [template_mono [10; 40; 35; 15] d d'; assumption|].
    template_mono [10; 35; 35; 20] 15 d'. lia. }
  destruct (Z.leb_spec d' 14); [lia|].
  template_mono [10; 35; 35; 20] d d'. assumption.
Qed.

(** The ranges of a day-count whose quotients are rounded exactly. *)
Lemma day_ranges_spec (d : Z) :
  Z.abs d <= exact_days ->
  day_ranges d 1 (select_phases d) = Ok (spec_ranges 1 (spec_spans d)).
Proof.
  intros Hd. rewrite (day_ranges_exact d _ 1 Hd (select_phases_bounded d)).
  unfold spec_spans. now rewrite <- select_phases_percentages, List.map_map.
Qed.

Lemma timeline_days_range (timeline : value) :
  0 <= timeline_days_of timeline <= 90.
Proof.
  unfold timeline_days_of.
  repeat match goal with
         | |- context [if ?b then _ else _] => destruct b
         end; lia.
Qed.

(** The timeline of a plan: its day-count is one of the table. *)
Lemma timeline_of_table (timeline project_type difficulty : value) :
  exists text,
    generate_timeline_phases (timeline_days_of timeline) project_type
      difficulty
    = Ok text.
Proof.
  pose proof (timeline_days_range timeline) as H.
  rewrite timeline_of_ranges, day_ranges_spec.
  - cbn [bind]. eauto.
  - assert (E : exact_days = 100000000000000) by reflexivity. lia.
Qed.

(** C4, as the claim states it, fails: the quotient
    [days * percentage / 100] is a [float], and for a day-count beyond the
    range of [float] the division raises [OverflowError]; no phase is laid
    out. *)
Lemma timeline_overflows :
  0 < 10 ^ 310
  /\ generate_timeline_phases (10 ^ 310) (PStr "fullstack")
       (PStr "intermediate")
     = Raise OverflowError.
Proof. split; vm_compute; reflexivity. Qed.

(** C4, amended. For a day-count d with 0 < d <= 10^14 the text of
    [generate_timeline_phases] lays the phases of the bucket of d
    (percentages 20/60/20 up to 3 days, 15/50/25/10 up to 7, 10/40/35/15
    up to 14, 10/35/35/20 beyond) on day ranges whose spans are
    max(1, round(d * pct / 100)), the quotient rounded to the nearest
    integer and a tie to the even one; the ranges start at day 1 and
    follow one another without gap or overlap (end = start + span - 1,
    next start = end + 1); and the total of the spans does not decrease
    when d grows. *)
Theorem timeline_layout (d : Z) (project_type difficulty : value) :
  0 < d <= exact_days ->
  exists ranges,
    generate_timeline_phases d project_type difficulty
    = Ok (spec_timeline_text (select_phases d) ranges)
    /\ List.map percentage (select_phases d)
       = (if d <=? 3 then [20; 60; 20]
          else if d <=? 7 then [15; 50; 25; 10]
          else if d <=? 14 then [10; 40; 35; 15]
          else [10; 35; 35; 20])
    /\ List.map span ranges
       = List.map (fun p => Z.max 1 (round_div (d * percentage p) 100))
           (select_phases d)
    /\ contiguous_from 1 ranges
    /\ (forall d',
          d <= d' <= exact_days ->
          exists ranges',
            generate_timeline_phases d' project_type difficulty
            = Ok (spec_timeline_text (select_phases d') ranges')
            /\ List.map span ranges'
               = List.map
                   (fun p => Z.max 1 (round_div (d' * percentage p) 100))
                   (select_phases d')
            /\ sum (List.map span ranges) <= sum (List.map span ranges')).
Proof.
  assert (Htext : forall n, Z.abs n <= exact_days ->
            generate_timeline_phases n project_type difficulty
            = Ok (spec_timeline_text (select_phases n)
                    (spec_ranges 1 (spec_spans n))))
    by (intros n Hn; rewrite timeline_of_ranges, (day_ranges_spec n Hn);
        reflexivity).
  assert (Hspans : forall n,
            List.map span (spec_ranges 1 (spec_spans n))
            = List.map (fun p => Z.max 1 (round_div (n * percentage p) 100))
                (select_phases n)).
  { intros n. rewrite spec_ranges_spans. unfold spec_spans.
    now rewrite <- select_phases_percentages, List.map_map. }
  intros Hd. exists (spec_ranges 1 (spec_spans d)).
  split; [apply Htext; lia|].
  split; [apply select_phases_percentages|].
  split; [apply Hspans|].
  split.
  - apply spec_ranges_contiguous. unfold spec_spans. apply Forall_map.
    apply Forall_forall. intros pct _. apply spec_phase_days_pos.
  - intros d' Hd'. exists (spec_ranges 1 (spec_spans d')).
    split; [apply Htext; lia|]. split; [apply Hspans|].
    rewrite !spec_ranges_spans. apply spec_total_mono. lia.
Qed.

Lemma timeline_layout_witness :
  exists ranges ranges',
    generate_timeline_phases 7 (PStr "frontend") (PStr "beginner")
    = Ok (spec_timeline_text (select_phases 7) ranges)
    /\ List.map percentage (select_phases 7) = [15; 50; 25; 10]
    /\ List.map span ranges = [1; 4; 2; 1]
    /\ contiguous_from 1 ranges
    /\ generate_timeline_phases 14 (PStr "frontend") (PStr "beginner")
       = Ok (spec_timeline_text (select_phases 14) ranges')
    /\ List.map span ranges' = [1; 6; 5; 2]
    /\ sum (List.map span ranges) <= sum (List.map span ranges').
Proof.
  destruct (timeline_layout 7 (PStr "frontend") (PStr "beginner"))
    as [ranges [Htext [Hpct [Hspans [Hcont Hmono]]]]];
    [vm_compute; split; [reflexivity | discriminate]|].
  destruct (Hmono 14) as [ranges' [Htext' [Hspans' Hle]]];
    [vm_compute; split; discriminate|].
  exists ranges, ranges'.
  split; [exact Htext|]. split; [exact Hpct|]. split; [exact Hspans|].
  split; [exact Hcont|]. split; [exact Htext'|]. split; [exact Hspans'|].
  exact Hle.
Defined.

(** C2, as the claim states it, fails: at day-count 0 the template selected
    is not the one with percentages 10/35/35/20. *)
Lemma open_timeline_not_long_template :
  List.map percentage (select_phases 0) <> [10; 35; 35; 20].
Proof. discriminate. Qed.

(** C2, amended. At day-count 0 (the "open" timeline) the first test of the
    chain, [days <= 3], holds: the template is the three-phase 20/60/20 one
    of the weekend, each phase one day long.  The 10/35/35/20 template,
    with one more task in each phase than the 14-day template, is selected
    exactly when the day-count exceeds 14. *)
Theorem open_timeline_template (project_type difficulty : value) :
  select_phases 0 = select_phases 3
  /\ List.map percentage (select_phases 0) = [20; 60; 20]
  /\ day_ranges 0 1 (select_phases 0) = Ok [(1, 1); (2, 2); (3, 3)]
  /\ generate_timeline_phases 0 project_type difficulty
     = Ok (render_phases (select_phases 3) [(1, 1); (2, 2); (3, 3)])
  /\ (forall d, List.map percentage (select_phases d) = [10; 35; 35; 20]
                <-> 14 < d)
  /\ (forall d, 14 < d ->
        List.map (fun p => Z.of_nat (List.length (tasks p))) (select_phases d)
        = List.map (fun p => Z.of_nat (List.length (tasks p)) + 1)
            (select_phases 14)).
Proof.
  repeat split; try reflexivity.
  - unfold select_phases.
    destruct (Z.leb_spec d 3); [discriminate|].
    destruct (Z.leb_spec d 7); [discriminate|].
    destruct (Z.leb_spec d 14); [discriminate | lia].
  - intros Hd. unfold select_phases.
    destruct (Z.leb_spec d 3); [lia|].
    destruct (Z.leb_spec d 7); [lia|].
    destruct (Z.leb_spec d 14); [lia | reflexivity].
  - intros d Hd. unfold select_phases.
    destruct (Z.leb_spec d 3); [lia|].
    destruct (Z.leb_spec d 7); [lia|].
    destruct (Z.leb_spec d 14); [lia | reflexivity].
Qed.

(** ** Getting-started renderer *)

Lemma selected_iff (name : string) (techs : list value) :
  selected name techs = true <-> In (PStr name) techs.
Proof.
  unfold selected. rewrite existsb_exists. split.
  - intros [x [Hin Heq]]. destruct x; simpl in Heq; try discriminate.
    apply String.eqb_eq in Heq. now subst.
  - intros Hin. exists (PStr name). split; [assumption|].
    simpl. apply String.eqb_refl.
Qed.

Lemma truthy_list (l : list value) : truthy (PList l) = negb (is_empty l).
Proof. destruct l; reflexivity. Qed.

Lemma getting_started_lists (tech_stack : dict)
    (project_type github_username repo_name : value)
    (frontend backend : list value) :
  get_default "frontend" (PList []) tech_stack = PList frontend ->
  get_default "backend" (PList []) tech_stack = PList backend ->
  generate_getting_started (PDict tech_stack) project_type github_username
    repo_name
  = Ok (clone_step github_username repo_name
        +++ spec_frontend_step project_type frontend
        +++ spec_backend_step project_type backend
        +++ trailing_steps).
Proof.
  intros Hf Hb.
  unfold generate_getting_started, value_get, bind.
  rewrite Hf, Hb.
  unfold spec_frontend_step, spec_backend_step, in_strs, contains_str, selected.
  cbn [existsb]. rewrite !orb_false_r, !truthy_list.
  destruct ((eq_str project_type "fullstack" || eq_str project_type "frontend")
            && negb (is_empty frontend));
    destruct ((eq_str project_type "fullstack" || eq_str project_type "backend")
              && negb (is_empty backend));
    repeat match goal with
           | |- context [existsb ?f ?l] => destruct (existsb f l)
           end;
    cbn [orb]; rewrite ?append_assoc, ?append_nil_r; reflexivity.
Qed.

Lemma clone_step_text (github_username repo_name : value) :
  clone_step github_username repo_name
  = spec_clone_step github_username repo_name.
Proof.
  unfold clone_step, spec_clone_step, lines. cbn [fold_right].
  rewrite !append_assoc. reflexivity.
Qed.

(** C8. On a tech-stack mapping whose frontend and backend entries are
    lists, the instructions are: the clone step; the frontend step exactly
    when the project type is fullstack or frontend and the frontend list is
    not empty (React commands when "React" is an element, else Vue
    commands when "Vue.js" is, else the generic line); the backend step
    exactly when the type is fullstack or backend and the backend list is
    not empty (Python commands when "Python" or "Flask" is an element, else
    Node commands when "Node.js" is, else the generic line); and the three
    closing steps.  An element is matched by equality with the string. *)
Theorem getting_started_steps (tech_stack : dict)
    (project_type github_username repo_name : value)
    (frontend backend : list value) :
  get_default "frontend" (PList []) tech_stack = PList frontend ->
  get_default "backend" (PList []) tech_stack = PList backend ->
  generate_getting_started (PDict tech_stack) project_type github_username
    repo_name
  = Ok (spec_clone_step github_username repo_name
        +++ spec_frontend_step project_type frontend
        +++ spec_backend_step project_type backend
        +++ spec_trailing_steps)
  /\ (forall name techs, selected name techs = true <-> In (PStr name) techs).
Proof.
  intros Hf Hb. split; [|apply selected_iff].
  rewrite (getting_started_lists tech_stack _ _ _ frontend backend Hf Hb).
  rewrite clone_step_text. reflexivity.
Qed.

Lemma getting_started_steps_witness :
  generate_getting_started
    (PDict [("frontend", PList [PStr "Vue.js"; PStr "react"]);
            ("backend", PList [PStr "Flask"])])
    (PStr "fullstack") (PStr "yourusername") (PStr "my-project")
  = Ok (lines
          [ "1. Clone the repository:";
            "   ```bash";
            "   git clone https://github.com/yourusername/my-project.git";
            "   cd my-project";
            "   ```";
            "";
            "2. Set up frontend:";
            "   ```bash";
            "   cd frontend";
            "   npm install";
            "   npm run dev";
            "   ```";
            "";
            "3. Set up backend:";
            "   ```bash";
            "   cd backend";
            "   python -m venv venv";
            "   source venv/bin/activate  # On Windows: venv\Scripts\activate";
            "   pip install -r requirements.txt";
            "   python app.py";
            "   ```";
            "";
            "4. Set up environment variables (copy .env.example to .env)";
            "5. Start development servers";
            "6. Open your browser to the frontend URL" ]).
Proof.
  exact (proj1 (getting_started_steps
                  [("frontend", PList [PStr "Vue.js"; PStr "react"]);
                   ("backend", PList [PStr "Flask"])]
                  (PStr "fullstack") (PStr "yourusername") (PStr "my-project")
                  [PStr "Vue.js"; PStr "react"] [PStr "Flask"]
                  eq_refl eq_refl)).
Defined.

(** ** Plan assembler *)

Lemma starts_with_app (p r : ustr) : starts_with N.eqb p (p ++ r) = true.
Proof.
  induction p as [|c p IH]; simpl; [reflexivity|].
  now rewrite N.eqb_refl, IH.
Qed.

Lemma starts_with_extend (p l k : ustr) :
  starts_with N.eqb p l = true -> starts_with N.eqb p (l ++ k) = true.
Proof.
  revert l. induction p as [|c p IH]; intros l; simpl; [reflexivity|].
  destruct l as [|x l]; simpl; [discriminate|].
  intros H. apply andb_true_iff in H. destruct H as [H1 H2].
  now rewrite H1, (IH _ H2).
Qed.

Lemma contains_here (p r : ustr) : contains p (p ++ r) = true.
Proof.
  destruct (p ++ r) eqn:E; simpl; rewrite <- E, starts_with_app; reflexivity.
Qed.

Lemma contains_app_r (p k l : ustr) :
  contains p l = true -> contains p (k ++ l) = true.
Proof.
  intros H. induction k as [|x k IH]; simpl; [assumption|].
  rewrite IH. apply orb_true_r.
Qed.

Lemma contains_app_l (p l k : ustr) :
  contains p l = true -> contains p (l ++ k) = true.
Proof.
  induction l as [|x l IH]; simpl.
  - rewrite orb_false_r. intros H. destruct p; [|discriminate].
    destruct k; reflexivity.
  - intros H. apply orb_true_iff in H. destruct H as [H|H].
    + apply (starts_with_extend _ (x :: l) k) in H. simpl in H.
      rewrite H. reflexivity.
    + rewrite (IH H). apply orb_true_r.
Qed.

Lemma dict_get_app (k : string) (d e : dict) :
  dict_get k (d ++ e)
  = match dict_get k d with Some v => Some v | None => dict_get k e end.
Proof.
  induction d as [|[k' v] d IH]; simpl; [reflexivity|].
  destruct (String.eqb k k'); [reflexivity | exact IH].
Qed.

Lemma get_default_app (k : string) (default : value) (d e : dict) :
  get_default k default (d ++ e) = get_default k (get_default k default e) d.
Proof.
  unfold get_default. rewrite dict_get_app.
  destruct (dict_get k d); reflexivity.
Qed.

Lemma get_or_app (k : string) (default : value) (d e : dict) :
  dict_get k e = None -> get_or k default (d ++ e) = get_or k default d.
Proof.
  intros He. unfold get_or. rewrite dict_get_app, He.
  destruct (dict_get k d); reflexivity.
Qed.

Section Clock.

(** The two readings of the clock taken while a plan is formatted. *)
Variables created generated : datetime.

Lemma plan_with_defaults (project_data : dict) :
  generate_project_plan created generated (project_data ++ required_defaults)
  = generate_project_plan created generated project_data.
Proof.
  unfold generate_project_plan.
  rewrite !get_default_app, !get_or_app by reflexivity.
  reflexivity.
Qed.

Lemma format_tech_list_total (l : list value) :
  exists text, format_tech_list (PList l) = Ok text.
Proof.
  unfold format_tech_list. destruct (negb (truthy (PList l))); simpl; eauto.
Qed.

Lemma format_features_list_total (l : list value) :
  exists text, format_features_list (PList l) = Ok text.
Proof.
  unfold format_features_list. destruct (negb (truthy (PList l))); simpl; eauto.
Qed.

Lemma file_structure_total (s : string) (repo_name : value) :
  exists text, generate_file_structure (PStr s) repo_name = Ok text.
Proof.
  unfold generate_file_structure. simpl.
  repeat match goal with |- context [if ?b then _ else _] => destruct b end;
    eauto.
Qed.


Lemma default_str (k default : string) (d : dict) :
  absent_or is_str k d = true ->
  exists s, get_default k (PStr default) d = PStr s.
Proof.
  unfold absent_or, get_default. destruct (dict_get k d) as [[]|];
    try discriminate; eauto.
Qed.

Lemma default_list (k : string) (d : dict) :
  absent_or is_list k d = true ->
  exists l, get_default k (PList []) d = PList l.
Proof.
  unfold absent_or, get_default. destruct (dict_get k d) as [[]|];
    try discriminate; eauto.
Qed.

Lemma default_stack (d : dict) :
  absent_or is_stack "tech_stack" d = true ->
  exists ts, get_default "tech_stack" (PDict []) d = PDict ts
             /\ is_stack (PDict ts) = true.
Proof.
  unfold absent_or, get_default. destruct (dict_get "tech_stack" d) as [[]|];
    try discriminate; eauto.
Qed.

Lemma plan_total (project_data : dict) :
  well_typed project_data = true ->
  exists plan, generate_project_plan created generated project_data = Ok plan.
Proof.
  unfold well_typed. rewrite !andb_true_iff.
  intros [[[[[Hty Htl] Hdf] Hdp] Hts] Hft].
  destruct (default_str _ "fullstack" _ Hty) as [ty Ety].
  destruct (default_str _ "1week" _ Htl) as [tl Etl].
  destruct (default_str _ "intermediate" _ Hdf) as [df Edf].
  destruct (default_str _ "github" _ Hdp) as [dp Edp].
  destruct (default_list _ _ Hft) as [ft Eft].
  destruct (default_stack _ Hts) as [ts [Ets Hstack]].
  simpl in Hstack. rewrite !andb_true_iff in Hstack.
  destruct Hstack as [[[Hfe Hbe] Hdb] Hto].
  destruct (default_list _ _ Hfe) as [fe Efe].
  destruct (default_list _ _ Hbe) as [be Ebe].
  destruct (default_list _ _ Hdb) as [db Edb].
  destruct (default_list _ _ Hto) as [to Eto].
  unfold generate_project_plan. cbv zeta.
  rewrite Ety, Etl, Edf, Edp, Eft, Ets.
  cbn [keys len bind as_str value_get].
  destruct (timeline_of_table (PStr tl) (PStr ty) (PStr df)) as [phases ->].
  cbn [bind].
  destruct (file_structure_total ty
              (get_default "repo_name" (PStr "my-project") project_data))
    as [fs ->].
  rewrite (getting_started_lists ts _ _ _ fe be Efe Ebe).
  cbn [bind]. rewrite Efe, Ebe, Edb, Eto.
  destruct (format_tech_list_total fe) as [t1 ->].
  destruct (format_tech_list_total be) as [t2 ->].
  destruct (format_tech_list_total db) as [t3 ->].
  destruct (format_tech_list_total to) as [t4 ->].
  destruct (format_features_list_total ft) as [t5 ->].
  cbn [bind]. eauto.
Qed.

(** C1, at the scenario of the specification.  The plan has the title, the
    details, the tech stack, the features and the deployment summary, then
    the footer: "Frontend", "React" and "Authentication" occur in it, but
    neither a day range nor the headings of the timeline and of the
    getting-started instructions do, although the timeline computed for
    the seven days has "Day 1-1".  The two texts are computed and then
    left out of the document. *)
Theorem scenario_plan_lacks_timeline :
  exists plan,
    generate_project_plan noon noon scenario = Ok plan
    /\ contains (codes "Frontend") plan = true
    /\ contains (codes "React") plan = true
    /\ contains (codes "Authentication") plan = true
    /\ contains (codes "Day 1-1") plan = false
    /\ contains (codes "Development Timeline") plan = false
    /\ contains (codes "Getting Started") plan = false
    /\ contains (codes "Clone the repository") plan = false
    /\ (exists timeline,
          generate_timeline_phases 7 (PStr "frontend") (PStr "beginner")
          = Ok timeline
          /\ str_contains "Day 1-1" timeline = true).
Proof.
  eexists. split; [vm_compute; reflexivity|].
  repeat split; try (vm_compute; reflexivity).
  eexists. split; vm_compute; reflexivity.
Qed.

Lemma bind_ok {A B} (c : result A) (k : A -> result B) (b : B) :
  bind c k = Ok b -> exists a, c = Ok a /\ k a = Ok b.
Proof. destruct c; simpl; [eauto | discriminate]. Qed.

Ltac bind_inv H :=
  repeat (let a := fresh "a" in
          let E := fresh "E" in
          apply bind_ok in H; destruct H as [a [E H]]).

Lemma timeline_days_default (v : value) :
  in_strs v valid_timelines = false -> timeline_days_of v = 7.
Proof.
  unfold in_strs, valid_timelines, timeline_days_of. cbn [existsb].
  rewrite !orb_false_iff. intros [-> [-> [-> [-> [-> [-> _]]]]]]. reflexivity.
Qed.

Lemma plan_document_days title description type_text timeline_text n
    difficulty_text t_created frontend_list backend_list database_list
    tools_list features_list platform_text github_username repo_name
    include_readme include_license include_gitignore include_venv t_generated :
  contains (codes " (" ++ codes (str_of_int n) ++ codes " days)")
    (plan_document title description type_text timeline_text n
       difficulty_text t_created frontend_list backend_list database_list
       tools_list features_list platform_text github_username repo_name
       include_readme include_license include_gitignore include_venv
       t_generated) = true.
Proof.
  unfold plan_document.
  repeat lazymatch goal with
         | |- contains _ (codes " (" ++ _) = true => fail
         | |- _ => apply contains_app_r
         end.
  match goal with
  | |- contains _ (?a ++ ?b ++ ?c ++ ?rest) = true =>
      rewrite (app_assoc b c rest), (app_assoc a (b ++ c) rest)
  end.
  apply contains_here.
Qed.

(** C9, as the claim states it, fails: a configuration that binds
    project_type to null makes the formatting of the type raise. *)
Lemma plan_raises_on_null_type :
  ~ exists plan,
      generate_project_plan noon noon [("project_type", PNone)] = Ok plan.
Proof. intros [plan H]. vm_compute in H. discriminate. Qed.

(** C9, amended. On a configuration whose project_type, timeline,
    difficulty and deployment_platform are strings, whose tech_stack is a
    mapping to lists and whose features are a list, each of them when
    present, plan generation returns a plan; a missing project_type,
    timeline or difficulty is read as 'fullstack', '1week' or
    'intermediate'; a timeline that is none of the six enumerated strings
    counts seven days, and the plan shows the day-count of its timeline. *)
Theorem plan_generation_total (project_data : dict) :
  well_typed project_data = true ->
  (exists plan, generate_project_plan created generated project_data = Ok plan)
  /\ generate_project_plan created generated
       (project_data ++ required_defaults)
     = generate_project_plan created generated project_data
  /\ (forall timeline, in_strs timeline valid_timelines = false ->
                       timeline_days_of timeline = 7)
  /\ (forall plan,
        generate_project_plan created generated project_data = Ok plan ->
        contains
          (codes " ("
           ++ codes (str_of_int
                       (timeline_days_of
                          (get_default "timeline" (PStr "1week") project_data)))
           ++ codes " days)")
          plan = true).
Proof.
  intros Hwt. split; [now apply plan_total|].
  split; [apply plan_with_defaults|].
  split; [apply timeline_days_default|].
  intros plan H. unfold generate_project_plan in H. cbv zeta in H.
  bind_inv H. inversion H; subst plan. apply plan_document_days.
Qed.

End Clock.

Lemma plan_generation_total_witness :
  (exists plan,
     generate_project_plan noon noon [("timeline", PStr "fortnight")] = Ok plan)
  /\ forall plan,
       generate_project_plan noon noon [("timeline", PStr "fortnight")]
       = Ok plan ->
       contains (codes " (7 days)") plan = true.
Proof.
  destruct (plan_generation_total noon noon [("timeline", PStr "fortnight")]
              eq_refl) as [Hex [_ [_ Hdays]]].
  split; [exact Hex | exact Hdays].
Defined.

(** ** Request handlers *)

(** C3, as the claim states it, fails: the empty configuration does not
    pass validation, and the generate handler renders it into a plan. *)
Lemma generate_renders_invalid_config :
  validate_project_data []
  = Ok (false, Some "Missing required field: project_type")
  /\ exists plan,
       generate_project noon noon (PDict [("project", PDict [])]) = PlanOk plan.
Proof. split; [reflexivity | eexists; vm_compute; reflexivity]. Qed.

(** C3, amended. The validator gates the persist handler only: a
    configuration it refuses is answered with status 400 and its message,
    and nothing is stored.  The generate handler does not consult it: it
    answers with the plan whenever plan generation returns one, and with
    status 500 when plan generation raises. *)
Theorem validator_gates_persistence_only (created generated : datetime)
    (db : table) (project_data : dict) :
  generate_project created generated (PDict [("project", PDict project_data)])
  = match generate_project_plan created generated project_data with
    | Ok plan => PlanOk plan
    | Raise e => ServerError "Failed to generate project plan: " e
    end
  /\ (forall error_msg,
        validate_project_data project_data = Ok (false, error_msg) ->
        create_project created generated db (PDict project_data)
        = (db, BadRequest error_msg)).
Proof.
  split.
  - reflexivity.
  - intros error_msg H. unfold create_project. simpl. rewrite H. reflexivity.
Qed.

Lemma validator_gates_persistence_only_witness :
  create_project noon noon [] (PDict [("timeline", PStr "1week")])
  = ([], BadRequest (Some "Missing required field: project_type")).
Proof.
  exact (proj2 (validator_gates_persistence_only noon noon []
                  [("timeline", PStr "1week")]) _ eq_refl).
Defined.

(** ** Repository name *)

Lemma codes_bounded (s : string) : Forall (fun c => (c < 256)%N) (codes s).
Proof.
  unfold codes. induction s as [|a s IH]; simpl; constructor.
  - apply N_ascii_bounded.
  - exact IH.
Qed.

Lemma codes_of_codes (l : ustr) :
  Forall (fun c => (c < 256)%N) l -> codes (of_codes l) = l.
Proof.
  unfold codes, of_codes. induction 1 as [|c l Hc _ IH]; simpl; [reflexivity|].
  rewrite N_ascii_embedding by assumption. now rewrite IH.
Qed.

Lemma of_codes_codes (s : string) : of_codes (codes s) = s.
Proof.
  unfold codes, of_codes. induction s as [|a s IH]; simpl; [reflexivity|].
  now rewrite ascii_N_embedding, IH.
Qed.

Ltac ranges :=
  unfold to_lower, is_word, ascii_name_char, between, one_of in *;
  cbn [existsb] in *;
  repeat match goal with
         | H : context [(?a <=? ?b)%N] |- _ => destruct (N.leb_spec a b)
         | |- context [(?a <=? ?b)%N] => destruct (N.leb_spec a b)
         | H : context [(?a <? ?b)%N] |- _ => destruct (N.ltb_spec a b)
         | |- context [(?a <? ?b)%N] => destruct (N.ltb_spec a b)
         | H : context [(?a =? ?b)%N] |- _ => destruct (N.eqb_spec a b)
         | |- context [(?a =? ?b)%N] => destruct (N.eqb_spec a b)
         end;
  cbn [andb orb negb] in *; try reflexivity; try discriminate; try lia.

Lemma to_lower_bounded (c : N) : (c < 256)%N -> (to_lower c < 256)%N.
Proof. intros H. ranges. Qed.

Lemma to_lower_idempotent (c : N) : to_lower (to_lower c) = to_lower c.
Proof.
  unfold to_lower at 2.
  destruct (between 65 90 c || between 192 214 c || between 216 222 c) eqn:E;
    [|unfold to_lower; now rewrite E].
  ranges.
Qed.

Lemma codes_lower (s : string) : codes (lower s) = List.map to_lower (codes s).
Proof.
  unfold lower. apply codes_of_codes.
  apply Forall_map. eapply Forall_impl; [|apply codes_bounded].
  intros c. apply to_lower_bounded.
Qed.

Lemma codes_replace_char (a b : N) (s : string) :
  (b < 256)%N ->
  codes (replace_char a b s)
  = List.map (fun c => if (c =? a)%N then b else c) (codes s).
Proof.
  intros Hb. unfold replace_char. apply codes_of_codes.
  apply Forall_map. eapply Forall_impl; [|apply codes_bounded].
  intros c Hc. simpl. destruct (c =? a)%N; assumption.
Qed.

Lemma codes_strip_non_word (s : string) :
  codes (strip_non_word s) = List.filter kept (codes s).
Proof.
  unfold strip_non_word. apply codes_of_codes.
  apply Forall_forall. intros c Hc. apply filter_In in Hc.
  destruct Hc as [Hc _].
  exact (proj1 (Forall_forall _ _) (codes_bounded s) c Hc).
Qed.

Lemma codes_sanitize (name : string) :
  codes (sanitize name)
  = List.filter kept (List.map sanitize_char (codes name)).
Proof.
  unfold sanitize.
  rewrite codes_strip_non_word, codes_replace_char, codes_lower by reflexivity.
  now rewrite List.map_map.
Qed.

Lemma kept_word_or_hyphen (c : N) :
  kept c = true -> is_word c = true \/ c = 45%N.
Proof.
  unfold kept. rewrite !orb_true_iff.
  intros [[H|H]|H]; [now left | right; now apply N.eqb_eq |].
  left. apply N.eqb_eq in H. now subst.
Qed.

Lemma sanitize_char_lower (c : N) :
  to_lower (sanitize_char c) = sanitize_char c.
Proof.
  unfold sanitize_char. destruct (to_lower c =? 32)%N;
    [reflexivity | apply to_lower_idempotent].
Qed.

Lemma sanitize_char_ascii (c : N) :
  (c < 128)%N -> kept (sanitize_char c) = true ->
  lower_name_char (sanitize_char c) = true.
Proof.
  unfold kept, sanitize_char, lower_name_char. intros Hc H.
  destruct (N.eqb_spec (to_lower c) 32) as [E|E].
  - reflexivity.
  - assert (Hl : (to_lower c < 128)%N /\ ~ (65 <= to_lower c <= 90)%N).
    { clear H E. unfold to_lower, between.
      destruct (N.leb_spec 65 c); destruct (N.leb_spec c 90);
        destruct (N.leb_spec 192 c); destruct (N.leb_spec c 214);
        destruct (N.leb_spec 216 c); destruct (N.leb_spec c 222);
        cbn [andb orb]; lia. }
    destruct Hl as [Hlt Hup]. revert H. generalize (to_lower c) Hlt Hup.
    clear. intros x Hx Hup.
    unfold is_word, between, one_of. cbn [existsb].
    destruct (N.leb_spec 48 x); destruct (N.leb_spec x 57);
      destruct (N.leb_spec 97 x); destruct (N.leb_spec x 122);
      destruct (N.eqb_spec x 95); destruct (N.eqb_spec x 45);
      cbn [andb orb]; try reflexivity; try lia;
      destruct (N.leb_spec 65 x); destruct (N.leb_spec x 90);
      cbn [andb orb]; try lia;
      repeat match goal with
             | |- context [(?a =? ?b)%N] =>
                 destruct (N.eqb_spec a b); [lia|]
             | |- context [(?a <=? ?b)%N] =>
                 destruct (N.leb_spec a b); try lia
             end; cbn [andb orb]; intros; try discriminate; try reflexivity.
Qed.

Lemma any_in_list (names : list string) (l : list value) :
  exists b, any_in names (PList l) = Ok b.
Proof.
  induction names as [|name rest IH]; simpl; [eauto|].
  destruct (existsb (fun x => eq_str x name) l); eauto.
Qed.

Lemma frontend_files_total (project_data ts : dict) (dir : list string) :
  get_default "tech_stack" (PDict []) project_data = PDict ts ->
  absent_or is_list "frontend" ts = true ->
  exists files, generate_frontend_files project_data dir = Ok files.
Proof.
  intros Ets Hfe. destruct (default_list _ _ Hfe) as [fe Efe].
  unfold generate_frontend_files. rewrite Ets. cbn [value_get bind].
  rewrite Efe. destruct (any_in_list ["React"; "Vue.js"; "Angular"] fe)
    as [b ->].
  cbn [bind]. destruct b; cbn [contains_str bind]; eauto.
Qed.

Lemma backend_files_total (project_data ts : dict) (dir : list string) :
  get_default "tech_stack" (PDict []) project_data = PDict ts ->
  absent_or is_list "backend" ts = true ->
  exists files, generate_backend_files project_data dir = Ok files.
Proof.
  intros Ets Hbe. destruct (default_list _ _ Hbe) as [be Ebe].
  unfold generate_backend_files. rewrite Ets. cbn [value_get bind].
  rewrite Ebe.
  destruct (any_in_list ["Python"; "Flask"; "Django"; "FastAPI"] be) as [b ->].
  destruct (any_in_list ["Node.js"; "Express"] be) as [b' ->].
  cbn [bind]. eauto.
Qed.

Lemma project_files_total (project_data : dict) (plan : ustr) (name : string) :
  well_typed project_data = true ->
  submitted_repo_name project_data = PStr name ->
  exists files, generate_project_files project_data plan = Ok files.
Proof.
  unfold well_typed. rewrite !andb_true_iff.
  intros [[[[[_ _] _] _] Hts] _] Hname.
  destruct (default_stack _ Hts) as [ts [Ets Hstack]].
  simpl in Hstack. rewrite !andb_true_iff in Hstack.
  destruct Hstack as [[[Hfe Hbe] _] _].
  unfold generate_project_files, sanitized_repo_name.
  unfold submitted_repo_name in Hname. rewrite Hname. cbn [as_str bind].
  destruct (eq_str _ "fullstack").
  - destruct (frontend_files_total project_data ts ["frontend"] Ets Hfe)
      as [f ->].
    destruct (backend_files_total project_data ts ["backend"] Ets Hbe)
      as [b ->].
    cbn [bind]. eauto.
  - destruct (eq_str _ "frontend").
    + destruct (frontend_files_total project_data ts [] Ets Hfe) as [f ->].
      cbn [bind]. eauto.
    + destruct (eq_str _ "backend").
      * destruct (backend_files_total project_data ts [] Ets Hbe) as [b ->].
        cbn [bind]. eauto.
      * cbn [bind]. eauto.
Qed.

(** C6, as the claim states it, fails: a repository name made of the letter
    U+00E9 is kept as it is, and the file name of the archive has a
    character outside [A-Za-z0-9_-]. *)
Lemma download_name_keeps_letter :
  download_project noon noon
    (PDict [("project", PDict [("repo_name", PStr e_acute)])])
  = Attachment (e_acute +++ ".zip") "application/zip"
  /\ forallb ascii_name_char (codes (sanitize e_acute)) = false.
Proof. split; vm_compute; reflexivity. Qed.

Lemma sum_app (a b : list Z) : sum (a ++ b) = sum a + sum b.
Proof.
  unfold sum. induction a as [|x a IH]; simpl; [reflexivity|]. lia.
Qed.

Lemma utf8_length_zip (name : string) :
  utf8_length (name +++ ".zip") = utf8_length name + 4.
Proof.
  unfold utf8_length. now rewrite codes_append, List.map_app, sum_app.
Qed.

Lemma create_name_cases (name : string) :
  (utf8_length name <= 255 -> create_name name = Ok tt)
  /\ (255 < utf8_length name -> create_name name = Raise OSError).
Proof.
  unfold create_name, name_max.
  destruct (Z.leb_spec (utf8_length name) 255); split; intros; try lia;
    reflexivity.
Qed.

Lemma utf8_length_nonneg (name : string) : 0 <= utf8_length name.
Proof.
  unfold utf8_length. induction (codes name) as [|c l IH];
    cbn [List.map sum fold_right]; [lia|].
  unfold sum in IH. destruct (c <? 128)%N; lia.
Qed.

(** C6, amended. The download handler names the archive after the
    submitted repoName, a string of code points up to U+00FF,
    lower-cased, with spaces turned into hyphens and stripped of every
    character that is neither a word character of the regular expression
    ([\w]: a letter or a digit, the letters and digits beyond ASCII
    included, or the underscore) nor a hyphen, followed by ".zip", with a
    zip content type.  It does so on every configuration of the expected
    shape whose archive name has 255 bytes at most; a longer name is
    refused by the file system and the answer is 500.  The name is in
    lower case, and a repoName of ASCII characters gives a name over
    [a-z0-9_-]. *)
Theorem download_name_sanitized (created generated : datetime)
    (project_data : dict) (name : string) :
  submitted_repo_name project_data = PStr name ->
  (forall download_name mimetype,
     download_project created generated
       (PDict [("project", PDict project_data)])
     = Attachment download_name mimetype ->
     download_name = sanitize name +++ ".zip" /\ mimetype = "application/zip")
  /\ (well_typed project_data = true ->
      utf8_length (sanitize name +++ ".zip") <= 255 ->
      download_project created generated
        (PDict [("project", PDict project_data)])
      = Attachment (sanitize name +++ ".zip") "application/zip")
  /\ (well_typed project_data = true ->
      255 < utf8_length (sanitize name +++ ".zip") ->
      download_project created generated
        (PDict [("project", PDict project_data)])
      = ServerError "Failed to generate project files: " OSError)
  /\ codes (sanitize name)
     = List.filter kept (List.map sanitize_char (codes name))
  /\ Forall (fun c => is_word c = true \/ c = 45%N) (codes (sanitize name))
  /\ lower (sanitize name) = sanitize name
  /\ (Forall (fun c => (c < 128)%N) (codes name) ->
      forallb lower_name_char (codes (sanitize name)) = true).
Proof.
  intros Hname.
  assert (Hsan : sanitized_repo_name project_data = Ok (sanitize name)).
  { unfold sanitized_repo_name. unfold submitted_repo_name in Hname.
    now rewrite Hname. }
  assert (Hshape :
            download_project created generated
              (PDict [("project", PDict project_data)])
            = match
                (plan <- generate_project_plan created generated
                           project_data ;;
                 _ <- create_name (sanitize name) ;;
                 _ <- generate_project_files project_data plan ;;
                 _ <- create_name (sanitize name +++ ".zip") ;;
                 Ok (sanitize name +++ ".zip"))
              with
              | Ok download_name => Attachment download_name "application/zip"
              | Raise e => ServerError "Failed to generate project files: " e
              end).
  { unfold download_project. cbn [value_get get_default dict_get
      String.eqb Ascii.eqb Bool.eqb as_dict bind].
    destruct (generate_project_plan created generated project_data);
      cbn [bind]; [|reflexivity].
    rewrite Hsan. reflexivity. }
  rewrite Hshape. clear Hshape.
  split; [|split; [|split; [|split; [|split; [|split]]]]].
  - intros download_name mimetype H.
    destruct (generate_project_plan created generated project_data) as [plan|];
      cbn [bind] in H; [|discriminate].
    destruct (create_name (sanitize name)); cbn [bind] in H; [|discriminate].
    destruct (generate_project_files project_data plan); cbn [bind] in H;
      [|discriminate].
    destruct (create_name (sanitize name +++ ".zip")); cbn [bind] in H;
      [|discriminate].
    inversion H. split; reflexivity.
  - intros Hwt Hlen.
    destruct (plan_total created generated project_data Hwt) as [plan ->].
    cbn [bind].
    pose proof (utf8_length_zip (sanitize name)) as Hzip.
    rewrite (proj1 (create_name_cases (sanitize name))) by lia.
    cbn [bind].
    destruct (project_files_total project_data plan name Hwt Hname)
      as [files ->].
    cbn [bind].
    rewrite (proj1 (create_name_cases (sanitize name +++ ".zip")) Hlen).
    reflexivity.
  - intros Hwt Hlen.
    destruct (plan_total created generated project_data Hwt) as [plan ->].
    cbn [bind].
    destruct (create_name (sanitize name)) as [[]|e] eqn:Edir; cbn [bind].
    + destruct (project_files_total project_data plan name Hwt Hname)
        as [files ->].
      cbn [bind].
      rewrite (proj2 (create_name_cases (sanitize name +++ ".zip")) Hlen).
      reflexivity.
    + unfold create_name in Edir.
      destruct (utf8_length (sanitize name) <=? name_max);
        [discriminate|]. now inversion Edir.
  - apply codes_sanitize.
  - rewrite codes_sanitize. apply Forall_forall. intros c Hc.
    apply filter_In in Hc. destruct Hc as [_ Hc].
    now apply kept_word_or_hyphen.
  - transitivity (of_codes (codes (sanitize name))); [|apply of_codes_codes].
    unfold lower. f_equal. rewrite codes_sanitize.
    induction (codes name) as [|c l IH]; simpl; [reflexivity|].
    destruct (kept (sanitize_char c)); simpl;
      [rewrite sanitize_char_lower|]; now rewrite IH.
  - intros Hascii. rewrite codes_sanitize. apply forallb_forall.
    intros c Hc. apply filter_In in Hc. destruct Hc as [Hin Hk].
    apply in_map_iff in Hin. destruct Hin as [x [<- Hx]].
    apply sanitize_char_ascii; [|assumption].
    exact (proj1 (Forall_forall _ _) Hascii x Hx).
Qed.

Lemma download_name_sanitized_witness :
  download_project noon noon
    (PDict [("project", PDict [("repo_name", PStr "My Cool App!")])])
  = Attachment "my-cool-app.zip" "application/zip".
Proof.
  refine (proj1 (proj2 (download_name_sanitized noon noon
                          [("repo_name", PStr "My Cool App!")] "My Cool App!"
                          eq_refl)) eq_refl _).
  vm_compute. discriminate.
Defined.

(** A name over the limit of the file system: the answer is 500. *)
Example long_name_refused :
  download_project noon noon
    (PDict [("project", PDict [("repo_name", PStr long_name)])])
  = ServerError "Failed to generate project files: " OSError.
Proof. vm_compute. reflexivity. Qed.

(** ** JSON text *)

Import Json.

Lemma value_induction (P : value -> Prop) :
  P PNone ->
  (forall b, P (PBool b)) ->
  (forall z, P (PInt z)) ->
  (forall s, P (PStr s)) ->
  (forall l, Forall P l -> P (PList l)) ->
  (forall d, Forall (fun kv => P (snd kv)) d -> P (PDict d)) ->
  forall v, P v.
Proof.
  intros Hnone Hbool Hint Hstr Hlist Hdict.
  fix IH 1. intros [| b | z | s | l | d].
  - exact Hnone.
  - apply Hbool.
  - apply Hint.
  - apply Hstr.
  - apply Hlist. induction l as [|x l IHl]; constructor; [apply IH | exact IHl].
  - apply Hdict. induction d as [|[k x] d IHd]; constructor;
      [apply IH | exact IHd].
Qed.

Lemma hex_digit_value (x : N) : (x < 16)%N -> hex_value (hex_digit x) = Some x.
Proof.
  intros H.
  assert (E : In x [0; 1; 2; 3; 4; 5; 6; 7; 8; 9; 10; 11; 12; 13; 14; 15]%N).
  { simpl. lia. }
  simpl in E.
  repeat (destruct E as [<-|E]; [reflexivity|]). contradiction.
Qed.

Lemma scan_string_escape (c : N) (inp : list N) :
  (c < 256)%N ->
  scan_string (escape c ++ inp)
  = match scan_string inp with
    | Some (s, r) => Some (c :: s, r)
    | None => None
    end.
Proof.
  intros Hc. unfold escape.
  destruct (N.eqb_spec c 34) as [->|N34]; [reflexivity|].
  destruct (N.eqb_spec c 92) as [->|N92]; [reflexivity|].
  destruct (N.eqb_spec c 10) as [->|N10]; [reflexivity|].
  destruct (N.eqb_spec c 13) as [->|N13]; [reflexivity|].
  destruct (N.eqb_spec c 9) as [->|N9]; [reflexivity|].
  destruct (N.eqb_spec c 8) as [->|N8]; [reflexivity|].
  destruct (N.eqb_spec c 12) as [->|N12]; [reflexivity|].
  destruct ((c <? 32)%N || (126 <? c)%N) eqn:E.
  - unfold hex4.
    assert (H1 : (c / 4096 = 0)%N) by (apply N.div_small; lia).
    assert (H2 : ((c / 256) mod 16 = 0)%N)
      by (rewrite (N.div_small c 256) by lia; reflexivity).
    rewrite H1, H2.
    cbn [app scan_string N.eqb Pos.eqb].
    change (hex_digit 0) with 48%N.
    change (hex_value 48) with (Some 0%N).
    rewrite !hex_digit_value by (try apply N.mod_upper_bound; lia).
    replace (0 * 4096 + 0 * 256 + (c / 16) mod 16 * 16 + c mod 16)%N with c.
    + apply N.ltb_lt in Hc. rewrite Hc. reflexivity.
    + rewrite (N.mod_small (c / 16) 16)
        by (apply N.Div0.div_lt_upper_bound; lia).
      pose proof (N.div_mod c 16 ltac:(lia)). lia.
  - apply orb_false_iff in E. destruct E as [E1 E2].
    cbn [app scan_string].
    apply N.eqb_neq in N34, N92. rewrite N34, N92, E1. reflexivity.
Qed.

Lemma scan_string_encoded (cs rest : list N) :
  Forall (fun c => (c < 256)%N) cs ->
  scan_string (flat_map escape cs ++ [34%N] ++ rest) = Some (cs, rest).
Proof.
  induction 1 as [|c cs Hc _ IH]; [reflexivity|].
  cbn [flat_map]. rewrite <- app_assoc, scan_string_escape by assumption.
  now rewrite IH.
Qed.

Lemma uint_digits (d : Decimal.uint) :
  Forall (fun c => is_digit c = true) (codes (NilEmpty.string_of_uint d)).
Proof. induction d; simpl; constructor; auto. Qed.

Lemma take_digits_app (ds rest : list N) :
  Forall (fun c => is_digit c = true) ds ->
  match rest with [] => true | c :: _ => negb (is_digit c) end = true ->
  take_digits (ds ++ rest) = (ds, rest).
Proof.
  intros Hds Hrest. induction Hds as [|c ds Hc _ IH]; cbn [app take_digits].
  - destruct rest as [|c rest]; [reflexivity|]. cbn [take_digits].
    apply negb_true_iff in Hrest. now rewrite Hrest.
  - now rewrite Hc, IH.
Qed.

Lemma delimited_split (rest : list N) :
  delimited rest = true ->
  match rest with [] => true | c :: _ => negb (is_digit c) end = true
  /\ match rest with c :: _ => one_of [46; 101; 69]%N c | [] => false end
     = false.
Proof.
  destruct rest as [|c rest]; simpl; [auto|].
  rewrite negb_true_iff, orb_false_iff. intros [H1 H2].
  rewrite H1. auto.
Qed.

Lemma pos_digits (p : positive) :
  Forall (fun c => is_digit c = true)
    (codes (NilZero.string_of_uint (Pos.to_uint p)))
  /\ codes (NilZero.string_of_uint (Pos.to_uint p)) <> [].
Proof.
  pose proof (DecimalPos.Unsigned.to_uint_nonnil p) as Hnn.
  pose proof (uint_digits (Pos.to_uint p)) as Hd.
  unfold NilZero.string_of_uint.
  destruct (Pos.to_uint p); try contradiction; split; try exact Hd;
    discriminate.
Qed.

(** The decimal text of an integer: a minus sign for a negative one, then
    digits. *)
Lemma str_of_int_shape (z : Z) :
  exists sign ds,
    codes (str_of_int z) = sign ++ ds
    /\ (sign = [] \/ sign = [45%N])
    /\ Forall (fun c => is_digit c = true) ds
    /\ ds <> [].
Proof.
  unfold str_of_int. destruct z as [|p|p].
  - exists [], [48%N]. split; [reflexivity|]. split; [now left|].
    split; [repeat constructor | discriminate].
  - exists [], (codes (NilZero.string_of_uint (Pos.to_uint p))).
    destruct (pos_digits p). split; [reflexivity|]. split; [now left|].
    split; assumption.
  - exists [45%N], (codes (NilZero.string_of_uint (Pos.to_uint p))).
    destruct (pos_digits p). split; [reflexivity|]. split; [now right|].
    split; assumption.
Qed.

Lemma int_of_str_of_int (z : Z) :
  NilZero.int_of_string (str_of_int z) = Some (Z.to_int z).
Proof.
  unfold str_of_int. apply NilZero.isi.
  - destruct z; simpl; try discriminate.
    intros [= E]. exact (DecimalPos.Unsigned.to_uint_nonnil _ E).
  - destruct z; simpl; try discriminate.
    intros [= E]. exact (DecimalPos.Unsigned.to_uint_nonnil _ E).
Qed.

Lemma scan_number_encoded (z : Z) (rest : list N) :
  delimited rest = true ->
  scan_number (codes (str_of_int z) ++ rest) = Some (z, rest).
Proof.
  intros Hrest. destruct (delimited_split rest Hrest) as [Hd He].
  destruct (str_of_int_shape z) as [sign [ds [E [Hsign [Hds Hne]]]]].
  assert (Htext : of_codes (sign ++ ds) = str_of_int z)
    by (rewrite <- E; apply of_codes_codes).
  unfold scan_number. rewrite E.
  assert (Hbody :
    (let (sign0, body) :=
       match (sign ++ ds) ++ rest with
       | c :: r => if (c =? 45)%N then ([45%N], r) else ([], (sign ++ ds) ++ rest)
       | [] => ([], (sign ++ ds) ++ rest)
       end in (sign0, body)) = (sign, ds ++ rest)).
  { destruct Hsign as [-> | ->]; simpl.
    - destruct ds as [|c ds]; [contradiction|]. simpl.
      inversion Hds as [|? ? Hc _]; subst.
      destruct (N.eqb_spec c 45) as [->|]; [discriminate | reflexivity].
    - reflexivity. }
  destruct (match (sign ++ ds) ++ rest with
            | c :: r => if (c =? 45)%N then ([45%N], r) else ([], (sign ++ ds) ++ rest)
            | [] => ([], (sign ++ ds) ++ rest)
            end) as [sign0 body].
  inversion Hbody; subst sign0 body.
  rewrite (take_digits_app ds rest Hds Hd).
  destruct ds as [|c ds]; [contradiction|]. cbn [is_empty].
  rewrite He, Htext, int_of_str_of_int, DecimalZ.of_to, String.eqb_refl.
  reflexivity.
Qed.

Lemma encode_start (v : value) :
  exists c tail, encode v = c :: tail /\ value_start c = true.
Proof.
  destruct v as [| [|] | z | s | l | d]; simpl;
    try (eexists; eexists; split; reflexivity).
  destruct (str_of_int_shape z) as [sign [ds [E [Hsign [Hds Hne]]]]].
  rewrite E. destruct Hsign as [-> | ->].
  - destruct ds as [|c ds]; [contradiction|].
    exists c, ds. split; [reflexivity|].
    inversion Hds as [|? ? Hc _]; subst.
    unfold value_start. rewrite Hc. apply orb_true_r.
  - exists 45%N, ds. split; reflexivity.
Qed.

Lemma value_start_not_ws (c : N) : value_start c = true -> is_ws c = false.
Proof.
  unfold value_start, is_ws, is_digit, one_of, between. cbn [existsb].
  intros H.
  destruct (N.eqb_spec c 32) as [->|]; [discriminate|].
  destruct (N.eqb_spec c 9) as [->|]; [discriminate|].
  destruct (N.eqb_spec c 10) as [->|]; [discriminate|].
  destruct (N.eqb_spec c 13) as [->|]; [discriminate|].
  reflexivity.
Qed.

Lemma skip_ws_encode (v : value) (rest : list N) :
  skip_ws (encode v ++ rest) = encode v ++ rest.
Proof.
  destruct (encode_start v) as [c [tail [-> Hc]]].
  cbn [app skip_ws]. now rewrite (value_start_not_ws c Hc).
Qed.

Lemma head_encode (v : value) (rest : list N) (c : N) :
  one_of [93; 125; 44; 58]%N c = true ->
  head_is c (encode v ++ rest) = false.
Proof.
  destruct (encode_start v) as [x [tail [-> Hx]]].
  cbn [app head_is]. unfold one_of. cbn [existsb].
  rewrite !orb_true_iff. intros H.
  destruct (N.eqb_spec x c) as [->|]; [|reflexivity].
  repeat (destruct H as [H|H]; [apply N.eqb_eq in H; subst c; discriminate|]).
  discriminate.
Qed.

Lemma parse_value_number (fuel : nat) (c : N) (tail : list N) :
  is_digit c = true \/ c = 45%N ->
  parse_value (S fuel) (c :: tail)
  = match scan_number (c :: tail) with
    | Some (z, rest) => Some (PInt z, rest)
    | None => None
    end.
Proof.
  intros Hc.
  assert (H : (c =? 34)%N = false /\ (c =? 91)%N = false
              /\ (c =? 123)%N = false /\ (110 =? c)%N = false
              /\ (116 =? c)%N = false /\ (102 =? c)%N = false).
  { destruct Hc as [Hc | ->]; [|repeat split; reflexivity].
    unfold is_digit, between in Hc. apply andb_true_iff in Hc.
    destruct Hc as [H1 H2]. apply N.leb_le in H1, H2.
    repeat split; apply N.eqb_neq; lia. }
  destruct H as [H1 [H2 [H3 [H4 [H5 H6]]]]].
  cbn [parse_value head_is]. rewrite H1, H2, H3.
  cbn [strip codes list_ascii_of_string List.map].
  change (N_of_ascii "n") with 110%N.
  change (N_of_ascii "t") with 116%N.
  change (N_of_ascii "f") with 102%N.
  rewrite H4, H5, H6. reflexivity.
Qed.

Lemma parse_value_int (fuel : nat) (z : Z) (rest : list N) :
  delimited rest = true ->
  parse_value (S fuel) (codes (str_of_int z) ++ rest) = Some (PInt z, rest).
Proof.
  intros Hrest.
  pose proof (scan_number_encoded z rest Hrest) as Hscan.
  destruct (str_of_int_shape z) as [sign [ds [E [Hsign [Hds Hne]]]]].
  assert (Hhead : exists c tail,
             codes (str_of_int z) ++ rest = c :: tail
             /\ (is_digit c = true \/ c = 45%N)).
  { rewrite E. destruct Hsign as [-> | ->].
    - destruct ds as [|c ds]; [contradiction|].
      inversion Hds; subst. exists c, (ds ++ rest). auto.
    - exists 45%N, (ds ++ rest). auto. }
  destruct Hhead as [c [tail [Ehead Hc]]].
  rewrite Ehead in *. rewrite parse_value_number by assumption.
  now rewrite Hscan.
Qed.

Lemma parse_value_str (fuel : nat) (s : string) (rest : list N) :
  parse_value (S fuel) (encode_str s ++ rest) = Some (PStr s, rest).
Proof.
  unfold encode_str. cbn [parse_value app head_is tl N.eqb Pos.eqb].
  rewrite <- app_assoc.
  rewrite (scan_string_encoded (codes s) rest (codes_bounded s)).
  now rewrite of_codes_codes.
Qed.

Lemma parse_elements_eq (fuel : nat) (inp : list N) :
  parse_elements (S fuel) inp
  = match parse_value fuel inp with
    | Some (v, rest) =>
        let rest1 := skip_ws rest in
        if head_is 93 rest1 then Some ([v], tl rest1)
        else if head_is 44 rest1 then
          match parse_elements fuel (skip_ws (tl rest1)) with
          | Some (vs, r) => Some (v :: vs, r)
          | None => None
          end
        else None
    | None => None
    end.
Proof. reflexivity. Qed.

Lemma parse_members_eq (fuel : nat) (inp : list N) :
  parse_members (S fuel) inp
  = if head_is 34 inp then
      match scan_string (tl inp) with
      | Some (k, rest) =>
          let rest1 := skip_ws rest in
          if head_is 58 rest1 then
            match parse_value fuel (skip_ws (tl rest1)) with
            | Some (v, rest2) =>
                let rest3 := skip_ws rest2 in
                if head_is 125 rest3 then Some ([(of_codes k, v)], tl rest3)
                else if head_is 44 rest3 then
                  match parse_members fuel (skip_ws (tl rest3)) with
                  | Some (ps, r) => Some ((of_codes k, v) :: ps, r)
                  | None => None
                  end
                else None
            | None => None
            end
          else None
      | None => None
      end
    else None.
Proof. reflexivity. Qed.

Lemma parse_value_list_eq (fuel : nat) (tail : list N) :
  parse_value (S fuel) (91%N :: tail)
  = let inp1 := skip_ws tail in
    if head_is 93 inp1 then Some (PList [], tl inp1)
    else
      match parse_elements fuel inp1 with
      | Some (l, rest) => Some (PList l, rest)
      | None => None
      end.
Proof. reflexivity. Qed.

Lemma parse_value_dict_eq (fuel : nat) (tail : list N) :
  parse_value (S fuel) (123%N :: tail)
  = let inp1 := skip_ws tail in
    if head_is 125 inp1 then Some (PDict [], tl inp1)
    else
      match parse_members fuel inp1 with
      | Some (pairs, rest) => Some (PDict (dict_of_pairs pairs), rest)
      | None => None
      end.
Proof. reflexivity. Qed.

Lemma parse_elements_encoded (l : list value) :
  l <> [] -> Forall reads_back l ->
  forall fuel rest,
    (fold_right (fun x n => S (size x + n)) O l <= fuel)%nat ->
    parse_elements fuel
      (separated (codes ", ") (List.map encode l) ++ 93%N :: rest)
    = Some (l, rest).
Proof.
  intros Hne Hall. induction Hall as [|x l Hx Hl IH]; [contradiction|].
  intros fuel rest Hfuel. cbn [fold_right] in Hfuel.
  destruct fuel as [|fuel]; [lia|]. rewrite parse_elements_eq.
  destruct l as [|y l].
  - cbn [List.map separated].
    rewrite (Hx fuel (93%N :: rest)) by (reflexivity || lia).
    reflexivity.
  - change (separated (codes ", ") (List.map encode (x :: y :: l)))
      with (encode x ++ codes ", "
            ++ separated (codes ", ") (List.map encode (y :: l))).
    rewrite <- !app_assoc.
    rewrite (Hx fuel) by (reflexivity || lia).
    change (codes ", " ++ ?t) with (44%N :: 32%N :: t).
    cbn [skip_ws is_ws one_of existsb N.eqb Pos.eqb orb head_is tl].
    assert (Hskip : forall t,
               skip_ws (separated (codes ", ") (List.map encode (y :: l)) ++ t)
               = separated (codes ", ") (List.map encode (y :: l)) ++ t).
    { intros t. cbn [List.map separated].
      destruct (List.map encode l);
        rewrite <- ?app_assoc; apply skip_ws_encode. }
    rewrite Hskip, IH by (discriminate || lia).
    reflexivity.
Qed.

Lemma parse_members_encoded (d : dict) :
  d <> [] -> Forall (fun kv => reads_back (snd kv)) d ->
  forall fuel rest,
    (fold_right (fun kv n => S (size (snd kv) + n)) O d <= fuel)%nat ->
    parse_members fuel
      (separated (codes ", ") (List.map encode_member d) ++ 125%N :: rest)
    = Some (d, rest).
Proof.
  intros Hne Hall. induction Hall as [|[k x] d Hx Hd IH]; [contradiction|].
  intros fuel rest Hfuel. cbn [fold_right snd] in Hfuel. cbn [snd] in Hx.
  destruct fuel as [|fuel]; [lia|]. rewrite parse_members_eq.
  assert (Hkey : forall t,
             scan_string (tl (encode_member (k, x) ++ t))
             = Some (codes k, 58%N :: 32%N :: encode x ++ t)).
  { intros t. unfold encode_member, encode_str. cbn [fst snd app tl].
    rewrite <- !app_assoc.
    now rewrite (scan_string_encoded (codes k) _ (codes_bounded k)). }
  assert (Hhead : forall t, head_is 34 (encode_member (k, x) ++ t) = true)
    by reflexivity.
  destruct d as [|y d].
  - cbn [List.map separated]. rewrite Hhead, Hkey.
    cbn [skip_ws is_ws one_of existsb N.eqb Pos.eqb orb head_is tl].
    rewrite skip_ws_encode.
    rewrite (Hx fuel (125%N :: rest)) by (reflexivity || lia).
    cbn [skip_ws is_ws one_of existsb N.eqb Pos.eqb orb head_is tl].
    now rewrite of_codes_codes.
  - change (separated (codes ", ") (List.map encode_member ((k, x) :: y :: d)))
      with (encode_member (k, x) ++ codes ", "
            ++ separated (codes ", ") (List.map encode_member (y :: d))).
    rewrite <- !app_assoc. rewrite Hhead, Hkey.
    cbn [skip_ws is_ws one_of existsb N.eqb Pos.eqb orb head_is tl].
    rewrite skip_ws_encode.
    rewrite (Hx fuel) by (reflexivity || lia).
    change (codes ", " ++ ?t) with (44%N :: 32%N :: t).
    cbn [skip_ws is_ws one_of existsb N.eqb Pos.eqb orb head_is tl].
    assert (Hskip : forall t,
               skip_ws (separated (codes ", ") (List.map encode_member (y :: d))
                        ++ t)
               = separated (codes ", ") (List.map encode_member (y :: d)) ++ t).
    { intros t. cbn [List.map separated].
      destruct (List.map encode_member d); rewrite <- ?app_assoc;
        reflexivity. }
    rewrite Hskip, IH by (discriminate || lia).
    now rewrite of_codes_codes.
Qed.

Lemma existsb_eqb_false (k : string) (keys : list string) :
  existsb (String.eqb k) keys = false -> ~ In k keys.
Proof.
  intros H Hin. assert (Ht : existsb (String.eqb k) keys = true).
  { apply existsb_exists. exists k. split; [assumption | apply String.eqb_refl]. }
  congruence.
Qed.

Lemma dict_set_fresh (k : string) (v : value) (d : dict) :
  ~ In k (List.map fst d) -> dict_set k v d = d ++ [(k, v)].
Proof.
  induction d as [|[k' v'] d IH]; simpl; [reflexivity|].
  intros Hnin. destruct (String.eqb_spec k k') as [->|Hne].
  - exfalso. apply Hnin. now left.
  - rewrite IH; [reflexivity|]. intros Hin. apply Hnin. now right.
Qed.

Lemma set_all_distinct (pairs acc : dict) :
  distinct (List.map fst pairs) = true ->
  (forall k, In k (List.map fst pairs) -> ~ In k (List.map fst acc)) ->
  fold_left (fun d kv => dict_set (fst kv) (snd kv) d) pairs acc = acc ++ pairs.
Proof.
  revert acc. induction pairs as [|[k v] pairs IH]; intros acc Hd Hfresh.
  - now rewrite app_nil_r.
  - cbn [List.map fst distinct] in Hd. apply andb_true_iff in Hd.
    destruct Hd as [Hk Hd]. apply negb_true_iff in Hk.
    apply existsb_eqb_false in Hk.
    cbn [fold_left fst snd].
    rewrite dict_set_fresh by (apply Hfresh; now left).
    rewrite IH; [now rewrite <- app_assoc | assumption |].
    intros k' Hin. rewrite List.map_app, in_app_iff. cbn [List.map fst In].
    intros [Hacc | [<- | []]].
    + exact (Hfresh k' (or_intror Hin) Hacc).
    + exact (Hk Hin).
Qed.

Lemma dict_of_pairs_distinct (d : dict) :
  distinct (List.map fst d) = true -> dict_of_pairs d = d.
Proof.
  intros H. unfold dict_of_pairs. rewrite set_all_distinct; auto.
Qed.

Lemma encode_reads_back (v : value) : wf v = true -> reads_back v.
Proof.
  induction v as [| b | z | s | l IH | d IH] using value_induction;
    intros Hwf fuel rest Hfuel Hrest;
    (destruct fuel as [|fuel]; [simpl in Hfuel; lia|]).
  - reflexivity.
  - destruct b; reflexivity.
  - now apply parse_value_int.
  - apply parse_value_str.
  - cbn [encode app]. rewrite <- app_assoc.
    change ([93%N] ++ rest) with (93%N :: rest).
    rewrite parse_value_list_eq.
    destruct l as [|x l]; [reflexivity|].
    assert (Hall : Forall reads_back (x :: l)).
    { cbn [wf] in Hwf. rewrite forallb_forall in Hwf.
      rewrite Forall_forall in IH |- *. intros y Hy. apply IH; auto. }
    assert (Hfirst : forall t,
      skip_ws (separated (codes ", ") (List.map encode (x :: l)) ++ t)
      = separated (codes ", ") (List.map encode (x :: l)) ++ t
      /\ head_is 93 (separated (codes ", ") (List.map encode (x :: l)) ++ t)
         = false).
    { intros t. cbn [List.map separated]. destruct (List.map encode l);
        rewrite <- ?app_assoc; split;
        (apply skip_ws_encode || (apply head_encode; reflexivity)). }
    cbv zeta. rewrite (proj1 (Hfirst _)), (proj2 (Hfirst _)).
    cbn [size] in Hfuel.
    rewrite (parse_elements_encoded (x :: l)) by (discriminate || auto || lia).
    reflexivity.
  - cbn [encode app]. rewrite <- app_assoc.
    change ([125%N] ++ rest) with (125%N :: rest).
    rewrite parse_value_dict_eq.
    destruct d as [|kv d]; [reflexivity|].
    cbn [wf] in Hwf. apply andb_true_iff in Hwf. destruct Hwf as [Hkeys Hwf].
    assert (Hall : Forall (fun p => reads_back (snd p)) (kv :: d)).
    { rewrite forallb_forall in Hwf.
      rewrite Forall_forall in IH |- *. intros y Hy. apply IH; auto. }
    change (List.map (fun kv0 => encode_str (fst kv0) ++ codes ": "
                                 ++ encode (snd kv0)) (kv :: d))
      with (List.map encode_member (kv :: d)).
    assert (Hfirst : forall t,
      skip_ws (separated (codes ", ") (List.map encode_member (kv :: d)) ++ t)
      = separated (codes ", ") (List.map encode_member (kv :: d)) ++ t
      /\ head_is 125 (separated (codes ", ") (List.map encode_member (kv :: d))
                      ++ t) = false).
    { intros t. cbn [List.map separated].
      destruct (List.map encode_member d); rewrite <- ?app_assoc;
        split; reflexivity. }
    cbv zeta. rewrite (proj1 (Hfirst _)), (proj2 (Hfirst _)).
    cbn [size] in Hfuel.
    rewrite (parse_members_encoded (kv :: d)) by (discriminate || auto || lia).
    now rewrite dict_of_pairs_distinct.
Qed.

Lemma escape_bounded (c : N) :
  (c < 256)%N -> Forall (fun x => (x < 256)%N) (escape c).
Proof.
  intros Hc. unfold escape, hex4, hex_digit.
  repeat match goal with
         | |- context [if ?b then _ else _] => destruct b
         end;
    repeat constructor; try assumption; try lia;
    match goal with
    | |- (_ + ?x < 256)%N =>
        assert (x < 16)%N by (try apply N.mod_upper_bound; try lia;
                              apply N.Div0.div_lt_upper_bound; lia); lia
    end.
Qed.

Lemma separated_bounded (sep : list N) (items : list (list N)) :
  Forall (fun x => (x < 256)%N) sep ->
  Forall (Forall (fun x => (x < 256)%N)) items ->
  Forall (fun x => (x < 256)%N) (separated sep items).
Proof.
  intros Hsep Hitems. induction Hitems as [|x items Hx Hitems IH];
    [constructor|].
  cbn [separated]. destruct items as [|y items]; [assumption|].
  apply Forall_app. split; [assumption|].
  apply Forall_app. split; assumption.
Qed.

Lemma encode_str_bounded (s : string) :
  Forall (fun x => (x < 256)%N) (encode_str s).
Proof.
  unfold encode_str. apply Forall_app. split; [repeat constructor; lia|].
  apply Forall_app. split; [|repeat constructor; lia].
  apply Forall_flat_map. eapply Forall_impl; [|apply codes_bounded].
  intros c. apply escape_bounded.
Qed.

Lemma encode_bounded (v : value) : Forall (fun x => (x < 256)%N) (encode v).
Proof.
  induction v as [| b | z | s | l IH | d IH] using value_induction;
    cbn [encode].
  - apply codes_bounded.
  - destruct b; apply codes_bounded.
  - apply codes_bounded.
  - apply encode_str_bounded.
  - apply Forall_app. split; [repeat constructor; lia|].
    apply Forall_app. split; [|repeat constructor; lia].
    apply separated_bounded; [apply codes_bounded|].
    apply Forall_map. exact IH.
  - apply Forall_app. split; [repeat constructor; lia|].
    apply Forall_app. split; [|repeat constructor; lia].
    apply separated_bounded; [apply codes_bounded|].
    apply Forall_map. eapply Forall_impl; [|exact IH].
    intros [k x] Hx. cbn [fst snd] in *.
    apply Forall_app. split; [apply encode_str_bounded|].
    apply Forall_app. split; [apply codes_bounded | exact Hx].
Qed.

Lemma size_items (A : Type) (sz : A -> nat) (enc : A -> list N) (l : list A) :
  Forall (fun x => (sz x <= List.length (enc x))%nat) l ->
  (fold_right (fun x n => S (sz x + n)) O l
   <= S (List.length (separated (codes ", ") (List.map enc l))))%nat.
Proof.
  induction 1 as [|x l Hx Hl IH]; [cbn; lia|].
  destruct l as [|y l].
  - cbn [fold_right List.map separated]. lia.
  - change (separated (codes ", ") (List.map enc (x :: y :: l)))
      with (enc x ++ codes ", " ++ separated (codes ", ") (List.map enc (y :: l))).
    rewrite !length_app. change (List.length (codes ", ")) with 2%nat.
    cbn [fold_right] in *. lia.
Qed.

Lemma size_le_length (v : value) : (size v <= List.length (encode v))%nat.
Proof.
  induction v as [| b | z | s | l IH | d IH] using value_induction.
  - simpl. lia.
  - destruct b; simpl; lia.
  - destruct (encode_start (PInt z)) as [c [tail [E _]]].
    rewrite E. simpl. lia.
  - simpl. lia.
  - cbn [size encode]. rewrite !length_app. cbn [List.length].
    pose proof (size_items value size encode l IH). lia.
  - cbn [size encode]. rewrite !length_app. cbn [List.length].
    change (List.map (fun kv => encode_str (fst kv) ++ codes ": "
                                ++ encode (snd kv)) d)
      with (List.map encode_member d).
    assert (H : Forall (fun kv : string * value =>
                          (size (snd kv) <= List.length (encode_member kv))%nat)
                  d).
    { eapply Forall_impl; [|exact IH]. intros [k x] Hx.
      unfold encode_member. cbn [fst snd] in *. rewrite !length_app. lia. }
    pose proof (size_items _ (fun kv => size (snd kv)) encode_member d H). lia.
Qed.

Lemma length_of_codes (l : list N) :
  String.length (of_codes l) = List.length l.
Proof.
  unfold of_codes. induction l as [|c l IH]; simpl; [reflexivity|].
  now rewrite IH.
Qed.

(** The text [json.dumps] writes for a value is read back by [json.loads]
    as that value. *)
Lemma loads_dumps (v : value) : wf v = true -> loads (dumps v) = Some v.
Proof.
  intros Hwf. unfold loads, dumps.
  rewrite codes_of_codes by apply encode_bounded.
  rewrite length_of_codes.
  rewrite <- (app_nil_r (encode v)) at 2. rewrite skip_ws_encode.
  rewrite (encode_reads_back v Hwf (S (List.length (encode v))) [])
    by (reflexivity || (pose proof (size_le_length v); lia)).
  reflexivity.
Qed.

(** ** Persistence store *)

Lemma dumps_truthy (v : value) : truthy (PStr (dumps v)) = true.
Proof.
  unfold dumps. destruct (encode_start v) as [c [tail [-> _]]]. reflexivity.
Qed.

Lemma loads_value_dumps (v : value) :
  wf v = true -> loads_value (PStr (dumps v)) = Ok v.
Proof. intros H. unfold loads_value. now rewrite loads_dumps. Qed.

Lemma find_app {A} (f : A -> bool) (l k : list A) :
  List.find f (l ++ k)
  = match List.find f l with Some x => Some x | None => List.find f k end.
Proof.
  induction l as [|x l IH]; simpl; [reflexivity|].
  destruct (f x); [reflexivity | exact IH].
Qed.

Lemma ids_below_next (db : table) :
  ids_in_sequence db ->
  forall p, In p db -> Project.id p < next_id db.
Proof.
  unfold ids_in_sequence, next_id. intros Hseq p Hp.
  assert (Hin : In (Project.id p) (List.map Project.id db))
    by (apply in_map; assumption).
  rewrite Hseq in Hin. apply in_map_iff in Hin.
  destruct Hin as [i [<- Hi]]. apply in_seq in Hi. lia.
Qed.

Lemma find_fresh (db : table) (project : Project.t) :
  ids_in_sequence db ->
  Project.id project = next_id db ->
  find_project (Project.id project) (db ++ [project]) = Some project.
Proof.
  intros Hseq Hid. unfold find_project. rewrite find_app.
  destruct (List.find _ db) as [p|] eqn:E.
  - apply find_some in E. destruct E as [Hin Heq].
    apply Z.eqb_eq in Heq.
    pose proof (ids_below_next db Hseq p Hin). lia.
  - simpl. now rewrite Z.eqb_refl.
Qed.

Lemma ids_in_sequence_add (db : table) (project : Project.t) :
  ids_in_sequence db ->
  Project.id project = next_id db ->
  ids_in_sequence (db ++ [project]).
Proof.
  unfold ids_in_sequence, next_id. intros Hseq Hid.
  rewrite List.map_app, length_app, Hseq. cbn [List.length List.map].
  rewrite Nat.add_1_r, seq_S, List.map_app. cbn [List.map Nat.add].
  now rewrite Hid.
Qed.

Lemma validated_fields (data : dict) :
  validate_project_data data = Ok (true, None) ->
  exists ty tl df,
    dict_get "project_type" data = Some ty
    /\ dict_get "timeline" data = Some tl
    /\ dict_get "difficulty" data = Some df.
Proof.
  unfold validate_project_data. intros H.
  destruct (missing_field required_fields data) eqn:E; [discriminate|].
  pose proof (missing_field_none _ _ E) as Hall.
  assert (Hget : forall f, In f required_fields ->
                           exists v, dict_get f data = Some v).
  { intros f Hf. specialize (Hall f Hf). unfold truthy_get in Hall.
    destruct (dict_get f data); [eauto | discriminate]. }
  destruct (Hget "project_type") as [ty Hty]; [simpl; auto|].
  destruct (Hget "timeline") as [tl Htl]; [simpl; auto|].
  destruct (Hget "difficulty") as [df Hdf]; [simpl; auto|].
  eauto 7.
Qed.

Lemma create_then_get (created_at updated_at : datetime) (db : table)
    (data : dict) :
  ids_in_sequence db ->
  validate_project_data data = Ok (true, None) ->
  wf (get_default "tech_stack" (PDict []) data) = true ->
  wf (get_default "features" (PList []) data) = true ->
  exists project stored,
    create_project created_at updated_at db (PDict data)
    = (db ++ [project], Created stored)
    /\ Project.id project = next_id db
    /\ Project.to_dict project = Ok stored
    /\ stored
       = [ ("id", PInt (next_id db));
           ("title", get_or "title" (PStr "Untitled Project") data);
           ("description", get_or "description" (PStr "") data);
           ("project_type", get_default "project_type" PNone data);
           ("timeline", get_default "timeline" PNone data);
           ("difficulty", get_default "difficulty" PNone data);
           ("tech_stack", get_default "tech_stack" (PDict []) data);
           ("features", get_default "features" (PList []) data);
           ("deployment_platform",
            get_default "deployment_platform" (PStr "github") data);
           ("repo_name", get_default "repo_name" (PStr "") data);
           ("include_readme", get_default "include_readme" (PBool true) data);
           ("include_license", get_default "include_license" (PBool false) data);
           ("include_gitignore",
            get_default "include_gitignore" (PBool true) data);
           ("created_at", PStr (isoformat created_at));
           ("updated_at", PStr (isoformat updated_at)) ].
Proof.
  intros Hseq Hvalid Hts Hft.
  destruct (validated_fields data Hvalid) as [ty [tl [df [Ety [Etl Edf]]]]].
  unfold create_project. cbn [as_dict]. rewrite Hvalid.
  unfold subscript, get_default in *. rewrite Ety, Etl, Edf. cbn [bind].
  unfold Project.to_dict. cbn [Project.tech_stack Project.features].
  rewrite !dumps_truthy, !loads_value_dumps by assumption.
  cbn [bind]. eexists. eexists. split; [reflexivity|].
  split; [reflexivity|]. split; [|reflexivity].
  cbn [Project.tech_stack Project.features].
  rewrite !dumps_truthy, !loads_value_dumps by assumption.
  reflexivity.
Qed.

(** C7, as the claim states it, fails: a valid configuration with an empty
    title and no description comes back with the title 'Untitled Project'
    and an empty description. *)
Lemma stored_title_differs :
  validate_project_data untitled_submission = Ok (true, None)
  /\ exists stored,
       get_project
         (fst (create_project noon noon [] (PDict untitled_submission))) 1
       = Found stored
       /\ dict_get "title" untitled_submission = Some (PStr "")
       /\ dict_get "title" stored = Some (PStr "Untitled Project")
       /\ dict_get "description" untitled_submission = None
       /\ dict_get "description" stored = Some (PStr "").
Proof.
  split; [reflexivity|]. eexists. split; [vm_compute; reflexivity|].
  repeat split.
Qed.

(** C7, amended. When a configuration passes validation (its other stored
    fields having the type of their column), creating it stores a project
    under a new id, and retrieving that id returns what creation returned:
    project_type, timeline and difficulty as submitted; tech_stack and
    features, kept as JSON text, decoded back to the submitted structure
    (a missing one reads as the empty mapping or list); the title and the
    description as submitted when not empty, else 'Untitled Project' and
    the empty string; deployment_platform, repo_name and the three include
    flags as submitted, a missing one as 'github', the empty string, true,
    false and true; together with the id and the two timestamps. *)
Theorem persist_round_trip (created_at updated_at : datetime) (db : table)
    (data : dict) :
  ids_in_sequence db ->
  validate_project_data data = Ok (true, None) ->
  column_typed data = true ->
  wf (get_default "tech_stack" (PDict []) data) = true ->
  wf (get_default "features" (PList []) data) = true ->
  exists project stored,
    create_project created_at updated_at db (PDict data)
    = (db ++ [project], Created stored)
    /\ dict_get "id" stored = Some (PInt (Project.id project))
    /\ get_project (db ++ [project]) (Project.id project) = Found stored
    /\ ids_in_sequence (db ++ [project])
    /\ (forall k, In k required_fields -> dict_get k stored = dict_get k data)
    /\ dict_get "tech_stack" stored
       = Some (get_default "tech_stack" (PDict []) data)
    /\ dict_get "features" stored
       = Some (get_default "features" (PList []) data)
    /\ dict_get "title" stored
       = Some (get_or "title" (PStr "Untitled Project") data)
    /\ dict_get "description" stored
       = Some (get_or "description" (PStr "") data)
    /\ (forall k default, In (k, default) optional_defaults ->
          dict_get k stored = Some (get_default k default data))
    /\ List.map fst stored
       = ["id"; "title"; "description"; "project_type"; "timeline";
          "difficulty"; "tech_stack"; "features"; "deployment_platform";
          "repo_name"; "include_readme"; "include_license";
          "include_gitignore"; "created_at"; "updated_at"].
Proof.
  intros Hseq Hvalid _ Hts Hft.
  destruct (create_then_get created_at updated_at db data Hseq Hvalid Hts Hft)
    as [project [stored [Hcreate [Hid [Hdict Hstored]]]]].
  destruct (validated_fields data Hvalid) as [ty [tl [df [Ety [Etl Edf]]]]].
  exists project, stored. split; [exact Hcreate|].
  split; [rewrite Hstored, Hid; reflexivity|].
  split.
  { unfold get_project. rewrite (find_fresh db project Hseq Hid).
    now rewrite Hdict. }
  split; [now apply ids_in_sequence_add|].
  rewrite Hstored. unfold get_default. rewrite Ety, Etl, Edf.
  split.
  { intros k [<-|[<-|[<-|[]]]]; cbn; congruence. }
  repeat (split; [reflexivity|]).
  split; [|reflexivity].
  intros k default Hin. cbn [optional_defaults In] in Hin.
  repeat (destruct Hin as [Hin|Hin]; [inversion Hin; subst; reflexivity|]).
  contradiction.
Qed.

Lemma persist_round_trip_witness :
  exists project stored,
    create_project noon noon [] (PDict sample_project_data)
    = ([project], Created stored)
    /\ get_project [project] (Project.id project) = Found stored
    /\ dict_get "tech_stack" stored = dict_get "tech_stack" sample_project_data
    /\ dict_get "features" stored = dict_get "features" sample_project_data.
Proof.
  destruct (persist_round_trip noon noon [] sample_project_data
              eq_refl eq_refl eq_refl eq_refl eq_refl)
    as [project [stored [Hc [_ [Hg [_ [_ [Hts [Hft _]]]]]]]]].
  exists project, stored. repeat split; assumption.
Defined.

(** * Further properties of the code *)

(** ** Validator *)

(** X1. Validation looks at project_type, timeline and difficulty only: two
    configurations that bind these three keys alike get the same verdict
    and the same message, whatever else they hold. *)
Theorem validate_reads_required_fields_only (data data' : dict) :
  (forall field, In field required_fields ->
                 dict_get field data = dict_get field data') ->
  validate_project_data data = validate_project_data data'.
Proof.
  intros H.
  assert (Hty := H "project_type" ltac:(simpl; auto)).
  assert (Htl := H "timeline" ltac:(simpl; auto)).
  assert (Hdf := H "difficulty" ltac:(simpl; auto)).
  unfold validate_project_data, required_fields, missing_field, truthy_get,
    subscript.
  now rewrite Hty, Htl, Hdf.
Qed.

Lemma validate_reads_required_fields_only_witness :
  validate_project_data
    (("title", PStr "A") :: ("features", PInt 3) :: untitled_submission)
  = validate_project_data untitled_submission.
Proof.
  apply validate_reads_required_fields_only.
  intros field [<-|[<-|[<-|[]]]]; reflexivity.
Defined.

Lemma timeline_days_table (s : string) :
  In s valid_timelines -> In (s, timeline_days_of (PStr s)) timeline_table.
Proof.
  simpl. intros H.
  repeat (destruct H as [<-|H]; [simpl; tauto|]). contradiction.
Qed.

(** X2. On a configuration the validator accepts, the day-count computed
    from the timeline is the one of the table (weekend 3, 1week 7, 2weeks
    14, 1month 30, 3months 90, open 0): the fall-back to seven days is not
    taken. *)
Theorem validated_timeline_days (data : dict) :
  validate_project_data data = Ok (true, None) ->
  exists s,
    dict_get "timeline" data = Some (PStr s)
    /\ get_default "timeline" (PStr "1week") data = PStr s
    /\ In (s, timeline_days_of (get_default "timeline" (PStr "1week") data))
         timeline_table.
Proof.
  intros H.
  destruct (validated_fields data H) as [ty [tl [df [Ety [Etl Edf]]]]].
  unfold validate_project_data in H.
  destruct (missing_field required_fields data); [discriminate|].
  unfold subscript in H. rewrite Ety, Etl, Edf in H. cbn [bind] in H.
  destruct (in_strs ty valid_types); cbn [negb] in H; [|discriminate].
  destruct (in_strs tl valid_timelines) eqn:E; cbn [negb] in H;
    [|discriminate].
  apply in_strs_spec in E. destruct E as [s [-> Hs]].
  exists s. unfold get_default. rewrite Etl.
  repeat split. now apply timeline_days_table.
Qed.

Lemma validated_timeline_days_witness :
  exists s,
    dict_get "timeline" sample_project_data = Some (PStr s)
    /\ get_default "timeline" (PStr "1week") sample_project_data = PStr s
    /\ In (s, timeline_days_of
                (get_default "timeline" (PStr "1week") sample_project_data))
         timeline_table.
Proof. exact (validated_timeline_days sample_project_data eq_refl). Defined.

(** ** Timeline synthesizer *)

Lemma round_div_near (n : Z) :
  2 * n - 100 <= 200 * round_div n 100 <= 2 * n + 100.
Proof.
  unfold round_div.
  pose proof (Z.div_mod n 100 ltac:(lia)).
  pose proof (Z.mod_pos_bound n 100 ltac:(lia)).
  destruct (Z.ltb_spec (2 * (n mod 100)) 100);
    destruct (Z.ltb_spec 100 (2 * (n mod 100)));
    destruct (Z.even (n / 100)); lia.
Qed.

Lemma spec_phase_days_round (d pct : Z) :
  6 <= d -> 10 <= pct -> spec_phase_days d pct = round_div (d * pct) 100.
Proof.
  intros Hd Hp. unfold spec_phase_days.
  pose proof (round_div_near (d * pct)). nia.
Qed.

Lemma last_range_end (c : Z) (spans : list Z) :
  spans <> [] ->
  snd (List.last (spec_ranges c spans) (0, 0)) = c - 1 + sum spans.
Proof.
  revert c. induction spans as [|n rest IH]; intros c Hne; [contradiction|].
  destruct rest as [|m rest].
  - cbn [spec_ranges List.last sum fold_right snd]. lia.
  - change (spec_ranges c (n :: m :: rest))
      with ((c, c + n - 1) :: spec_ranges (c + n) (m :: rest)).
    change (List.last (?x :: spec_ranges ?c' (m :: rest)) (0, 0))
      with (List.last (spec_ranges c' (m :: rest)) (0, 0)).
    rewrite IH by discriminate.
    cbn [sum fold_right]. lia.
Qed.

Lemma spec_total_near (d : Z) :
  1 <= d -> d - 2 <= sum (spec_spans d) <= d + 2.
Proof.
  intros Hd.
  destruct (Z.leb_spec d 5) as [Hsmall|Hbig].
  - assert (E : d = 1 \/ d = 2 \/ d = 3 \/ d = 4 \/ d = 5) by lia.
    destruct E as [->|[->|[->|[->| ->]]]]; vm_compute; split; discriminate.
  - unfold spec_spans, spec_percentages.
    destruct (Z.leb_spec d 3); [lia|].
    destruct (Z.leb_spec d 7); [|destruct (Z.leb_spec d 14)];
      cbn [List.map sum fold_right];
      rewrite !spec_phase_days_round by lia;
      repeat match goal with
             | |- context [round_div ?n 100] =>
                 lazymatch goal with
                 | _ : 2 * n - 100 <= _ <= _ |- _ => fail
                 | _ => pose proof (round_div_near n)
                 end
             end; lia.
Qed.

Lemma spec_spans_nonempty (d : Z) : spec_spans d <> [].
Proof.
  unfold spec_spans, spec_percentages.
  destruct (d <=? 3); [discriminate|].
  destruct (d <=? 7); [discriminate|].
  destruct (d <=? 14); discriminate.
Qed.

(** X3. For a day-count d from 1 to 10^14 the timeline is returned and its
    phases cover between d - 2 and d + 2 days in all, the last phase
    ending on that day: the timeline misses or exceeds the day-count by
    two days at most. *)
Theorem timeline_total_near_days (d : Z) (project_type difficulty : value) :
  1 <= d <= exact_days ->
  exists ranges,
    generate_timeline_phases d project_type difficulty
    = Ok (spec_timeline_text (select_phases d) ranges)
    /\ List.length ranges = List.length (select_phases d)
    /\ d - 2 <= sum (List.map span ranges) <= d + 2
    /\ snd (List.last ranges (0, 0)) = sum (List.map span ranges).
Proof.
  intros Hd. exists (spec_ranges 1 (spec_spans d)).
  assert (Hranges := day_ranges_spec d ltac:(lia)).
  rewrite spec_ranges_spans.
  split; [rewrite timeline_of_ranges, Hranges; reflexivity|].
  split; [exact (proj2 (proj2 (day_ranges_layout _ _ _ _ Hranges)))|].
  split; [apply spec_total_near; lia|].
  rewrite last_range_end by apply spec_spans_nonempty. lia.
Qed.

Lemma timeline_total_near_days_witness :
  exists ranges,
    generate_timeline_phases 90 (PStr "fullstack") (PStr "expert")
    = Ok (spec_timeline_text (select_phases 90) ranges)
    /\ List.length ranges = List.length (select_phases 90)
    /\ 90 - 2 <= sum (List.map span ranges) <= 90 + 2
    /\ snd (List.last ranges (0, 0)) = sum (List.map span ranges).
Proof.
  apply (timeline_total_near_days 90 (PStr "fullstack") (PStr "expert")).
  vm_compute. split; discriminate.
Defined.

Lemma sum_at_least (l : list Z) :
  Forall (fun x => 1 <= x) l -> Z.of_nat (List.length l) <= sum l.
Proof.
  induction 1 as [|x l Hx _ IH]; [simpl; lia|].
  cbn [List.length sum fold_right]. unfold sum in IH. lia.
Qed.

(** X4. Whenever the timeline is returned, each of its phases lasts one
    day at least, there are three phases for a day-count up to three and
    four beyond, and the phases cover no fewer days than there are
    phases.  It is returned for every day-count from -10^14 to 10^14, and
    a day-count of zero or less in that range gives three phases of one
    day: the ranges 1-1, 2-2, 3-3. *)
Theorem timeline_phases_nonempty (d : Z) (project_type difficulty : value) :
  (forall text,
     generate_timeline_phases d project_type difficulty = Ok text ->
     exists ranges,
       text = spec_timeline_text (select_phases d) ranges
       /\ Forall (fun range => 1 <= span range) ranges
       /\ List.length ranges = (if d <=? 3 then 3%nat else 4%nat)
       /\ Z.of_nat (List.length ranges) <= sum (List.map span ranges))
  /\ (- exact_days <= d <= exact_days ->
      exists text,
        generate_timeline_phases d project_type difficulty = Ok text)
  /\ (- exact_days <= d <= 0 ->
      generate_timeline_phases d project_type difficulty
      = Ok (spec_timeline_text (select_phases d) [(1, 1); (2, 2); (3, 3)])).
Proof.
  split; [|split].
  - intros text H. rewrite timeline_of_ranges in H.
    destruct (day_ranges d 1 (select_phases d)) as [ranges|e] eqn:E;
      cbn [bind] in H; [|discriminate].
    inversion H; subst text. exists ranges.
    destruct (day_ranges_layout _ _ _ _ E) as [_ [Hpos Hlen]].
    split; [reflexivity|]. split; [exact Hpos|]. split.
    + rewrite Hlen. unfold select_phases.
      destruct (d <=? 3); [reflexivity|].
      destruct (d <=? 7); [reflexivity|]. destruct (d <=? 14); reflexivity.
    + rewrite <- (length_map span ranges). apply sum_at_least.
      now apply Forall_map.
  - intros Hd. rewrite timeline_of_ranges, day_ranges_spec by lia.
    cbn [bind]. eauto.
  - intros Hd. rewrite timeline_of_ranges, day_ranges_spec by lia.
    cbn [bind]. do 2 f_equal.
    unfold spec_spans, spec_percentages.
    destruct (Z.leb_spec d 3); [|lia].
    assert (Hone : forall pct, 0 <= pct -> spec_phase_days d pct = 1).
    { intros pct Hp. unfold spec_phase_days.
      pose proof (round_div_near (d * pct)). nia. }
    cbn [List.map]. rewrite !Hone by lia. reflexivity.
Qed.

Lemma timeline_phases_nonempty_witness :
  generate_timeline_phases (-5) (PStr "backend") (PStr "beginner")
  = Ok (spec_timeline_text (select_phases (-5)) [(1, 1); (2, 2); (3, 3)]).
Proof.
  apply (proj2 (proj2 (timeline_phases_nonempty (-5) (PStr "backend")
                         (PStr "beginner")))).
  vm_compute. split; discriminate.
Defined.

(** ** Renderers *)

Lemma iter_raises (v : value) :
  truthy v = true ->
  (iter v = Raise TypeError <-> truthy_scalar v = true)
  /\ (truthy_scalar v = false -> exists items, iter v = Ok items).
Proof.
  destruct v as [| [|] | z | s | l | d]; simpl; intros H;
    try discriminate; (split; [split|]); try discriminate; eauto;
    try (intros _; assumption); try reflexivity.
  intros E. rewrite H in E. discriminate.
Qed.

(** X5. [format_tech_list] and [format_features_list] give their
    placeholder line for every falsy value (None, False, 0, the empty
    string, list or dict), one line per element for a list, one line per
    character for a string given in place of a list, one line per key for
    a dict, and raise a TypeError for True and for every integer other
    than 0: the lines "- " and the element for a technology, "- ", the
    check mark U+2705, a space and the element for a feature. *)
Theorem format_lists_by_type (v : value) :
  (truthy v = false ->
     format_tech_list v = Ok "- *No specific technologies selected*"
     /\ format_features_list v
        = Ok (codes "- *No specific features selected*"))
  /\ (forall items,
        truthy v = true ->
        v = PList items
        \/ (exists s, v = PStr s /\ items = characters s)
        \/ (exists d, v = PDict d
                      /\ items = List.map (fun kv => PStr (fst kv)) d) ->
        format_tech_list v
        = Ok (join nl (List.map (fun tech => "- " +++ str tech) items))
        /\ format_features_list v
           = Ok (ujoin (codes nl)
                   (List.map
                      (fun feature => codes "- " ++ [9989%N] ++ codes " "
                                        ++ codes (str feature))
                      items)))
  /\ (v = PBool true \/ (exists z, v = PInt z /\ z <> 0) ->
      format_tech_list v = Raise TypeError
      /\ format_features_list v = Raise TypeError).
Proof.
  split; [|split].
  - intros H. unfold format_tech_list, format_features_list. now rewrite H.
  - intros items Ht H. unfold format_tech_list, format_features_list.
    rewrite Ht. cbn [negb].
    destruct H as [->|[[s [-> ->]]|[d [-> ->]]]]; split; reflexivity.
  - intros [->|[z [-> Hz]]]; unfold format_tech_list, format_features_list;
      cbn [truthy negb iter bind]; [split; reflexivity|].
    destruct (Z.eqb_spec z 0); [contradiction|]. split; reflexivity.
Qed.

Lemma format_lists_by_type_witness :
  format_tech_list (PStr "Go")
  = Ok ("- G" +++ nl +++ "- o")
  /\ format_features_list (PStr "Go")
     = Ok (codes "- " ++ [9989%N] ++ codes " G" ++ codes nl
           ++ codes "- " ++ [9989%N] ++ codes " o").
Proof.
  apply (proj1 (proj2 (format_lists_by_type (PStr "Go")))
           [PStr "G"; PStr "o"] eq_refl).
  right. left. exists "Go". split; reflexivity.
Defined.

Lemma starts_with_app2 (a b r : ustr) :
  starts_with N.eqb (a ++ b) (a ++ b ++ r) = true.
Proof. rewrite app_assoc. apply starts_with_app. Qed.

Lemma structures_start (repo_name : value) :
  starts_with N.eqb (root_line repo_name ++ codes nl)
    (structure_fullstack repo_name) = true
  /\ starts_with N.eqb (root_line repo_name ++ codes nl)
       (structure_frontend repo_name) = true
  /\ starts_with N.eqb (root_line repo_name ++ codes nl)
       (structure_backend repo_name) = true.
Proof.
  unfold structure_fullstack, structure_frontend, structure_backend.
  cbn [ujoin]. repeat split; apply starts_with_app2.
Qed.

(** X6. The structure renderer answers with the frontend diagram for the
    string 'frontend', the backend diagram for 'backend' and the fullstack
    diagram for every other value that can be a dictionary key (any other
    string, None, a boolean, an integer); it raises a TypeError exactly
    when the project type is a list or a dict.  Every diagram starts with
    the line of the folder sign U+1F4C1, a space, the repository name and
    a slash. *)
Theorem file_structure_by_type (project_type repo_name : value) :
  (generate_file_structure project_type repo_name = Raise TypeError
   <-> is_list project_type = true
       \/ (exists d, project_type = PDict d))
  /\ (project_type = PStr "frontend" ->
      generate_file_structure project_type repo_name
      = Ok (structure_frontend repo_name))
  /\ (project_type = PStr "backend" ->
      generate_file_structure project_type repo_name
      = Ok (structure_backend repo_name))
  /\ (is_list project_type = false ->
      (forall d, project_type <> PDict d) ->
      project_type <> PStr "frontend" ->
      project_type <> PStr "backend" ->
      generate_file_structure project_type repo_name
      = Ok (structure_fullstack repo_name))
  /\ (forall text,
        generate_file_structure project_type repo_name = Ok text ->
        starts_with N.eqb
          ([128193%N] ++ codes " " ++ codes (str repo_name) ++ codes "/"
           ++ codes nl) text = true).
Proof.
  split; [|split; [|split; [|split]]].
  - destruct project_type as [| b | z | s | l | d]; simpl;
      try (split; [discriminate | intros [H|[d' H]]; discriminate]).
    + unfold generate_file_structure. cbn [hashable bind].
      split; [|intros [H|[d' H]]; discriminate].
      repeat match goal with
             | |- context [if ?b then _ else _] => destruct b
             end; discriminate.
    + split; auto.
    + split; eauto.
  - intros ->. reflexivity.
  - intros ->. reflexivity.
  - intros Hl Hd Hf Hb. unfold generate_file_structure.
    destruct project_type as [| b | z | s | l | d];
      cbn [hashable bind eq_str]; try reflexivity; try discriminate.
    + destruct (String.eqb_spec s "fullstack"); [reflexivity|].
      destruct (String.eqb_spec s "frontend"); [congruence|].
      destruct (String.eqb_spec s "backend"); [congruence|]. reflexivity.
    + now contradiction (Hd d).
  - intros text H. unfold generate_file_structure in H.
    destruct (structures_start repo_name) as [Sfull [Sfront Sback]].
    change ([128193%N] ++ codes " " ++ codes (str repo_name) ++ codes "/"
            ++ codes nl)
      with (folder ++ codes " " ++ codes (str repo_name) ++ codes "/"
            ++ codes nl).
    replace (folder ++ codes " " ++ codes (str repo_name) ++ codes "/"
             ++ codes nl)
      with (root_line repo_name ++ codes nl)
      by (unfold root_line; now rewrite <- !app_assoc).
    destruct project_type as [| b | z | s | l | d];
      cbn [hashable bind eq_str] in H; try discriminate;
      try (inversion H; subst text; exact Sfull).
    destruct (String.eqb s "fullstack");
      [inversion H; subst text; exact Sfull|].
    destruct (String.eqb s "frontend");
      [inversion H; subst text; exact Sfront|].
    destruct (String.eqb s "backend"); inversion H; subst text;
      [exact Sback | exact Sfull].
Qed.

Lemma file_structure_by_type_witness :
  generate_file_structure (PInt 3) (PStr "shop")
  = Ok (structure_fullstack (PStr "shop"))
  /\ contains (codes "backend/") (structure_fullstack (PStr "shop")) = true
  /\ contains (codes "backend/") (structure_frontend (PStr "shop")) = false
  /\ contains (codes "frontend/") (structure_backend (PStr "shop")) = false.
Proof.
  split; [|repeat split; vm_compute; reflexivity].
  apply (proj1 (proj2 (proj2 (proj2 (file_structure_by_type (PInt 3)
                                       (PStr "shop")))))).
  - reflexivity.
  - discriminate.
  - discriminate.
  - discriminate.
Defined.

Lemma truthy_scalar_truthy (v : value) :
  truthy_scalar v = true ->
  truthy v = true /\ forall name, contains_str name v = Raise TypeError.
Proof.
  destruct v as [| [|] | z | | |]; simpl; try discriminate; auto.
Qed.

(** X7. The getting-started renderer raises an AttributeError when the tech
    stack is not a mapping.  On a mapping it gives the clone step and the
    closing steps alone whenever the project type is none of 'fullstack',
    'frontend' and 'backend', whatever the mapping holds; and it raises a
    TypeError when the type is fullstack or frontend and the frontend
    entry is True or an integer other than 0. *)
Theorem getting_started_edges
    (tech_stack project_type github_username repo_name : value) :
  ((forall d, tech_stack <> PDict d) ->
   generate_getting_started tech_stack project_type github_username repo_name
   = Raise AttributeError)
  /\ (forall d,
        tech_stack = PDict d ->
        in_strs project_type ["fullstack"; "frontend"; "backend"] = false ->
        generate_getting_started tech_stack project_type github_username
          repo_name
        = Ok (clone_step github_username repo_name +++ trailing_steps))
  /\ (forall d v,
        tech_stack = PDict d ->
        dict_get "frontend" d = Some v ->
        truthy_scalar v = true ->
        in_strs project_type ["fullstack"; "frontend"] = true ->
        generate_getting_started tech_stack project_type github_username
          repo_name
        = Raise TypeError).
Proof.
  split; [|split].
  - intros H. destruct tech_stack; try reflexivity.
    exfalso. now apply (H d).
  - intros d -> H. unfold in_strs in H. cbn [existsb] in H.
    rewrite !orb_false_iff in H. destruct H as [H1 [H2 [H3 _]]].
    unfold generate_getting_started, in_strs. cbn [value_get bind existsb].
    rewrite H1, H2, H3. reflexivity.
  - intros d v -> Hget Hv Hty.
    destruct (truthy_scalar_truthy v Hv) as [Ht Hc].
    assert (E : get_default "frontend" (PList []) d = v)
      by (unfold get_default; now rewrite Hget).
    unfold generate_getting_started. cbn [value_get bind].
    rewrite E, Hty, Ht. cbn [andb]. rewrite Hc. reflexivity.
Qed.

Lemma getting_started_edges_witness :
  generate_getting_started (PDict [("frontend", PInt 3)]) (PStr "mobile")
    (PStr "yourusername") (PStr "my-project")
  = Ok (clone_step (PStr "yourusername") (PStr "my-project") +++ trailing_steps)
  /\ generate_getting_started (PDict [("frontend", PInt 3)]) (PStr "frontend")
       (PStr "yourusername") (PStr "my-project")
     = Raise TypeError.
Proof.
  split.
  - exact (proj1 (proj2 (getting_started_edges (PDict [("frontend", PInt 3)])
                           (PStr "mobile") (PStr "yourusername")
                           (PStr "my-project")))
             _ eq_refl eq_refl).
  - exact (proj2 (proj2 (getting_started_edges (PDict [("frontend", PInt 3)])
                           (PStr "frontend") (PStr "yourusername")
                           (PStr "my-project")))
             _ _ eq_refl eq_refl eq_refl eq_refl).
Defined.

(** ** Plan assembler *)

Ltac invert_binds H :=
  repeat (let a := fresh "a" in
          let E := fresh "E" in
          apply bind_ok in H; destruct H as [a [E H]]).

Ltac split_suffix :=
  lazymatch goal with
  | |- exists m, ?F = m ++ ?F => exists []; reflexivity
  | |- exists m, ?x ++ ?R = m ++ ?F =>
      let H := fresh "H" in
      let m' := fresh "m" in
      assert (H : exists m', R = m' ++ F) by split_suffix;
      destruct H as [m' H]; exists (x ++ m'); rewrite <- app_assoc;
      f_equal; exact H
  end.

Lemma plan_is_document (created generated : datetime) (project_data : dict)
    (plan : ustr) :
  generate_project_plan created generated project_data = Ok plan ->
  exists type_text timeline_text difficulty_text frontend_list backend_list
         database_list tools_list features_list platform_text,
    plan
    = plan_document
        (get_or "title" (PStr "Untitled Project") project_data)
        (get_or "description" (PStr "No description provided") project_data)
        type_text timeline_text
        (timeline_days_of (get_default "timeline" (PStr "1week") project_data))
        difficulty_text created frontend_list backend_list database_list
        tools_list features_list platform_text
        (get_default "github_username" (PStr "yourusername") project_data)
        (get_default "repo_name" (PStr "my-project") project_data)
        (get_default "include_readme" (PBool true) project_data)
        (get_default "include_license" (PBool false) project_data)
        (get_default "include_gitignore" (PBool true) project_data)
        (get_default "include_venv" (PBool true) project_data) generated
    /\ get_default "project_type" (PStr "fullstack") project_data
       = PStr type_text
    /\ get_default "timeline" (PStr "1week") project_data = PStr timeline_text
    /\ get_default "difficulty" (PStr "intermediate") project_data
       = PStr difficulty_text
    /\ get_default "deployment_platform" (PStr "github") project_data
       = PStr platform_text
    /\ is_dict (get_default "tech_stack" (PDict []) project_data) = true.
Proof.
  intros H. unfold generate_project_plan in H. cbv zeta in H.
  invert_binds H. inversion H; subst plan. clear H.
  repeat match goal with
         | E : as_str ?v = Ok ?s |- _ =>
             assert (v = PStr s)
               by (destruct v; simpl in E; try discriminate; congruence);
             clear E
         end.
  assert (is_dict (get_default "tech_stack" (PDict []) project_data) = true).
  { destruct (get_default "tech_stack" (PDict []) project_data);
      simpl in *; try discriminate; reflexivity. }
  do 9 eexists. repeat split; eassumption.
Qed.

(** X8. A plan that is returned starts with the line of the title, the
    submitted one or 'Untitled Project' when the title is missing or
    empty, and ends with the line of the generation date; a missing or
    empty description is replaced by 'No description provided'. *)
Theorem plan_header_and_footer (created generated : datetime)
    (project_data : dict) (plan : ustr) :
  generate_project_plan created generated project_data = Ok plan ->
  (exists middle,
     plan = plan_header project_data ++ middle ++ plan_footer generated)
  /\ (truthy_get "title" project_data = false ->
      starts_with N.eqb (codes "# Untitled Project" ++ codes nl) plan = true)
  /\ (truthy_get "description" project_data = false ->
      contains (codes "No description provided") plan = true).
Proof.
  intros H.
  destruct (plan_is_document created generated project_data plan H)
    as (ty & tl & df & fe & be & db & to & ft & pf & -> & _).
  split; [|split].
  - unfold plan_document, plan_header, plan_footer.
    assert (Hm : forall h1 h2 h3 (R F : ustr),
               (exists m, R = m ++ F) ->
               exists m, h1 ++ h2 ++ h3 ++ R = (h1 ++ h2 ++ h3) ++ m ++ F).
    { intros h1 h2 h3 R F [m ->]. exists m. now rewrite <- !app_assoc. }
    apply Hm. split_suffix.
  - intros Ht.
    assert (E : get_or "title" (PStr "Untitled Project") project_data
                = PStr "Untitled Project").
    { unfold get_or, truthy_get in *.
      destruct (dict_get "title" project_data); [now rewrite Ht | reflexivity]. }
    rewrite E. unfold plan_document. reflexivity.
  - intros Hd.
    assert (E : get_or "description" (PStr "No description provided")
                  project_data
                = PStr "No description provided").
    { unfold get_or, truthy_get in *.
      destruct (dict_get "description" project_data);
        [now rewrite Hd | reflexivity]. }
    rewrite E. unfold plan_document.
    repeat lazymatch goal with
           | |- contains _ (codes (str (PStr "No description provided")) ++ _)
                = true => fail
           | |- _ => apply contains_app_r
           end.
    apply contains_here.
Qed.

Lemma plan_header_and_footer_witness :
  exists plan,
    generate_project_plan noon noon [("title", PStr "")] = Ok plan
    /\ starts_with N.eqb (codes "# Untitled Project" ++ codes nl) plan = true
    /\ contains (codes "No description provided") plan = true.
Proof.
  destruct (plan_total noon noon [("title", PStr "")] eq_refl) as [plan H].
  exists plan. split; [exact H|].
  destruct (plan_header_and_footer noon noon _ plan H) as [_ [Ht Hd]].
  split; [apply Ht | apply Hd]; reflexivity.
Defined.

(** X9. Whenever a plan is returned, the project type, the timeline, the
    difficulty and the deployment platform (each with its default when the
    key is missing) are strings and the tech stack is a mapping; a tech
    stack of any other type makes plan generation raise an AttributeError
    before anything is formatted. *)
Theorem plan_needs_typed_fields (created generated : datetime)
    (project_data : dict) :
  (forall plan,
     generate_project_plan created generated project_data = Ok plan ->
     is_str (get_default "project_type" (PStr "fullstack") project_data) = true
     /\ is_str (get_default "timeline" (PStr "1week") project_data) = true
     /\ is_str (get_default "difficulty" (PStr "intermediate") project_data)
        = true
     /\ is_str (get_default "deployment_platform" (PStr "github") project_data)
        = true
     /\ is_dict (get_default "tech_stack" (PDict []) project_data) = true)
  /\ (is_dict (get_default "tech_stack" (PDict []) project_data) = false ->
      generate_project_plan created generated project_data
      = Raise AttributeError).
Proof.
  split.
  - intros plan H.
    destruct (plan_is_document created generated project_data plan H)
      as (ty & tl & df & fe & be & db & to & ft & pf & _ & -> & -> & -> & ->
          & Hd).
    repeat split; assumption.
  - intros H. unfold generate_project_plan. cbv zeta.
    destruct (get_default "tech_stack" (PDict []) project_data);
      try discriminate; reflexivity.
Qed.

Lemma plan_needs_typed_fields_witness :
  generate_project_plan noon noon [("tech_stack", PList [PStr "React"])]
  = Raise AttributeError.
Proof.
  exact (proj2 (plan_needs_typed_fields noon noon
                  [("tech_stack", PList [PStr "React"])]) eq_refl).
Defined.

(** ** Persistence store *)

Lemma create_cases (created_at updated_at : datetime) (db : table)
    (body : value) :
  (fst (create_project created_at updated_at db body) = db
   /\ ((exists error, snd (create_project created_at updated_at db body)
                      = BadRequest error
                      /\ exists data, body = PDict data
                                      /\ validate_project_data data
                                         = Ok (false, error))
       \/ exists text e, snd (create_project created_at updated_at db body)
                         = ServerError text e))
  \/ (exists data project,
        body = PDict data
        /\ (exists msg, validate_project_data data = Ok (true, msg))
        /\ fst (create_project created_at updated_at db body) = db ++ [project]
        /\ Project.id project = next_id db
        /\ Project.tech_stack project
           = PStr (dumps (get_default "tech_stack" (PDict []) data))
        /\ Project.features project
           = PStr (dumps (get_default "features" (PList []) data))
        /\ forall error, snd (create_project created_at updated_at db body)
                         <> BadRequest error).
Proof.
  unfold create_project.
  destruct body as [| b | z | s | l | data]; cbn [as_dict fst snd];
    try (left; split; [reflexivity | right; eauto]).
  destruct (validate_project_data data) as [[[|] msg]|e] eqn:V; cbn [fst snd].
  - destruct (subscript data "project_type") as [ty|e]; cbn [bind fst snd];
      [|left; split; [reflexivity | right; eauto]].
    destruct (subscript data "timeline") as [tl|e]; cbn [bind fst snd];
      [|left; split; [reflexivity | right; eauto]].
    destruct (subscript data "difficulty") as [df|e]; cbn [bind fst snd];
      [|left; split; [reflexivity | right; eauto]].
    right. eexists data, _. split; [reflexivity|]. split; [eauto|].
    match goal with
    | |- context [Project.to_dict ?p] => destruct (Project.to_dict p)
    end; cbn [fst snd]; repeat split; discriminate.
  - left. split; [reflexivity|]. left. eauto.
  - left. split; [reflexivity | right; eauto].
Qed.

(** X10. Creating a project never changes or removes a stored project:
    the table after the request is the table before it, followed by one
    new project with the next id or by nothing.  Nothing is added when the
    answer is 400, one project is when the answer is a success, and a body
    that is not a JSON object is answered 500 with the table unchanged. *)
Theorem create_only_appends (created_at updated_at : datetime) (db : table)
    (body : value) :
  (exists added,
     fst (create_project created_at updated_at db body) = db ++ added
     /\ (List.length added <= 1)%nat
     /\ (forall p, In p added -> Project.id p = next_id db)
     /\ (forall error,
           snd (create_project created_at updated_at db body)
           = BadRequest error -> added = [])
     /\ (forall stored,
           snd (create_project created_at updated_at db body)
           = Created stored -> List.length added = 1%nat))
  /\ (is_dict body = false ->
      create_project created_at updated_at db body
      = (db, ServerError "Failed to create project: " AttributeError)).
Proof.
  split.
  - destruct (create_cases created_at updated_at db body)
      as [[Hdb Hresp] | (data & project & -> & _ & Hdb & Hid & _ & _ & Hbad)].
    + exists []. rewrite Hdb, app_nil_r. split; [reflexivity|].
      split; [simpl; lia|]. split; [intros p []|]. split; [reflexivity|].
      intros stored Hs.
      destruct Hresp as [[error [He _]] | [text [e He]]]; congruence.
    + exists [project]. split; [exact Hdb|]. split; [simpl; lia|].
      split; [intros p [<-|[]]; exact Hid|].
      split; [intros error He; now apply Hbad in He | reflexivity].
  - intros H. destruct body; try discriminate; reflexivity.
Qed.

Lemma create_only_appends_witness :
  create_project noon noon [] (PList [PStr "fullstack"])
  = ([], ServerError "Failed to create project: " AttributeError).
Proof.
  exact (proj2 (create_only_appends noon noon [] (PList [PStr "fullstack"]))
           eq_refl).
Defined.

(** X11. A request to create a project leaves every other id as it was:
    retrieving an id other than the next one gives the same answer after
    the request as before it. *)
Theorem create_keeps_other_projects (created_at updated_at : datetime)
    (db : table) (body : value) (project_id : Z) :
  project_id <> next_id db ->
  get_project (fst (create_project created_at updated_at db body)) project_id
  = get_project db project_id.
Proof.
  intros Hid.
  destruct (create_cases created_at updated_at db body)
    as [[Hdb _] | (data & project & _ & _ & Hdb & Hnew & _)];
    rewrite Hdb; [reflexivity|].
  unfold get_project, find_project. rewrite find_app.
  destruct (List.find _ db); [reflexivity|].
  cbn [List.find]. rewrite Hnew.
  destruct (Z.eqb_spec (next_id db) project_id); [congruence | reflexivity].
Qed.

Lemma create_keeps_other_projects_witness :
  get_project
    (fst (create_project noon noon
            (fst (create_project noon noon [] (PDict sample_project_data)))
            (PDict untitled_submission))) 1
  = get_project (fst (create_project noon noon [] (PDict sample_project_data)))
      1.
Proof.
  apply create_keeps_other_projects. vm_compute. discriminate.
Defined.

Lemma wf_dict_get (k : string) (d : dict) (v : value) :
  wf (PDict d) = true -> dict_get k d = Some v -> wf v = true.
Proof.
  cbn [wf]. intros H. apply andb_true_iff in H. destruct H as [_ H].
  induction d as [|[k' x] d IH]; simpl; [discriminate|].
  simpl in H. apply andb_true_iff in H. destruct H as [Hx Hd].
  destruct (String.eqb k k'); [congruence | now apply IH].
Qed.

Lemma wf_get_default (k : string) (default : value) (d : dict) :
  wf (PDict d) = true -> wf default = true ->
  wf (get_default k default d) = true.
Proof.
  intros Hd Hdef. unfold get_default.
  destruct (dict_get k d) eqn:E; [eapply wf_dict_get; eassumption | assumption].
Qed.

Lemma decodable_to_dict (p : Project.t) :
  decodable p -> exists stored, Project.to_dict p = Ok stored.
Proof.
  intros (ts & ft & Ets & Hts & Eft & Hft). unfold Project.to_dict.
  rewrite Ets, Eft, !dumps_truthy, !loads_value_dumps by assumption.
  cbn [bind]. eauto.
Qed.

Lemma reachable_invariant (db : table) :
  reachable db -> ids_in_sequence db /\ Forall decodable db.
Proof.
  induction 1 as [|c u db body Hreach [Hseq Hrows] Hwf].
  - split; [reflexivity | constructor].
  - destruct (create_cases c u db body)
      as [[Hdb _] | (data & project & -> & _ & Hdb & Hid & Hts & Hft & _)];
      rewrite Hdb; [auto|].
    split; [now apply ids_in_sequence_add|].
    apply Forall_app. split; [assumption|]. constructor; [|constructor].
    exists (get_default "tech_stack" (PDict []) data),
           (get_default "features" (PList []) data).
    repeat split; try assumption; now apply wf_get_default.
Qed.

Lemma find_in_sequence (db : table) (project_id : Z) :
  ids_in_sequence db ->
  (exists p, find_project project_id db = Some p /\ In p db)
  <-> 1 <= project_id <= Z.of_nat (List.length db).
Proof.
  intros Hseq. split.
  - intros [p [Hfind Hin]]. apply find_some in Hfind.
    destruct Hfind as [_ Heq]. apply Z.eqb_eq in Heq. subst project_id.
    pose proof (ids_below_next db Hseq p Hin) as Hlt. unfold next_id in Hlt.
    assert (Hmem : In (Project.id p) (List.map Project.id db))
      by (now apply in_map).
    rewrite Hseq in Hmem. apply in_map_iff in Hmem.
    destruct Hmem as [i [Hi _]]. lia.
  - intros Hid.
    assert (Hmem : In project_id (List.map Project.id db)).
    { rewrite Hseq. apply in_map_iff. exists (Z.to_nat (project_id - 1)).
      split; [lia|]. apply in_seq. lia. }
    apply in_map_iff in Hmem. destruct Hmem as [p [Hp Hin]].
    destruct (find_project project_id db) as [q|] eqn:E.
    + exists q. split; [reflexivity|].
      apply find_some in E. tauto.
    + exfalso. unfold find_project in E.
      pose proof (find_none _ _ E p Hin) as Hn. simpl in Hn.
      rewrite Hp, Z.eqb_refl in Hn. discriminate.
Qed.

(** X12. In a table built by requests to create projects, a project is
    found under an id exactly when the id is between 1 and the number of
    stored projects; any other id is answered 404.  No stored project
    fails to decode. *)
Theorem reachable_projects_found (db : table) (project_id : Z) :
  reachable db ->
  ((exists stored, get_project db project_id = Found stored)
   <-> 1 <= project_id <= Z.of_nat (List.length db))
  /\ (~ 1 <= project_id <= Z.of_nat (List.length db) ->
      get_project db project_id = NotFound).
Proof.
  intros Hreach. destruct (reachable_invariant db Hreach) as [Hseq Hrows].
  pose proof (find_in_sequence db project_id Hseq) as Hfind.
  unfold get_project. split; [split|].
  - intros [stored H].
    destruct (find_project project_id db) as [p|] eqn:E; [|discriminate].
    apply Hfind. exists p. split; [reflexivity|].
    unfold find_project in E. apply find_some in E. tauto.
  - intros Hid. apply Hfind in Hid. destruct Hid as [p [-> Hin]].
    destruct (decodable_to_dict p) as [stored ->]; [|eauto].
    exact (proj1 (Forall_forall _ _) Hrows p Hin).
  - intros Hid. destruct (find_project project_id db) as [p|] eqn:E;
      [|reflexivity].
    exfalso. apply Hid, Hfind. exists p. split; [reflexivity|].
    unfold find_project in E. apply find_some in E. tauto.
Qed.

Lemma reachable_projects_found_witness :
  (exists stored,
     get_project (fst (create_project noon noon [] (PDict sample_project_data)))
       1 = Found stored)
  /\ get_project (fst (create_project noon noon [] (PDict sample_project_data)))
       2 = NotFound.
Proof.
  assert (Hreach : reachable
            (fst (create_project noon noon [] (PDict sample_project_data))))
    by (apply reach_create; [apply reach_empty | reflexivity]).
  split.
  - apply (proj1 (reachable_projects_found _ 1 Hreach)). vm_compute.
    split; discriminate.
  - apply (proj2 (reachable_projects_found _ 2 Hreach)). vm_compute.
    intros [_ H]. now apply H.
Defined.

(** ** File materializer *)

Lemma any_in_selected (names : list string) (l : list value) :
  any_in names (PList l) = Ok (any_selected names l).
Proof.
  unfold any_selected. induction names as [|name rest IH]; [reflexivity|].
  cbn [any_in contains_str existsb]. unfold selected at 1.
  destruct (existsb (fun x => eq_str x name) l); [reflexivity | exact IH].
Qed.



(** X14. For a project whose backend technologies are a list, the backend
    files are requirements.txt exactly when Python, Flask, Django or
    FastAPI is selected and package.json exactly when Node.js or Express
    is; a stack with both gets both files, a stack with neither gets
    none. *)
Theorem backend_files_by_stack (project_data tech_stack : dict)
    (techs : list value) (dir : list string) :
  get_default "tech_stack" (PDict []) project_data = PDict tech_stack ->
  get_default "backend" (PList []) tech_stack = PList techs ->
  generate_backend_files project_data dir = Ok (spec_backend_files techs dir)
  /\ (In (File (dir ++ ["requirements.txt"]) Requirements)
        (spec_backend_files techs dir)
      <-> In (PStr "Python") techs \/ In (PStr "Flask") techs
          \/ In (PStr "Django") techs \/ In (PStr "FastAPI") techs)
  /\ (In (File (dir ++ ["package.json"]) (JsonDocument backend_package))
        (spec_backend_files techs dir)
      <-> In (PStr "Node.js") techs \/ In (PStr "Express") techs).
Proof.
  intros Ets Ebe. split; [|split].
  - unfold generate_backend_files, spec_backend_files.
    rewrite Ets. cbn [value_get bind]. rewrite Ebe, !any_in_selected.
    reflexivity.
  - transitivity
      (any_selected ["Python"; "Flask"; "Django"; "FastAPI"] techs = true).
    + unfold spec_backend_files.
      destruct (any_selected ["Python"; "Flask"; "Django"; "FastAPI"] techs),
        (any_selected ["Node.js"; "Express"] techs); cbn [app In];
        split; intros H; try tauto; try discriminate;
        repeat (destruct H as [H|H]; try discriminate; try contradiction).
    + unfold any_selected. cbn [existsb].
      rewrite !orb_true_iff, !selected_iff. intuition discriminate.
  - transitivity (any_selected ["Node.js"; "Express"] techs = true).
    + unfold spec_backend_files.
      destruct (any_selected ["Python"; "Flask"; "Django"; "FastAPI"] techs),
        (any_selected ["Node.js"; "Express"] techs); cbn [app In];
        split; intros H; try tauto; try discriminate;
        repeat (destruct H as [H|H]; try discriminate; try contradiction).
    + unfold any_selected. cbn [existsb].
      rewrite !orb_true_iff, !selected_iff. intuition discriminate.
Qed.

Lemma backend_files_by_stack_witness :
  generate_backend_files
    [("tech_stack", PDict [("backend", PList [PStr "Django"; PStr "Express"])])]
    []
  = Ok [File ["requirements.txt"] Requirements;
        File ["package.json"] (JsonDocument backend_package)].
Proof.
  exact (proj1 (backend_files_by_stack
                  [("tech_stack",
                    PDict [("backend", PList [PStr "Django"; PStr "Express"])])]
                  [("backend", PList [PStr "Django"; PStr "Express"])]
                  [PStr "Django"; PStr "Express"] [] eq_refl eq_refl)).
Defined.

Lemma frontend_paths (project_data : dict) (dir : list string)
    (files : list entry) :
  generate_frontend_files project_data dir = Ok files ->
  forall path held, In (File path held) files ->
    exists name, path = dir ++ [name] /\ In name stack_names.
Proof.
  intros H path held Hin. unfold generate_frontend_files in H.
  invert_binds H. inversion H; subst files. clear H.
  apply in_app_iff in Hin. destruct Hin as [Hin|Hin].
  - destruct a0; [|inversion E1; subst; contradiction].
    apply bind_ok in E1. destruct E1 as [r [_ E1]].
    inversion E1; subst. destruct Hin as [Hin|[]]. inversion Hin; subst.
    exists "package.json". simpl. auto.
  - destruct Hin as [Hin|[Hin|[]]]; inversion Hin; subst.
    exists "index.html". simpl. auto.
Qed.

Lemma backend_paths (project_data : dict) (dir : list string)
    (files : list entry) :
  generate_backend_files project_data dir = Ok files ->
  forall path held, In (File path held) files ->
    exists name, path = dir ++ [name] /\ In name stack_names.
Proof.
  intros H path held Hin. unfold generate_backend_files in H.
  invert_binds H. inversion H; subst files. clear H.
  apply in_app_iff in Hin. destruct Hin as [Hin|Hin].
  - destruct a0; [|contradiction]. destruct Hin as [Hin|[]].
    inversion Hin; subst. exists "requirements.txt". simpl. auto.
  - destruct a1; [|contradiction]. destruct Hin as [Hin|[]].
    inversion Hin; subst. exists "package.json". simpl. auto.
Qed.

(** The files the stack decides, with the directory each lies in. *)
Lemma project_files_split (project_data : dict) (plan : ustr)
    (files : list entry) :
  generate_project_files project_data plan = Ok files ->
  exists stack,
    files = stack ++ generate_common_files project_data plan
    /\ (in_strs (get_default "project_type" PNone project_data)
          ["fullstack"; "frontend"; "backend"] = false -> stack = [])
    /\ (eq_str (get_default "project_type" PNone project_data) "fullstack"
        = true ->
        (forall dir, In dir ["frontend"; "backend"; "database"] ->
                     In (Directory [dir]) stack)
        /\ forall path held, In (File path held) stack ->
             exists dir name,
               path = [dir; name] /\ In dir ["frontend"; "backend"]
               /\ In name stack_names)
    /\ (eq_str (get_default "project_type" PNone project_data) "fullstack"
        = false ->
        forall path held, In (File path held) stack ->
          exists name, path = [name] /\ In name stack_names).
Proof.
  intros H. unfold generate_project_files in H.
  apply bind_ok in H. destruct H as [repo_name [_ H]]. cbv zeta in H.
  apply bind_ok in H. destruct H as [stack [Hstack H]].
  inversion H; subst files. clear H. exists stack.
  split; [reflexivity|].
  unfold in_strs. cbn [existsb].
  destruct (eq_str (get_default "project_type" PNone project_data) "fullstack")
    eqn:Efull.
  - apply bind_ok in Hstack. destruct Hstack as [fe [Hfe Hstack]].
    apply bind_ok in Hstack. destruct Hstack as [be [Hbe Hstack]].
    inversion Hstack; subst stack. clear Hstack.
    split; [discriminate|]. split; [|discriminate]. intros _. split.
    + intros dir Hdir. simpl in Hdir.
      repeat (destruct Hdir as [<-|Hdir]; [simpl; tauto|]). contradiction.
    + intros path held Hin. cbn [app In] in Hin.
      destruct Hin as [Hin|[Hin|[Hin|Hin]]]; try discriminate.
      apply in_app_iff in Hin. destruct Hin as [Hin|Hin].
      * destruct (frontend_paths _ _ _ Hfe _ _ Hin) as [name [-> Hname]].
        exists "frontend", name. simpl. auto.
      * destruct (backend_paths _ _ _ Hbe _ _ Hin) as [name [-> Hname]].
        exists "backend", name. simpl. auto.
  - destruct (eq_str (get_default "project_type" PNone project_data) "frontend").
    + split; [discriminate|]. split; [discriminate|]. intros _ path held Hin.
      exact (frontend_paths _ _ _ Hstack _ _ Hin).
    + destruct (eq_str (get_default "project_type" PNone project_data)
                  "backend").
      * split; [discriminate|]. split; [discriminate|]. intros _ path held Hin.
        exact (backend_paths _ _ _ Hstack _ _ Hin).
      * inversion Hstack; subst stack.
        split; [reflexivity|]. split; [discriminate|].
        intros _ path held [].
Qed.

Lemma stack_file_not_common (stack : list entry) (name : string)
    (held : content) :
  (forall path c, In (File path c) stack ->
     exists dir n, path = dir ++ [n] /\ In n stack_names) ->
  In name common_names ->
  ~ In (File [name] held) stack.
Proof.
  intros Hstack Hname Hin.
  destruct (Hstack _ _ Hin) as [dir [n [E Hn]]].
  change [name] with ([] ++ [name]) in E. apply app_inj_tail in E.
  destruct E as [_ ->]. simpl in Hname, Hn.
  repeat (destruct Hname as [<-|Hname];
          [repeat (destruct Hn as [Hn|Hn]; [discriminate|]); contradiction|]).
  contradiction.
Qed.

Lemma stack_paths_general (project_data : dict) (plan : ustr)
    (files stack : list entry) :
  (eq_str (get_default "project_type" PNone project_data) "fullstack" = true ->
   forall path held, In (File path held) stack ->
     exists dir name,
       path = [dir; name] /\ In dir ["frontend"; "backend"]
       /\ In name stack_names) ->
  (eq_str (get_default "project_type" PNone project_data) "fullstack" = false ->
   forall path held, In (File path held) stack ->
     exists name, path = [name] /\ In name stack_names) ->
  forall path c, In (File path c) stack ->
    exists dir n, path = dir ++ [n] /\ In n stack_names.
Proof.
  intros Hfull Hone path c Hin.
  destruct (eq_str (get_default "project_type" PNone project_data) "fullstack").
  - destruct (Hfull eq_refl _ _ Hin) as [dir [name [-> [_ Hn]]]].
    exists [dir], name. auto.
  - destruct (Hone eq_refl _ _ Hin) as [name [-> Hn]].
    exists [], name. auto.
Qed.

(** X15. Among the files of a project, .env.example is always written;
    README.md is written exactly when include_readme is truthy (it is by
    default) and then holds the plan; LICENSE exactly when include_license
    is truthy (it is not by default); .gitignore exactly when
    include_gitignore is truthy (it is by default). *)
Theorem common_files_by_flags (project_data : dict) (plan : ustr)
    (files : list entry) :
  generate_project_files project_data plan = Ok files ->
  In (File [".env.example"] EnvExample) files
  /\ (forall held,
        In (File ["README.md"] held) files
        <-> truthy (get_default "include_readme" (PBool true) project_data)
            = true /\ held = PlanText plan)
  /\ (forall held,
        In (File ["LICENSE"] held) files
        <-> truthy (get_default "include_license" (PBool false) project_data)
            = true /\ held = MitLicense)
  /\ (forall held,
        In (File [".gitignore"] held) files
        <-> truthy (get_default "include_gitignore" (PBool true) project_data)
            = true /\ held = Gitignore).
Proof.
  intros H.
  destruct (project_files_split project_data plan files H)
    as (stack & -> & _ & Hfull & Hone).
  pose proof (stack_paths_general project_data plan
                (stack ++ generate_common_files project_data plan) stack
                (fun E => proj2 (Hfull E)) Hone) as Hpaths.
  assert (Hno : forall name held, In name common_names ->
                                  ~ In (File [name] held) stack)
    by (intros name held Hn; now apply stack_file_not_common).
  unfold generate_common_files.
  split; [|split; [|split]].
  - apply in_app_iff. right. rewrite !in_app_iff. simpl. tauto.
  - intros held. rewrite !in_app_iff. split.
    + intros [Hs|[Hr|[Hg|[Hl|He]]]].
      * exfalso. apply (Hno "README.md" held); simpl; auto.
      * destruct (truthy (get_default "include_readme" _ _));
          [|contradiction]. destruct Hr as [Hr|[]]. inversion Hr. auto.
      * destruct (truthy (get_default "include_gitignore" _ _));
          [|contradiction]. destruct Hg as [Hg|[]]. discriminate.
      * destruct (truthy (get_default "include_license" _ _));
          [|contradiction]. destruct Hl as [Hl|[]]. discriminate.
      * destruct He as [He|[]]. discriminate.
    + intros [-> ->]. right. left. simpl. auto.
  - intros held. rewrite !in_app_iff. split.
    + intros [Hs|[Hr|[Hg|[Hl|He]]]].
      * exfalso. apply (Hno "LICENSE" held); simpl; auto.
      * destruct (truthy (get_default "include_readme" _ _));
          [|contradiction]. destruct Hr as [Hr|[]]. discriminate.
      * destruct (truthy (get_default "include_gitignore" _ _));
          [|contradiction]. destruct Hg as [Hg|[]]. discriminate.
      * destruct (truthy (get_default "include_license" _ _));
          [|contradiction]. destruct Hl as [Hl|[]]. inversion Hl. auto.
      * destruct He as [He|[]]. discriminate.
    + intros [-> ->]. right. right. right. left. simpl. auto.
  - intros held. rewrite !in_app_iff. split.
    + intros [Hs|[Hr|[Hg|[Hl|He]]]].
      * exfalso. apply (Hno ".gitignore" held); simpl; auto.
      * destruct (truthy (get_default "include_readme" _ _));
          [|contradiction]. destruct Hr as [Hr|[]]. discriminate.
      * destruct (truthy (get_default "include_gitignore" _ _));
          [|contradiction]. destruct Hg as [Hg|[]]. inversion Hg. auto.
      * destruct (truthy (get_default "include_license" _ _));
          [|contradiction]. destruct Hl as [Hl|[]]. discriminate.
      * destruct He as [He|[]]. discriminate.
    + intros [-> ->]. right. right. left. simpl. auto.
Qed.

Lemma common_files_by_flags_witness :
  exists files,
    generate_project_files sample_project_data (codes "plan") = Ok files
    /\ In (File ["README.md"] (PlanText (codes "plan"))) files
    /\ ~ In (File ["LICENSE"] MitLicense) files.
Proof.
  destruct (generate_project_files sample_project_data (codes "plan"))
    as [files|e] eqn:H; [|vm_compute in H; discriminate].
  exists files. split; [reflexivity|].
  destruct (common_files_by_flags sample_project_data (codes "plan") files H)
    as [_ [Hreadme [Hlicense _]]].
  split.
  - apply Hreadme. split; reflexivity.
  - intros Hin. apply Hlicense in Hin. destruct Hin as [Hin _]. discriminate.
Defined.

(** X16. A project whose type is none of 'fullstack', 'frontend' and
    'backend' (or is missing) gets the common files only.  A fullstack
    project gets the directories frontend, backend and database, and each
    of its stack files lies in frontend or in backend; a frontend or a
    backend project gets its stack files in the project directory
    itself. *)
Theorem project_files_by_type (project_data : dict) (plan : ustr)
    (files : list entry) :
  generate_project_files project_data plan = Ok files ->
  (in_strs (get_default "project_type" PNone project_data)
     ["fullstack"; "frontend"; "backend"] = false ->
   files = generate_common_files project_data plan)
  /\ (eq_str (get_default "project_type" PNone project_data) "fullstack"
      = true ->
      (forall dir, In dir ["frontend"; "backend"; "database"] ->
                   In (Directory [dir]) files)
      /\ forall path held, In (File path held) files ->
           (exists dir name,
              path = [dir; name] /\ In dir ["frontend"; "backend"]
              /\ In name stack_names)
           \/ (exists name, path = [name] /\ In name common_names))
  /\ (eq_str (get_default "project_type" PNone project_data) "fullstack"
      = false ->
      forall path held, In (File path held) files ->
        exists name, path = [name] /\ In name (stack_names ++ common_names)).
Proof.
  intros H.
  destruct (project_files_split project_data plan files H)
    as (stack & -> & Hnone & Hfull & Hone).
  assert (Hcommon : forall path held,
             In (File path held) (generate_common_files project_data plan) ->
             exists name, path = [name] /\ In name common_names).
  { intros path held Hin. unfold generate_common_files in Hin.
    rewrite !in_app_iff in Hin.
    destruct Hin as [Hr|[Hg|[Hl|He]]].
    - destruct (truthy _); [|contradiction]. destruct Hr as [Hr|[]].
      inversion Hr. exists "README.md". simpl. tauto.
    - destruct (truthy _); [|contradiction]. destruct Hg as [Hg|[]].
      inversion Hg. exists ".gitignore". simpl. tauto.
    - destruct (truthy _); [|contradiction]. destruct Hl as [Hl|[]].
      inversion Hl. exists "LICENSE". simpl. tauto.
    - destruct He as [He|[]]. inversion He. exists ".env.example".
      simpl. tauto. }
  split; [|split].
  - intros E. now rewrite (Hnone E).
  - intros E. destruct (Hfull E) as [Hdirs Hfiles]. split.
    + intros dir Hdir. apply in_app_iff. left. now apply Hdirs.
    + intros path held Hin. apply in_app_iff in Hin.
      destruct Hin as [Hin|Hin]; [left; eauto | right; eauto].
  - intros E path held Hin. apply in_app_iff in Hin. destruct Hin as [Hin|Hin].
    + destruct (Hone E _ _ Hin) as [name [-> Hn]]. exists name.
      split; [reflexivity|]. apply in_app_iff. now left.
    + destruct (Hcommon _ _ Hin) as [name [-> Hn]]. exists name.
      split; [reflexivity|]. apply in_app_iff. now right.
Qed.

Lemma project_files_by_type_witness :
  exists files,
    generate_project_files [("project_type", PStr "mobile")] (codes "plan")
    = Ok files
    /\ files
       = generate_common_files [("project_type", PStr "mobile")] (codes "plan").
Proof.
  destruct (generate_project_files [("project_type", PStr "mobile")]
              (codes "plan")) as [files|e] eqn:H;
    [|vm_compute in H; discriminate].
  exists files. split; [reflexivity|].
  exact (proj1 (project_files_by_type [("project_type", PStr "mobile")]
                  (codes "plan") files H) eq_refl).
Defined.

(** ** Download handler *)

(** X17. The download handler answers with the archive only on a body for
    which the generate handler answers with a plan; and both handlers
    answer 500 for an AttributeError when the body is not a JSON object or
    when its project entry is not one. *)
Theorem download_needs_plan (created generated : datetime) (body : value) :
  (forall download_name mimetype,
     download_project created generated body
     = Attachment download_name mimetype ->
     exists plan, generate_project created generated body = PlanOk plan)
  /\ (is_dict body = false
      \/ (exists d v, body = PDict d /\ dict_get "project" d = Some v
                      /\ is_dict v = false) ->
      download_project created generated body
      = ServerError "Failed to generate project files: " AttributeError
      /\ generate_project created generated body
         = ServerError "Failed to generate project plan: " AttributeError).
Proof.
  split.
  - intros download_name mimetype H.
    unfold download_project in H. unfold generate_project.
    destruct (value_get body "project" (PDict [])) as [project|e];
      cbn [bind] in *; [|discriminate].
    destruct (as_dict project) as [project_data|e]; cbn [bind] in *;
      [|discriminate].
    destruct (generate_project_plan created generated project_data)
      as [plan|e]; cbn [bind] in *; [eauto | discriminate].
  - intros [H | (d & v & -> & Hget & Hv)].
    + destruct body; try discriminate; split; reflexivity.
    + unfold download_project, generate_project. cbn [value_get bind].
      unfold get_default. rewrite Hget.
      destruct v; try discriminate; split; reflexivity.
Qed.

Lemma download_needs_plan_witness :
  download_project noon noon (PDict [("project", PStr "fullstack")])
  = ServerError "Failed to generate project files: " AttributeError
  /\ generate_project noon noon (PDict [("project", PStr "fullstack")])
     = ServerError "Failed to generate project plan: " AttributeError.
Proof.
  apply (proj2 (download_needs_plan noon noon
                  (PDict [("project", PStr "fullstack")]))).
  right. exists [("project", PStr "fullstack")], (PStr "fullstack").
  repeat split.
Defined.

(** X18. A repository name that is not a string does not stop the plan,
    which prints it, but it stops the download: when plan generation
    returns a plan for such a configuration, the generate handler answers
    with that plan and the download handler answers 500 for an
    AttributeError. *)
Theorem download_needs_string_name (created generated : datetime)
    (project_data : dict) (plan : ustr) :
  generate_project_plan created generated project_data = Ok plan ->
  is_str (submitted_repo_name project_data) = false ->
  generate_project created generated (PDict [("project", PDict project_data)])
  = PlanOk plan
  /\ download_project created generated
       (PDict [("project", PDict project_data)])
     = ServerError "Failed to generate project files: " AttributeError.
Proof.
  intros Hplan Hname. split.
  - unfold generate_project. cbn [value_get get_default dict_get String.eqb
      Ascii.eqb Bool.eqb as_dict bind]. now rewrite Hplan.
  - unfold download_project. cbn [value_get get_default dict_get String.eqb
      Ascii.eqb Bool.eqb as_dict bind]. rewrite Hplan. cbn [bind].
    unfold sanitized_repo_name. unfold submitted_repo_name in Hname.
    destruct (get_default "repo_name" (PStr "my-project") project_data);
      try discriminate; reflexivity.
Qed.

Lemma download_needs_string_name_witness :
  exists plan,
    generate_project noon noon (PDict [("project", PDict [("repo_name", PInt 7)])])
    = PlanOk plan
    /\ download_project noon noon
         (PDict [("project", PDict [("repo_name", PInt 7)])])
       = ServerError "Failed to generate project files: " AttributeError.
Proof.
  destruct (plan_total noon noon [("repo_name", PInt 7)] eq_refl) as [plan H].
  exists plan.
  exact (download_needs_string_name noon noon [("repo_name", PInt 7)] plan H
           eq_refl).
Defined.

(** ** Repository name *)

Lemma kept_sanitize_char_fixed (c : N) :
  kept (sanitize_char c) = true ->
  sanitize_char (sanitize_char c) = sanitize_char c.
Proof.
  intros Hk. unfold sanitize_char at 1. rewrite sanitize_char_lower.
  destruct (N.eqb_spec (sanitize_char c) 32) as [E|]; [|reflexivity].
  rewrite E in Hk. discriminate.
Qed.

Lemma sanitize_codes_fixed (l : list N) :
  List.filter kept
    (List.map sanitize_char (List.filter kept (List.map sanitize_char l)))
  = List.filter kept (List.map sanitize_char l).
Proof.
  induction l as [|c l IH]; [reflexivity|].
  cbn [List.map List.filter].
  destruct (kept (sanitize_char c)) eqn:E; [|exact IH].
  cbn [List.map List.filter].
  rewrite (kept_sanitize_char_fixed c E), E. now rewrite IH.
Qed.

(** X19. Sanitizing a repository name twice gives what sanitizing it once
    gives: a sanitized name can be submitted again and is kept as it
    is. *)
Theorem sanitize_idempotent (repo_name : string) :
  sanitize (sanitize repo_name) = sanitize repo_name.
Proof.
  rewrite <- (of_codes_codes (sanitize (sanitize repo_name))).
  rewrite <- (of_codes_codes (sanitize repo_name)) at 2.
  f_equal. rewrite (codes_sanitize (sanitize repo_name)), codes_sanitize.
  apply sanitize_codes_fixed.
Qed.

Lemma kept_safe (c : N) :
  kept c = true ->
  (c = 45%N \/ 48 <= c)%N
  /\ one_of [46; 47; 92; 58; 32; 0]%N c = false.
Proof.
  intros H.
  assert (Hc : (c = 45 \/ 48 <= c)%N /\ c <> 58%N /\ c <> 92%N).
  { apply kept_word_or_hyphen in H. destruct H as [H | ->];
      [|repeat split; auto; discriminate].
    unfold is_word, between, one_of in H. cbn [existsb] in H.
    rewrite !orb_false_r in H.
    rewrite !orb_true_iff, !andb_true_iff, !N.leb_le, !N.eqb_eq in H. lia. }
  destruct Hc as [Hlow [H58 H92]]. split; [exact Hlow|].
  unfold one_of. cbn [existsb].
  repeat match goal with
         | |- context [(c =? ?k)%N] => destruct (N.eqb_spec c k); try lia
         end; try reflexivity; try congruence.
Qed.

Lemma length_codes (s : string) : String.length s = List.length (codes s).
Proof.
  unfold codes. induction s as [|a s IH]; simpl; [reflexivity | now rewrite IH].
Qed.

(** X20. A sanitized repository name is no longer than the repoName, and
    none of its characters is a slash, a backslash, a dot, a colon, a
    space or a control character, whatever the repoName: the name of the
    project directory and of the archive holds no path separator and no
    parent-directory component. *)
Theorem sanitize_is_path_safe (repo_name : string) :
  (String.length (sanitize repo_name) <= String.length repo_name)%nat
  /\ Forall (fun c => one_of [46; 47; 92; 58; 32; 0]%N c = false
                      /\ (32 < c)%N)
       (codes (sanitize repo_name)).
Proof.
  split.
  - rewrite !length_codes, codes_sanitize.
    rewrite <- (length_map sanitize_char (codes repo_name)).
    apply filter_length_le.
  - rewrite codes_sanitize. apply Forall_forall. intros c Hc.
    apply filter_In in Hc. destruct Hc as [_ Hk].
    destruct (kept_safe c Hk) as [Hlow Hsafe]. split; [exact Hsafe | lia].
Qed.

(** ** Plan contents *)

Lemma plan_lists (created generated : datetime) (project_data : dict)
    (plan : ustr) :
  generate_project_plan created generated project_data = Ok plan ->
  exists ts ty tl df fe be db to ft pf,
    get_default "tech_stack" (PDict []) project_data = PDict ts
    /\ format_tech_list (get_default "frontend" (PList []) ts) = Ok fe
    /\ format_tech_list (get_default "backend" (PList []) ts) = Ok be
    /\ format_tech_list (get_default "database" (PList []) ts) = Ok db
    /\ format_tech_list (get_default "tools" (PList []) ts) = Ok to
    /\ format_features_list (get_default "features" (PList []) project_data)
       = Ok ft
    /\ plan
       = plan_document
           (get_or "title" (PStr "Untitled Project") project_data)
           (get_or "description" (PStr "No description provided") project_data)
           ty tl
           (timeline_days_of
              (get_default "timeline" (PStr "1week") project_data))
           df created fe be db to ft pf
           (get_default "github_username" (PStr "yourusername") project_data)
           (get_default "repo_name" (PStr "my-project") project_data)
           (get_default "include_readme" (PBool true) project_data)
           (get_default "include_license" (PBool false) project_data)
           (get_default "include_gitignore" (PBool true) project_data)
           (get_default "include_venv" (PBool true) project_data) generated.
Proof.
  intros H. unfold generate_project_plan in H. cbv zeta in H.
  destruct (get_default "tech_stack" (PDict []) project_data)
    as [| | | | |ts]; try discriminate.
  cbn [keys bind value_get] in H.
  invert_binds H. inversion H; subst plan. clear H.
  do 10 eexists. repeat split; eassumption.
Qed.

Lemma contains_refl_app (p r : ustr) : contains p (p ++ r) = true.
Proof. apply contains_here. Qed.

Lemma contains_join (x : string) (l : list string) :
  In x l -> contains (codes x) (codes (join nl l)) = true.
Proof.
  induction l as [|y l IH]; [contradiction|].
  intros [->|Hin].
  - destruct l as [|z l]; cbn [join].
    + rewrite <- (app_nil_r (codes x)) at 2. apply contains_here.
    + rewrite codes_append. apply contains_here.
  - destruct l as [|z l]; [contradiction|].
    change (join nl (y :: z :: l)) with (y +++ nl +++ join nl (z :: l)).
    rewrite !codes_append. do 2 apply contains_app_r. now apply IH.
Qed.

Lemma contains_ujoin (x : ustr) (l : list ustr) :
  In x l -> contains x (ujoin (codes nl) l) = true.
Proof.
  induction l as [|y l IH]; [contradiction|].
  intros [->|Hin].
  - destruct l as [|z l]; cbn [ujoin].
    + rewrite <- (app_nil_r x) at 2. apply contains_here.
    + apply contains_here.
  - destruct l as [|z l]; [contradiction|].
    change (ujoin (codes nl) (y :: z :: l))
      with (y ++ codes nl ++ ujoin (codes nl) (z :: l)).
    do 2 apply contains_app_r. now apply IH.
Qed.

Lemma tech_line_listed (techs : list value) (tech : value) (text : string) :
  format_tech_list (PList techs) = Ok text ->
  In tech techs ->
  contains (codes ("- " +++ str tech)) (codes text) = true.
Proof.
  intros H Hin. destruct techs as [|x l]; [contradiction|].
  unfold format_tech_list in H. cbn [truthy negb iter bind] in H.
  replace text with (join nl (List.map (fun t => "- " +++ str t) (x :: l)))
    by congruence.
  apply contains_join.
  now apply (in_map (fun t => "- " +++ str t)).
Qed.

Ltac find_segment seg :=
  repeat lazymatch goal with
         | |- contains _ (seg ++ _) = true => fail
         | |- _ => apply contains_app_r
         end;
  apply contains_app_l.

(** X21. Every technology of the four categories and every feature of a
    configuration is listed in the plan that is returned: a technology on
    a line "- name", a feature on a line "- ", check mark, name. *)
Theorem plan_lists_selection (created generated : datetime)
    (project_data tech_stack : dict) (plan : ustr) :
  generate_project_plan created generated project_data = Ok plan ->
  get_default "tech_stack" (PDict []) project_data = PDict tech_stack ->
  (forall category techs tech,
     In category ["frontend"; "backend"; "database"; "tools"] ->
     get_default category (PList []) tech_stack = PList techs ->
     In tech techs ->
     contains (codes ("- " +++ str tech)) plan = true)
  /\ (forall features feature,
        get_default "features" (PList []) project_data = PList features ->
        In feature features ->
        contains (codes "- " ++ check_mark ++ codes " " ++ codes (str feature))
          plan = true).
Proof.
  intros H Ets.
  destruct (plan_lists created generated project_data plan H)
    as (ts & ty & tl & df & fe & be & db & to & ft & pf
        & Ets' & Hfe & Hbe & Hdb & Hto & Hft & ->).
  rewrite Ets in Ets'. inversion Ets'; subst ts. clear Ets'.
  split.
  - intros category techs tech Hcat Hget Hin. simpl in Hcat.
    destruct Hcat as [<-|[<-|[<-|[<-|[]]]]]; rewrite Hget in *;
      unfold plan_document.
    + find_segment (codes fe). eapply tech_line_listed; eassumption.
    + find_segment (codes be). eapply tech_line_listed; eassumption.
    + find_segment (codes db). eapply tech_line_listed; eassumption.
    + find_segment (codes to). eapply tech_line_listed; eassumption.
  - intros features feature Hget Hin. rewrite Hget in Hft.
    destruct features as [|x l]; [contradiction|].
    unfold format_features_list in Hft. cbn [truthy negb iter bind] in Hft.
    replace ft
      with (ujoin (codes nl)
              (List.map
                 (fun f => codes "- " ++ check_mark ++ codes " "
                             ++ codes (str f)) (x :: l)))
      by congruence.
    unfold plan_document.
    find_segment (ujoin (codes nl)
                    (List.map
                       (fun f => codes "- " ++ check_mark ++ codes " "
                                   ++ codes (str f)) (x :: l))).
    apply contains_ujoin.
    now apply (in_map (fun f => codes "- " ++ check_mark ++ codes " "
                                  ++ codes (str f))).
Qed.

Lemma plan_lists_selection_witness :
  exists plan,
    generate_project_plan noon noon scenario = Ok plan
    /\ contains (codes "- React") plan = true
    /\ contains (codes "- " ++ check_mark ++ codes " Authentication") plan
       = true.
Proof.
  destruct (plan_total noon noon scenario eq_refl) as [plan H].
  exists plan. split; [exact H|].
  destruct (plan_lists_selection noon noon scenario
              [("frontend", PList [PStr "React"]); ("backend", PList []);
               ("database", PList []); ("tools", PList [])] plan H eq_refl)
    as [Htech Hfeat].
  split.
  - apply (Htech "frontend" [PStr "React"] (PStr "React")); simpl; auto.
  - apply (Hfeat [PStr "Authentication"] (PStr "Authentication")); simpl; auto.
Defined.

(** X22. A request body that is a JSON object without a project entry is
    served as the empty configuration: the generate handler answers with
    the plan of the defaults, and the download handler with the archive
    my-project.zip. *)
Theorem missing_project_is_default (created generated : datetime)
    (body : dict) :
  dict_get "project" body = None ->
  exists plan,
    generate_project_plan created generated [] = Ok plan
    /\ generate_project created generated (PDict body) = PlanOk plan
    /\ download_project created generated (PDict body)
       = Attachment "my-project.zip" "application/zip".
Proof.
  intros Hget.
  destruct (plan_total created generated [] eq_refl) as [plan Hplan].
  exists plan. split; [exact Hplan|].
  unfold generate_project, download_project. cbn [value_get bind].
  unfold get_default. rewrite Hget. cbn [as_dict bind].
  rewrite Hplan. cbn [bind]. split; reflexivity.
Qed.

Lemma missing_project_is_default_witness :
  exists plan,
    generate_project_plan noon noon [] = Ok plan
    /\ generate_project noon noon (PDict [("title", PStr "Shop")])
       = PlanOk plan
    /\ download_project noon noon (PDict [("title", PStr "Shop")])
       = Attachment "my-project.zip" "application/zip".
Proof.
  apply (missing_project_is_default noon noon [("title", PStr "Shop")]).
  reflexivity.
Defined.
